(** * The TEM review bot: lifecycle state machine over its SQLite store

    A shallow embedding of [db.py], [state.py], the jobs of [scheduler.py],
    the commands and button handlers of [telegram_handlers.py] with their
    registration in [main.py], and [llm._parse_json_response], with the
    properties of the submission lifecycle proved (or refuted) on it.

    Modelling conventions
    - A table is the list of its rows in rowid order; an [AUTOINCREMENT] key
      is one more than the largest rowid the table ever held.
    - [CURRENT_TIMESTAMP] and [datetime.now()] read one clock, a number of
      seconds, handed to every handler in its environment.
    - The reviewer-picker oracle ([llm.pick_reviewers],
      [llm.pick_replacement_reviewer]) is the environment's answer to the
      call: a dictionary or an exception.
    - The chat transport and the mail gateway deliver: a sent message is
      appended to the log of outgoing items and gets the next message id.  A
      failed e-mail is caught and logged by the code and changes nothing, so
      e-mails are logged as attempts.
    - A Python exception that leaves a handler is the result [Raised]; the
      store keeps what was committed before it.
    - One update, poll or job is handled at a time, from start to end.
    - A number is a Python [int], of any size.  The ids of rows and of
      Telegram users are ones SQLite can hold; the number typed after
      [/override] is any, and SQLite refuses one outside 64 bits.
    - The mailbox's answer to a poll is the environment's; [str] and [float]
      on a clock reading are parameters of the poller. *)

From Stdlib Require Import ZArith List String Ascii Bool Lia.
From Stdlib Require Import DecimalString DecimalPos.
From Equations Require Import Equations.
Import ListNotations.
Open Scope string_scope.
Open Scope list_scope.
Open Scope Z_scope.

(** ** Python strings

    Names, commands and button data are text of code points below 128, and
    [isspace], [strip] and [lower] are given on those; the functions on
    text of any characters come last. *)

Module pystr.

(** [str.isspace] on one character. *)
Definition isspace (c : ascii) : bool :=
  let n := N_of_ascii c in
  ((9 <=? n) && (n <=? 13) || (28 <=? n) && (n <=? 32))%N.

Definition is_empty (s : string) : bool :=
  match s with EmptyString => true | String _ _ => false end.

(** [s.lstrip(chars)], the characters to strip given as a predicate. *)
Fixpoint lstrip_by (p : ascii -> bool) (s : string) : string :=
  match s with
  | EmptyString => EmptyString
  | String c s' => if p c then lstrip_by p s' else s
  end.

(** [s.rstrip(chars)]. *)
Fixpoint rstrip_by (p : ascii -> bool) (s : string) : string :=
  match s with
  | EmptyString => EmptyString
  | String c s' =>
      let r := rstrip_by p s' in
      if p c && is_empty r then EmptyString else String c r
  end.

Definition strip (s : string) : string := lstrip_by isspace (rstrip_by isspace s).

Definition lower_char (c : ascii) : ascii :=
  let n := N_of_ascii c in
  if ((65 <=? n) && (n <=? 90))%N then ascii_of_N (n + 32) else c.

Fixpoint lower (s : string) : string :=
  match s with
  | EmptyString => EmptyString
  | String c s' => String (lower_char c) (lower s')
  end.

Definition startswith (s p : string) : bool := String.prefix p s.

Fixpoint drop (n : nat) (s : string) : string :=
  match n, s with
  | O, _ => s
  | S _, EmptyString => EmptyString
  | S k, String _ s' => drop k s'
  end.

Fixpoint rev_append (acc : string) (s : string) : string :=
  match acc with
  | EmptyString => s
  | String c acc' => rev_append acc' (String c s)
  end.

(** [s.split(sep)] for a non-empty [sep]: [cur] is the current piece,
    reversed; [skip] counts the characters of a separator still to pass. *)
Fixpoint split_go (sep s : string) (skip : nat) (cur : string) : list string :=
  match s with
  | EmptyString => [rev_append cur EmptyString]
  | String c s' =>
      match skip with
      | S k => split_go sep s' k cur
      | O =>
          if String.prefix sep s
          then rev_append cur EmptyString
               :: split_go sep s' (Nat.pred (String.length sep)) EmptyString
          else split_go sep s' O (String c cur)
      end
  end.

Definition split (s sep : string) : list string := split_go sep s O EmptyString.

Fixpoint mem (x : string) (l : list string) : bool :=
  match l with
  | [] => false
  | y :: l' => String.eqb x y || mem x l'
  end.

(** [sep.join(l)]. *)
Fixpoint join (sep : string) (l : list string) : string :=
  match l with
  | [] => EmptyString
  | x :: l' =>
      match l' with
      | [] => x
      | _ :: _ => x ++ sep ++ join sep l'
      end
  end.

(** [s.split(sep, maxsplit)] for a non-empty [sep] and [maxsplit >= 0]:
    after [maxsplit] cuts the rest of the text is the last piece. *)
Fixpoint split_max_go (sep s : string) (maxsplit skip : nat) (cur : string)
  : list string :=
  match s with
  | EmptyString => [rev_append cur EmptyString]
  | String c s' =>
      match skip with
      | S k => split_max_go sep s' maxsplit k cur
      | O =>
          match maxsplit with
          | O => [rev_append cur s]
          | S m =>
              if String.prefix sep s
              then rev_append cur EmptyString
                   :: split_max_go sep s' m (Nat.pred (String.length sep)) EmptyString
              else split_max_go sep s' maxsplit O (String c cur)
          end
      end
  end.

Definition split_max (s sep : string) (maxsplit : nat) : list string :=
  split_max_go sep s maxsplit O EmptyString.

(** [s.strip(c)] for a one-character [c]. *)
Definition strip_char (c : ascii) (s : string) : string :=
  lstrip_by (Ascii.eqb c) (rstrip_by (Ascii.eqb c) s).

(** [str(n)] of an [int]: decimal digits, a minus sign when negative. *)
Definition of_int (n : Z) : string := NilZero.string_of_int (Z.to_int n).

(** *** Text of any characters

    The title of a submission is whatever the mail says.  Such a text is
    held as the bytes of its UTF-8 encoding, the form SQLite stores it in. *)

Definition is_ascii_char (c : ascii) : bool := (N_of_ascii c <? 128)%N.

(** Every character of [s] is below 128. *)
Fixpoint is_ascii (s : string) : bool :=
  match s with
  | EmptyString => true
  | String c s' => is_ascii_char c && is_ascii s'
  end.

Definition byte_is (c : ascii) (n : N) : bool := (N_of_ascii c =? n)%N.

Definition byte_in (c : ascii) (lo hi : N) : bool :=
  ((lo <=? N_of_ascii c) && (N_of_ascii c <=? hi))%N.

(** The number of bytes of the white-space character that [s] begins with,
    0 when it begins with none.  White space, for [str.split()], is what
    [str.isspace] holds of: the blanks of ASCII, U+0085, U+00A0, U+1680,
    U+2000 to U+200A, U+2028, U+2029, U+202F, U+205F and U+3000. *)
Definition space_width (s : string) : nat :=
  match s with
  | EmptyString => 0
  | String c (String d (String e _)) =>
      if isspace c then 1
      else if byte_is c 194 && (byte_is d 133 || byte_is d 160) then 2
      else if byte_is c 225 && byte_is d 154 && byte_is e 128 then 3
      else if byte_is c 226 && byte_is d 128
              && (byte_in e 128 138 || byte_is e 168 || byte_is e 169
                  || byte_is e 175) then 3
      else if byte_is c 226 && byte_is d 129 && byte_is e 159 then 3
      else if byte_is c 227 && byte_is d 128 && byte_is e 128 then 3
      else 0
  | String c (String d EmptyString) =>
      if isspace c then 1
      else if byte_is c 194 && (byte_is d 133 || byte_is d 160) then 2
      else 0
  | String c EmptyString => if isspace c then 1 else 0
  end%nat.

(** The characters of [s] up to the first white space. *)
Fixpoint take_word (s : string) : string :=
  match s with
  | EmptyString => EmptyString
  | String c s' =>
      match space_width s with
      | O => String c (take_word s')
      | S _ => EmptyString
      end
  end.

(** [s.split()[0]]: white space is passed over and the characters up to the
    next white space are the word; [None] when [s] is white space only.
    [skip] counts the bytes still to pass of a white-space character. *)
Fixpoint first_word_go (s : string) (skip : nat) : option string :=
  match s with
  | EmptyString => None
  | String _ s' =>
      match skip with
      | S k => first_word_go s' k
      | O =>
          match space_width s with
          | O => Some (take_word s)
          | S k => first_word_go s' k
          end
      end
  end.

Definition first_word (s : string) : option string := first_word_go s 0.

End pystr.

(** ** SQLite's text functions *)

Module sqlite.

(** [text LIKE pattern] with the default settings: [%] stands for any run
    of characters, [_] for any one character, and a letter of the ASCII
    alphabet matches in either case.  There is no escape character.
    Pattern and text are matched byte by byte, so that [_] stands for one
    byte: that is one character of a text of ASCII, while of a text with
    other characters SQLite's [_] takes a character whole. *)
Fixpoint like (pattern text : string) : bool :=
  match pattern with
  | EmptyString => pystr.is_empty text
  | String c p' =>
      if Ascii.eqb c "%" then
        (fix any (t : string) : bool :=
           like p' t
           || match t with
              | EmptyString => false
              | String _ t' => any t'
              end) text
      else
        match text with
        | EmptyString => false
        | String d t' =>
            (Ascii.eqb c "_"
             || Ascii.eqb (pystr.lower_char c) (pystr.lower_char d))
            && like p' t'
        end
  end.

(** [lower(X)]: the letters A to Z only. *)
Definition lower (s : string) : string := pystr.lower s.

(** The integers [sqlite3] binds to a parameter: those of 64 bits.  For any
    other [int] it raises [OverflowError]. *)
Definition fits_integer (n : Z) : bool :=
  (- 2 ^ 63 <=? n) && (n <=? 2 ^ 63 - 1).

End sqlite.

(** ** Rows of the five tables ([db.init_db]) *)

Inductive SubmissionStatus :=
  pending_assignment | assigning | under_review | accepted | rejected.

Inductive AssignmentStatus := pending | confirmed | declined | done.

Definition sub_status_eqb (a b : SubmissionStatus) : bool :=
  match a, b with
  | pending_assignment, pending_assignment | assigning, assigning
  | under_review, under_review | accepted, accepted | rejected, rejected => true
  | _, _ => false
  end.

Definition asg_status_eqb (a b : AssignmentStatus) : bool :=
  match a, b with
  | pending, pending | confirmed, confirmed | declined, declined | done, done => true
  | _, _ => false
  end.

(** The columns of a submission that come from the e-mail; also the
    [email_data] dictionary of the mailbox poller. *)
Record EmailData := {
  gmail_message_id : string;
  gmail_thread_id : option string;
  title : string;
  author_name : string;
  author_email : string;
  medium_url : option string;
  email_subject : string;
  email_body : string
}.

Record Submission := {
  sub_id : Z;
  email : EmailData;
  status : SubmissionStatus;
  created_at : Z;
  accepted_at : option Z;
  rejected_at : option Z;
  publish_date : option Z;          (* the day, as a proleptic ordinal *)
  tg_status_message_id : option Z
}.

Record Assignment := {
  a_id : Z;
  a_submission_id : Z;
  reviewer_tg_username : string;
  reviewer_tg_id : option Z;
  a_status : AssignmentStatus;
  assigned_at : Z;
  responded_at : option Z;
  done_at : option Z
}.

Record Followup := {
  f_id : Z;
  f_submission_id : Z;
  scheduled_at : Z;
  sent_at : option Z
}.

Record HistoryRow := {
  h_id : Z;
  h_submission_id : Z;
  h_reviewer_tg_username : string;
  h_assigned_at : Z
}.

Record Rejection := {
  r_id : Z;
  r_submission_id : Z;
  proposed_by : string;
  reason : string;
  seconds : list string;            (* the JSON list of the [seconds] column *)
  tg_proposal_message_id : option Z;
  proposed_at : Z
}.

(** [sqlite_sequence]: the largest rowid ever used, per table. *)
Record Sequence := {
  seq_submissions : Z;
  seq_assignments : Z;
  seq_followups : Z;
  seq_assignment_history : Z;
  seq_rejections : Z
}.

Record Store := {
  submissions : list Submission;
  assignments : list Assignment;
  followups : list Followup;
  assignment_history : list HistoryRow;
  rejections : list Rejection;
  sqlite_sequence : Sequence
}.

Definition empty_store : Store :=
  {| submissions := []; assignments := []; followups := [];
     assignment_history := []; rejections := [];
     sqlite_sequence := {| seq_submissions := 0; seq_assignments := 0;
                           seq_followups := 0; seq_assignment_history := 0;
                           seq_rejections := 0 |} |}.

(** Exceptions that leave a database call or a handler. *)
Inductive Exn := IntegrityError | TypeError | KeyError | ValueError
               | IndexError | OverflowError | UnknownTimeZoneError
               | AttributeError.

Inductive Result (A : Type) := Returned (a : A) | Raised (e : Exn).
Arguments Returned {A} a.
Arguments Raised {A} e.

(** ** db.py: the queries *)

Module db.

Definition max_rowid {R : Type} (key : R -> Z) (rows : list R) : Z :=
  fold_right (fun r m => Z.max (key r) m) 0 rows.

(** The key an [AUTOINCREMENT] column gives the next row. *)
Definition next_rowid {R : Type} (seq : Z) (key : R -> Z) (rows : list R) : Z :=
  Z.max seq (max_rowid key rows) + 1.

Definition with_status (s : Submission) (v : SubmissionStatus) : Submission :=
  {| sub_id := sub_id s; email := email s; status := v;
     created_at := created_at s; accepted_at := accepted_at s;
     rejected_at := rejected_at s; publish_date := publish_date s;
     tg_status_message_id := tg_status_message_id s |}.

Definition with_submissions (st : Store) (l : list Submission) : Store :=
  {| submissions := l; assignments := assignments st; followups := followups st;
     assignment_history := assignment_history st; rejections := rejections st;
     sqlite_sequence := sqlite_sequence st |}.

Definition with_assignments (st : Store) (l : list Assignment) : Store :=
  {| submissions := submissions st; assignments := l; followups := followups st;
     assignment_history := assignment_history st; rejections := rejections st;
     sqlite_sequence := sqlite_sequence st |}.

Definition with_followups (st : Store) (l : list Followup) : Store :=
  {| submissions := submissions st; assignments := assignments st; followups := l;
     assignment_history := assignment_history st; rejections := rejections st;
     sqlite_sequence := sqlite_sequence st |}.

Definition with_rejections (st : Store) (l : list Rejection) : Store :=
  {| submissions := submissions st; assignments := assignments st;
     followups := followups st; assignment_history := assignment_history st;
     rejections := l; sqlite_sequence := sqlite_sequence st |}.

(** *** Submissions *)

Definition get_submission_by_id (sub : Z) (st : Store) : option Submission :=
  find (fun s => sub_id s =? sub) (submissions st).

Definition get_submission_by_gmail_id (gid : string) (st : Store) : option Submission :=
  find (fun s => String.eqb (gmail_message_id (email s)) gid) (submissions st).

(** [INSERT INTO submissions]: the [UNIQUE] constraint on
    [gmail_message_id] refuses a second row with the same id. *)
Definition insert_submission (e : EmailData) (now : Z) (st : Store) : Result Z * Store :=
  match get_submission_by_gmail_id (gmail_message_id e) st with
  | Some _ => (Raised IntegrityError, st)
  | None =>
      let q := sqlite_sequence st in
      let i := next_rowid (seq_submissions q) sub_id (submissions st) in
      let row := {| sub_id := i; email := e; status := pending_assignment;
                    created_at := now; accepted_at := None; rejected_at := None;
                    publish_date := None; tg_status_message_id := None |} in
      (Returned i,
       {| submissions := submissions st ++ [row]; assignments := assignments st;
          followups := followups st; assignment_history := assignment_history st;
          rejections := rejections st;
          sqlite_sequence :=
            {| seq_submissions := i; seq_assignments := seq_assignments q;
               seq_followups := seq_followups q;
               seq_assignment_history := seq_assignment_history q;
               seq_rejections := seq_rejections q |} |})
  end.

Definition update_where {R : Type} (p : R -> bool) (f : R -> R) (rows : list R) : list R :=
  map (fun r => if p r then f r else r) rows.

Definition update_submission_status (sub : Z) (v : SubmissionStatus) (st : Store) : Store :=
  with_submissions st
    (update_where (fun s => sub_id s =? sub) (fun s => with_status s v) (submissions st)).

Definition set_submission_accepted (sub : Z) (day : Z) (now : Z) (st : Store) : Store :=
  with_submissions st
    (update_where (fun s => sub_id s =? sub)
       (fun s => {| sub_id := sub_id s; email := email s; status := accepted;
                    created_at := created_at s; accepted_at := Some now;
                    rejected_at := rejected_at s; publish_date := Some day;
                    tg_status_message_id := tg_status_message_id s |})
       (submissions st)).

Definition set_submission_rejected (sub : Z) (now : Z) (st : Store) : Store :=
  with_submissions st
    (update_where (fun s => sub_id s =? sub)
       (fun s => {| sub_id := sub_id s; email := email s; status := rejected;
                    created_at := created_at s; accepted_at := accepted_at s;
                    rejected_at := Some now; publish_date := publish_date s;
                    tg_status_message_id := tg_status_message_id s |})
       (submissions st)).

Definition set_tg_status_message_id (sub : Z) (message_id : Z) (st : Store) : Store :=
  with_submissions st
    (update_where (fun s => sub_id s =? sub)
       (fun s => {| sub_id := sub_id s; email := email s; status := status s;
                    created_at := created_at s; accepted_at := accepted_at s;
                    rejected_at := rejected_at s; publish_date := publish_date s;
                    tg_status_message_id := Some message_id |})
       (submissions st)).

(** *** Assignments *)

Definition is_pair (sub : Z) (username : string) (a : Assignment) : bool :=
  (a_submission_id a =? sub) && String.eqb (reviewer_tg_username a) username.

(** [INSERT INTO assignments], then the same pair into
    [assignment_history]; the foreign key needs the submission. *)
Definition insert_assignment (sub : Z) (username : string) (now : Z) (st : Store)
  : Result Z * Store :=
  match get_submission_by_id sub st with
  | None => (Raised IntegrityError, st)
  | Some _ =>
      let q := sqlite_sequence st in
      let i := next_rowid (seq_assignments q) a_id (assignments st) in
      let h := next_rowid (seq_assignment_history q) h_id (assignment_history st) in
      let row := {| a_id := i; a_submission_id := sub;
                    reviewer_tg_username := username; reviewer_tg_id := None;
                    a_status := pending; assigned_at := now;
                    responded_at := None; done_at := None |} in
      let hrow := {| h_id := h; h_submission_id := sub;
                     h_reviewer_tg_username := username; h_assigned_at := now |} in
      (Returned i,
       {| submissions := submissions st; assignments := assignments st ++ [row];
          followups := followups st;
          assignment_history := assignment_history st ++ [hrow];
          rejections := rejections st;
          sqlite_sequence :=
            {| seq_submissions := seq_submissions q; seq_assignments := i;
               seq_followups := seq_followups q; seq_assignment_history := h;
               seq_rejections := seq_rejections q |} |})
  end.

(** [ORDER BY id DESC LIMIT 1]. *)
Fixpoint latest_by_id (rows : list Assignment) : option Assignment :=
  match rows with
  | [] => None
  | r :: rest =>
      match latest_by_id rest with
      | None => Some r
      | Some r' => if a_id r' <? a_id r then Some r else Some r'
      end
  end.

Definition get_assignment (sub : Z) (username : string) (st : Store) : option Assignment :=
  latest_by_id (filter (is_pair sub username) (assignments st)).

Definition get_assignments_for_submission (sub : Z) (st : Store) : list Assignment :=
  filter (fun a => a_submission_id a =? sub) (assignments st).

Definition get_confirmed_reviewers (sub : Z) (st : Store) : list Assignment :=
  filter (fun a => (a_submission_id a =? sub) && asg_status_eqb (a_status a) confirmed)
         (assignments st).

Definition get_done_reviewers (sub : Z) (st : Store) : list Assignment :=
  filter (fun a => (a_submission_id a =? sub) && asg_status_eqb (a_status a) done)
         (assignments st).

(** [UPDATE assignments SET status, responded_at (, reviewer_tg_id) WHERE
    submission_id = ? AND reviewer_tg_username = ?]: every row of the pair. *)
Definition update_assignment_status (sub : Z) (username : string)
    (v : AssignmentStatus) (tg_id : option Z) (now : Z) (st : Store) : Store :=
  with_assignments st
    (update_where (is_pair sub username)
       (fun a => {| a_id := a_id a; a_submission_id := a_submission_id a;
                    reviewer_tg_username := reviewer_tg_username a;
                    reviewer_tg_id := match tg_id with
                                      | Some i => Some i
                                      | None => reviewer_tg_id a
                                      end;
                    a_status := v; assigned_at := assigned_at a;
                    responded_at := Some now; done_at := done_at a |})
       (assignments st)).

Definition mark_assignment_done (sub : Z) (username : string)
    (tg_id : option Z) (now : Z) (st : Store) : Store :=
  with_assignments st
    (update_where (is_pair sub username)
       (fun a => {| a_id := a_id a; a_submission_id := a_submission_id a;
                    reviewer_tg_username := reviewer_tg_username a;
                    reviewer_tg_id := match tg_id with
                                      | Some i => Some i
                                      | None => reviewer_tg_id a
                                      end;
                    a_status := done; assigned_at := assigned_at a;
                    responded_at := responded_at a; done_at := Some now |})
       (assignments st)).

(** [DELETE FROM assignments WHERE submission_id = ? AND status IN
    ('pending', 'declined')]. *)
Definition clear_pending_assignments (sub : Z) (st : Store) : Store :=
  with_assignments st
    (filter (fun a => negb ((a_submission_id a =? sub)
                            && (asg_status_eqb (a_status a) pending
                                || asg_status_eqb (a_status a) declined)))
            (assignments st)).

(** *** Follow-ups *)

Definition insert_followup (sub : Z) (at_ : Z) (st : Store) : Result unit * Store :=
  match get_submission_by_id sub st with
  | None => (Raised IntegrityError, st)
  | Some _ =>
      let q := sqlite_sequence st in
      let i := next_rowid (seq_followups q) f_id (followups st) in
      let row := {| f_id := i; f_submission_id := sub; scheduled_at := at_;
                    sent_at := None |} in
      (Returned tt,
       {| submissions := submissions st; assignments := assignments st;
          followups := followups st ++ [row];
          assignment_history := assignment_history st;
          rejections := rejections st;
          sqlite_sequence :=
            {| seq_submissions := seq_submissions q;
               seq_assignments := seq_assignments q; seq_followups := i;
               seq_assignment_history := seq_assignment_history q;
               seq_rejections := seq_rejections q |} |})
  end.

Definition is_unsent (f : Followup) : bool :=
  match sent_at f with None => true | Some _ => false end.

(** The due rows: scheduled by [now], not sent, of a submission that is
    [under_review]. *)
Definition get_pending_followups (now : Z) (st : Store) : list Followup :=
  filter (fun f =>
            (scheduled_at f <=? now) && is_unsent f
            && match get_submission_by_id (f_submission_id f) st with
               | Some s => sub_status_eqb (status s) under_review
               | None => false
               end)
         (followups st).

Definition mark_followup_sent (followup_id : Z) (now : Z) (st : Store) : Store :=
  with_followups st
    (update_where (fun f => f_id f =? followup_id)
       (fun f => {| f_id := f_id f; f_submission_id := f_submission_id f;
                    scheduled_at := scheduled_at f; sent_at := Some now |})
       (followups st)).

(** *** Rejections *)

Definition insert_rejection (sub : Z) (by_ : string) (why : string) (now : Z)
    (st : Store) : Result Z * Store :=
  match get_submission_by_id sub st with
  | None => (Raised IntegrityError, st)
  | Some _ =>
      let q := sqlite_sequence st in
      let i := next_rowid (seq_rejections q) r_id (rejections st) in
      let row := {| r_id := i; r_submission_id := sub; proposed_by := by_;
                    reason := why; seconds := [];
                    tg_proposal_message_id := None; proposed_at := now |} in
      (Returned i,
       {| submissions := submissions st; assignments := assignments st;
          followups := followups st;
          assignment_history := assignment_history st;
          rejections := rejections st ++ [row];
          sqlite_sequence :=
            {| seq_submissions := seq_submissions q;
               seq_assignments := seq_assignments q;
               seq_followups := seq_followups q;
               seq_assignment_history := seq_assignment_history q;
               seq_rejections := i |} |})
  end.

(** [ORDER BY proposed_at DESC LIMIT 1].  SQL leaves the choice among rows
    of one timestamp open; the earliest of them is taken. *)
Fixpoint latest_proposed (rows : list Rejection) : option Rejection :=
  match rows with
  | [] => None
  | r :: rest =>
      match latest_proposed rest with
      | None => Some r
      | Some r' => if proposed_at r <? proposed_at r' then Some r' else Some r
      end
  end.

Definition get_active_rejection (sub : Z) (st : Store) : option Rejection :=
  latest_proposed (filter (fun r => r_submission_id r =? sub) (rejections st)).

Definition with_seconds (r : Rejection) (l : list string) : Rejection :=
  {| r_id := r_id r; r_submission_id := r_submission_id r;
     proposed_by := proposed_by r; reason := reason r; seconds := l;
     tg_proposal_message_id := tg_proposal_message_id r;
     proposed_at := proposed_at r |}.

Definition add_second_to_rejection (rejection_id : Z) (username : string) (st : Store)
  : list string * Store :=
  let old := match find (fun r => r_id r =? rejection_id) (rejections st) with
             | Some r => seconds r
             | None => []
             end in
  let new := if pystr.mem username old then old else (old ++ [username])%list in
  (new,
   with_rejections st
     (update_where (fun r => r_id r =? rejection_id)
        (fun r => with_seconds r new) (rejections st))).

Definition set_rejection_proposal_message_id (rejection_id : Z) (message_id : Z)
    (st : Store) : Store :=
  with_rejections st
    (update_where (fun r => r_id r =? rejection_id)
       (fun r => {| r_id := r_id r; r_submission_id := r_submission_id r;
                    proposed_by := proposed_by r; reason := reason r;
                    seconds := seconds r;
                    tg_proposal_message_id := Some message_id;
                    proposed_at := proposed_at r |})
       (rejections st)).

(** *** Submissions, by keyword and by activity *)

(** [WHERE lower(title) LIKE lower('%keyword%') AND status NOT IN
    ('accepted', 'rejected')]; the keyword goes into the pattern as typed. *)
Definition get_submission_by_title_keyword (keyword : string) (st : Store)
  : list Submission :=
  filter (fun s =>
            sqlite.like (sqlite.lower ("%" ++ keyword ++ "%"))
                        (sqlite.lower (title (email s)))
            && negb (sub_status_eqb (status s) accepted
                     || sub_status_eqb (status s) rejected))
         (submissions st).

(** [WHERE status IN ('assigning', 'under_review')]. *)
Definition get_active_submissions (st : Store) : list Submission :=
  filter (fun s => sub_status_eqb (status s) assigning
                   || sub_status_eqb (status s) under_review)
         (submissions st).

(** *** Bot state: the [bot_state] table, key and value *)

Definition BotState : Type := list (string * string).

Definition has_key (key : string) (row : string * string) : bool :=
  String.eqb (fst row) key.

(** [SELECT value FROM bot_state WHERE key = ?], or the default. *)
Definition get_state (key : string) (default : option string) (t : BotState)
  : option string :=
  match find (has_key key) t with
  | Some row => Some (snd row)
  | None => default
  end.

(** [INSERT ... ON CONFLICT(key) DO UPDATE SET value = excluded.value]. *)
Definition set_state (key value : string) (t : BotState) : BotState :=
  match find (has_key key) t with
  | Some _ => update_where (has_key key) (fun row => (fst row, value)) t
  | None => t ++ [(key, value)]
  end.

End db.

(** ** datetime: a wall-clock reading *)

Module datetime.

Record DateTime := {
  ordinal : Z;        (* [date.toordinal()]: day 1 is Monday 0001-01-01 *)
  hour : Z;
  minute : Z;
  second : Z;
  microsecond : Z
}.

(** [date.max.toordinal()], 9999-12-31. *)
Definition MAXORDINAL : Z := 3652059.

(** [d.weekday()]: Monday is 0, Saturday 5, Sunday 6. *)
Definition weekday (d : DateTime) : Z := (ordinal d + 6) mod 7.

(** The wall-clock value of [d + timedelta(days=1)], within range. *)
Definition tomorrow (d : DateTime) : DateTime :=
  {| ordinal := ordinal d + 1; hour := hour d; minute := minute d;
     second := second d; microsecond := microsecond d |}.

(** [d + timedelta(days=1)]. *)
Definition plus_one_day (d : DateTime) : Result DateTime :=
  if ordinal d + 1 <=? MAXORDINAL then Returned (tomorrow d) else Raised OverflowError.

(** [d.replace(hour=h, minute=m, second=0, microsecond=0)]. *)
Definition replace_time (d : DateTime) (h m : Z) : Result DateTime :=
  if (0 <=? h) && (h <=? 23) && (0 <=? m) && (m <=? 59)
  then Returned {| ordinal := ordinal d; hour := h; minute := m;
                   second := 0; microsecond := 0 |}
  else Raised ValueError.

Definition digit_val (c : ascii) : option Z :=
  let n := N_of_ascii c in
  if ((48 <=? n) && (n <=? 57))%N then Some (Z.of_N n - 48) else None.

(** The digits of an [int] literal: single underscores between digits. *)
Fixpoint int_digits (s : string) (acc : Z) (after_digit : bool) : option Z :=
  match s with
  | EmptyString => if after_digit then Some acc else None
  | String c s' =>
      match digit_val c with
      | Some v => int_digits s' (10 * acc + v) true
      | None =>
          if Ascii.eqb c "_" && after_digit then int_digits s' acc false else None
      end
  end.

(** [int(s)] in base ten: surrounding whitespace, an optional sign, digits. *)
Definition int (s : string) : Result Z :=
  let t := pystr.strip s in
  let r := match t with
           | String "+" u => int_digits u 0 false
           | String "-" u => option_map Z.opp (int_digits u 0 false)
           | _ => int_digits t 0 false
           end in
  match r with Some v => Returned v | None => Raised ValueError end.

End datetime.

(** ** llm.py: reading the oracle's answer *)

Module llm.

Definition is_backtick (c : ascii) : bool := Ascii.eqb c "`".

(** The text [_parse_json_response] hands to [json.loads]. *)
Definition strip_fences (raw : string) : Result string :=
  let raw := pystr.strip raw in
  let unfenced :=
    if pystr.startswith raw "```" then
      match nth_error (pystr.split raw "```") 1 with
      | None => Raised IndexError
      | Some body =>
          Returned (if pystr.startswith body "json" then pystr.drop 4 body else body)
      end
    else Returned raw in
  match unfenced with
  | Raised e => Raised e
  | Returned raw =>
      Returned (pystr.strip (pystr.rstrip_by is_backtick (pystr.strip raw)))
  end.

Section Parse.

Context {Json : Type}.

(** [json.loads]: [None] is a [JSONDecodeError]. *)
Variable json_loads : string -> option Json.

(** The result, and the texts [json.loads] was called on, in order. *)
Definition _parse_json_response (raw : string) : Result Json * list string :=
  match strip_fences raw with
  | Raised e => (Raised e, [])
  | Returned text =>
      match json_loads text with
      | Some j => (Returned j, [text])
      | None => (Raised ValueError, [text])
      end
  end.

End Parse.

(** A value of the answer's JSON, as far as [state.py] tells values apart:
    a string, or anything else ([null], a number, a boolean, a list, an
    object) with its truth value. *)
Inductive Value := text (s : string) | other (truth : bool).

(** What [pick_reviewers] and [pick_replacement_reviewer] return: the keys
    of the answer that [state.py] reads, [None] for a key that is absent.
    [category] and [reason_zh] are only printed, and are kept as printed. *)
Record Picked := {
  reviewer1 : option Value;
  reviewer2 : option Value;
  category : option string;
  reason_zh : option string
}.

End llm.

(** ** What the bot sends *)

Inductive Button :=
| accept_button (sub : Z) (username : string)
| decline_button (sub : Z) (username : string)
| done_button (sub : Z) (username : string)
| confirm_rejection_button (sub : Z).

(** The [/second] keyword quoted in a proposal: a word in lower case, the
    lower case of a word [w] that has characters outside ASCII, which
    [str.lower] takes from Unicode's tables and is left unevaluated here, or
    a submission's number. *)
Inductive Keyword :=
| title_word (w : string)
| lowered (w : string)
| submission_number (sub : Z).

(** The message templates of [state.py], by their variable parts. *)
Inductive Text :=
| assignment_failed_text (title : string) (sub : Z)
| announcement_text (e : EmailData) (category reason_zh : string) (reviewers : list string)
| availability_text (reviewers : list string) (title : string)
| replacement_text (declined_by : string) (title : string) (new_reviewer : string)
| manual_override_text (declined_by : string) (title : string) (sub : Z)
                       (confirmed_now : list string)
| under_review_text (title : string) (reviewers : list string)
| waiting_text (username : string) (title : string) (waiting_on : list string)
| accepted_text (title : string) (publish_day : Z)
| proposal_text (proposer : string) (title : string) (why : string) (k : Keyword)
| seconds_text (proposer : string) (title : string) (why : string)
               (supporters : list string)
| rejected_text (title : string)
| override_text (title : string) (reviewers : list string)
| followup_text (title : string) (reviewers : list string).

Inductive Outgoing :=
| send_message (chat_id : Z) (text : Text) (keyboard : list (list Button))
| edit_message_text (chat_id : Z) (message_id : option Z) (text : Text)
                    (keyboard : list (list Button))
| send_under_review_email (s : Submission)
| send_acceptance_email (s : Submission) (publish_day : Z)
| send_rejection_email (s : Submission) (why : string).

(** The store and everything sent so far. *)
Record World := {
  store : Store;
  outbox : list Outgoing
}.

(** [config.yaml], the keys [state.py] reads. *)
Record Config := {
  group_chat_id : Z;
  operator_user_id : option Z;
  followup_interval_days : Z;
  publish_timezone : option string;
  publish_time : option string
}.

(** What a handler reads from outside: the configuration, the clock, and
    [datetime.now(pytz.timezone(name))]. *)
Record Env := {
  config : Config;
  now : Z;
  local_now : string -> Result datetime.DateTime
}.

(** ** Handlers run in a state monad with exceptions *)

Definition M (A : Type) : Type := World -> Result A * World.

Definition ret {A : Type} (a : A) : M A := fun w => (Returned a, w).

Definition raise {A : Type} (e : Exn) : M A := fun w => (Raised e, w).

Definition bind {A B : Type} (m : M A) (k : A -> M B) : M B :=
  fun w => match m w with
           | (Returned a, w') => k a w'
           | (Raised e, w') => (Raised e, w')
           end.

Notation "x <- m ;; k" := (bind m (fun x => k))
  (at level 61, m at next level, right associativity).
Notation "m ;;; k" := (bind m (fun _ => k))
  (at level 61, right associativity).

(** A [SELECT]. *)
Definition query {A : Type} (f : Store -> A) : M A :=
  fun w => (Returned (f (store w)), w).

(** An [UPDATE] or [DELETE]. *)
Definition exec (f : Store -> Store) : M unit :=
  fun w => (Returned tt, {| store := f (store w); outbox := outbox w |}).

(** A statement that can fail or that returns a value. *)
Definition call {A : Type} (f : Store -> Result A * Store) : M A :=
  fun w => let (r, st) := f (store w) in (r, {| store := st; outbox := outbox w |}).

(** Send one item; the chat's id of the message is its place in the log. *)
Definition emit (o : Outgoing) : M Z :=
  fun w => (Returned (Z.of_nat (List.length (outbox w)) + 1),
            {| store := store w; outbox := outbox w ++ [o] |}).

(** [try: body except Exception: handler]. *)
Definition try_except {A : Type} (body : M A) (handler : Exn -> M A) : M A :=
  fun w => match body w with
           | (Returned a, w') => (Returned a, w')
           | (Raised e, w') => handler e w'
           end.

Fixpoint for_each {A B : Type} (l : list A) (f : A -> M B) : M unit :=
  match l with
  | [] => ret tt
  | x :: l' => f x ;;; for_each l' f
  end.

Definition lift {A : Type} (r : Result A) : M A :=
  fun w => (r, w).

(** A Python value used as a condition: [None] and [0] are false. *)
Definition truthy (v : option Z) : bool :=
  match v with Some x => negb (x =? 0) | None => false end.

Definition get_or {A : Type} (v : option A) (default : A) : A :=
  match v with Some x => x | None => default end.

Definition and_then {A B : Type} (r : Result A) (k : A -> Result B) : Result B :=
  match r with Returned a => k a | Raised e => Raised e end.

(** ** state.py *)

Module state.

Import datetime.

(** *** Publish date *)

(** [while candidate.weekday() >= 5: candidate += timedelta(days=1)] *)
Equations? skip_weekend (candidate : DateTime) : Result DateTime
  by wf (Z.to_nat ((7 - weekday candidate) mod 7)) lt :=
  skip_weekend candidate with Z_le_dec 5 (weekday candidate) := {
    | right _ := Returned candidate
    | left _ with Z_le_dec (ordinal candidate + 1) MAXORDINAL := {
        | left _ := skip_weekend (tomorrow candidate)
        | right _ := Raised OverflowError } }.
Proof.
  unfold weekday in *. simpl.
  assert (H : 0 <= (ordinal candidate + 6) mod 7 < 7) by (apply Z.mod_pos_bound; lia).
  assert (E : (ordinal candidate + 6) mod 7 = 5 \/ (ordinal candidate + 6) mod 7 = 6) by lia.
  replace (ordinal candidate + 1 + 6) with ((ordinal candidate + 6) + 1) by lia.
  rewrite Z.add_mod by lia.
  destruct E as [E | E]; rewrite E; vm_compute; lia.
Qed.

Definition compute_publish_date (env : Env) (timezone_str publish_time_str : string)
  : Result DateTime :=
  and_then (local_now env timezone_str) (fun now =>
  and_then (plus_one_day now) (fun candidate =>
  and_then (skip_weekend candidate) (fun candidate =>
  let parts := pystr.split publish_time_str ":" in
  and_then (match nth_error parts 0 with
            | Some h => int h
            | None => Raised IndexError
            end) (fun hour =>
  and_then (match nth_error parts 1 with
            | Some m => int m
            | None => Raised IndexError
            end) (fun minute =>
  replace_time candidate hour minute))))).

(** *** What a handler answers *)

Inductive Reply :=
| assignment_not_found          (* "Assignment not found." *)
| already_recorded              (* "Already recorded!" *)
| confirmed_thank_you           (* "Confirmed! Thank you." *)
| noted_looking_for_replacement (* "Noted. Looking for a replacement." *)
| submission_not_found          (* "Submission not found." *)
| not_under_review              (* "This submission is not currently under review." *)
| not_assigned (username : string)
| review_marked_done            (* "Review marked as done!" *)
| no_active_proposal
| cannot_second_own
| second_recorded_waiting       (* "... Waiting for operator confirmation." *)
| second_recorded (count : nat)
| only_operator                 (* "Only the operator can confirm rejection." *)
| rejection_confirmed
| override_not_found (sub : Z)
| override_applied (reviewers : list string).

Definition availability_keyboard (sub : Z) (reviewers : list string) : list (list Button) :=
  map (fun r => [accept_button sub r; decline_button sub r]) reviewers.

Definition done_keyboard (sub : Z) (reviewers : list string) : list (list Button) :=
  map (fun r => [done_button sub r]) reviewers.

(** The [callback_data] a button carries. *)
Definition callback_data (b : Button) : string :=
  match b with
  | accept_button sub r => "accept_" ++ pystr.of_int sub ++ "_" ++ r
  | decline_button sub r => "decline_" ++ pystr.of_int sub ++ "_" ++ r
  | done_button sub r => "done_" ++ pystr.of_int sub ++ "_" ++ r
  | confirm_rejection_button sub => "confirm_rejection_" ++ pystr.of_int sub
  end.

(** *** New submission *)

(** [[r.strip() for r in values if r and r.strip()]]: a value that is not
    a string is passed over when it is false and has no [strip] when it is
    true. *)
Fixpoint stripped_names (values : list llm.Value) : Result (list string) :=
  match values with
  | [] => Returned []
  | llm.text r :: rest =>
      match stripped_names rest with
      | Raised e => Raised e
      | Returned names =>
          Returned (if negb (pystr.is_empty r) && negb (pystr.is_empty (pystr.strip r))
                    then pystr.strip r :: names
                    else names)
      end
  | llm.other true :: _ => Raised AttributeError
  | llm.other false :: rest => stripped_names rest
  end.

Definition handle_new_submission (env : Env) (email_data : EmailData)
    (oracle : Result llm.Picked) : M unit :=
  existing <- query (db.get_submission_by_gmail_id (gmail_message_id email_data)) ;;
  match existing with
  | Some _ => ret tt
  | None =>
      sub <- call (db.insert_submission email_data (now env)) ;;
      match oracle with
      | Raised _ =>
          emit (send_message (group_chat_id (config env))
                  (assignment_failed_text (title email_data) sub) []) ;;;
          ret tt
      | Returned assignment =>
          match llm.reviewer1 assignment with
          | None => raise KeyError
          | Some r1 =>
              reviewers <- lift (stripped_names
                                   [r1; get_or (llm.reviewer2 assignment) (llm.text "")]) ;;
              for_each reviewers
                (fun r => call (db.insert_assignment sub r (now env))) ;;;
              exec (db.update_submission_status sub assigning) ;;;
              emit (send_message (group_chat_id (config env))
                      (announcement_text email_data
                         (get_or (llm.category assignment) "")
                         (get_or (llm.reason_zh assignment) "") reviewers) []) ;;;
              message_id <- emit (send_message (group_chat_id (config env))
                                    (availability_text reviewers (title email_data))
                                    (availability_keyboard sub reviewers)) ;;
              exec (db.set_tg_status_message_id sub message_id)
          end
      end
  end.

(** *** Transition to under review *)

Definition _transition_to_under_review (env : Env) (sub_id : Z) : M unit :=
  sub <- query (db.get_submission_by_id sub_id) ;;
  confirmed <- query (db.get_confirmed_reviewers sub_id) ;;
  let reviewers := map reviewer_tg_username confirmed in
  exec (db.update_submission_status sub_id under_review) ;;;
  call (db.insert_followup sub_id
          (now env + followup_interval_days (config env) * 86400)) ;;;
  match sub with
  | None => raise TypeError
  | Some s =>
      emit (send_under_review_email s) ;;;
      message_id <- emit (send_message (group_chat_id (config env))
                            (under_review_text (title (email s)) reviewers)
                            (done_keyboard sub_id reviewers)) ;;
      exec (db.set_tg_status_message_id sub_id message_id)
  end.

(** *** Reviewer accept / decline *)

Definition handle_reviewer_accept (env : Env) (sub_id : Z) (username : string)
    (tg_user_id : Z) : M Reply :=
  assignment <- query (db.get_assignment sub_id username) ;;
  match assignment with
  | None => ret assignment_not_found
  | Some a =>
      if negb (asg_status_eqb (a_status a) pending) then ret already_recorded
      else
        exec (db.update_assignment_status sub_id username confirmed
                (Some tg_user_id) (now env)) ;;;
        all_assignments <- query (db.get_assignments_for_submission sub_id) ;;
        let active :=
          filter (fun a => negb (asg_status_eqb (a_status a) declined)) all_assignments in
        let still_pending :=
          filter (fun a => asg_status_eqb (a_status a) pending) active in
        (match still_pending, active with
         | [], _ :: _ => _transition_to_under_review env sub_id
         | _, _ => ret tt
         end) ;;;
        ret confirmed_thank_you
  end.

Definition handle_reviewer_decline (env : Env) (sub_id : Z) (username : string)
    (tg_user_id : Z) (oracle : Result llm.Picked) : M Reply :=
  assignment <- query (db.get_assignment sub_id username) ;;
  match assignment with
  | None => ret assignment_not_found
  | Some a =>
      if negb (asg_status_eqb (a_status a) pending) then ret already_recorded
      else
        exec (db.update_assignment_status sub_id username declined
                (Some tg_user_id) (now env)) ;;;
        sub <- query (db.get_submission_by_id sub_id) ;;
        existing_assignments <- query (db.get_assignments_for_submission sub_id) ;;
        let excluded := map reviewer_tg_username existing_assignments in
        match sub with
        | None => raise TypeError
        | Some s =>
            try_except
              (assignment_result <- lift oracle ;;
               match llm.reviewer1 assignment_result with
               | None => raise KeyError
               | Some (llm.other _) => raise AttributeError
               | Some (llm.text r1) =>
                   let new_reviewer := pystr.strip r1 in
                   if pystr.is_empty new_reviewer
                      || pystr.mem (pystr.lower new_reviewer) (map pystr.lower excluded)
                   then raise ValueError
                   else
                     call (db.insert_assignment sub_id new_reviewer (now env)) ;;;
                     emit (send_message (group_chat_id (config env))
                             (replacement_text username (title (email s)) new_reviewer)
                             (availability_keyboard sub_id [new_reviewer])) ;;;
                     ret tt
               end)
              (fun _ =>
                 confirmed <- query (db.get_confirmed_reviewers sub_id) ;;
                 emit (send_message (group_chat_id (config env))
                         (manual_override_text username (title (email s)) sub_id
                            (map reviewer_tg_username confirmed)) []) ;;;
                 ret tt) ;;;
            ret noted_looking_for_replacement
        end
  end.

(** *** Reviewer done *)

Definition _transition_to_accepted (env : Env) (sub_id : Z)
    (done_assignments : list Assignment) : M unit :=
  sub <- query (db.get_submission_by_id sub_id) ;;
  publish_dt <- lift (compute_publish_date env
                        (get_or (publish_timezone (config env)) "Asia/Taipei")
                        (get_or (publish_time (config env)) "09:30")) ;;
  let publish_date_str := ordinal publish_dt in
  exec (db.set_submission_accepted sub_id publish_date_str (now env)) ;;;
  match sub with
  | None => raise TypeError
  | Some s =>
      emit (send_message (group_chat_id (config env))
              (accepted_text (title (email s)) publish_date_str) []) ;;;
      emit (send_acceptance_email s publish_date_str) ;;;
      ret tt
  end.

Definition is_active_review (a : Assignment) : bool :=
  asg_status_eqb (a_status a) confirmed || asg_status_eqb (a_status a) done.

Definition handle_reviewer_done (env : Env) (sub_id : Z) (username : string)
    (tg_user_id : Z) : M Reply :=
  sub <- query (db.get_submission_by_id sub_id) ;;
  match sub with
  | None => ret submission_not_found
  | Some s =>
      if negb (sub_status_eqb (status s) under_review
               || sub_status_eqb (status s) assigning)
      then ret not_under_review
      else
        assignment <- query (db.get_assignment sub_id username) ;;
        match assignment with
        | None => ret (not_assigned username)
        | Some a =>
            if asg_status_eqb (a_status a) done then ret already_recorded
            else
              exec (db.mark_assignment_done sub_id username (Some tg_user_id)
                      (now env)) ;;;
              all_assignments <- query (db.get_assignments_for_submission sub_id) ;;
              let active := filter is_active_review all_assignments in
              let done_list :=
                filter (fun a => asg_status_eqb (a_status a) done) active in
              (if negb (Nat.eqb (List.length active) 0)
                  && (List.length active <=? List.length done_list)%nat
               then _transition_to_accepted env sub_id done_list
               else
                 let still_pending :=
                   map reviewer_tg_username
                     (filter (fun a => asg_status_eqb (a_status a) confirmed
                                       && negb (String.eqb (reviewer_tg_username a)
                                                           username))
                             active) in
                 match still_pending with
                 | [] => ret tt
                 | _ :: _ =>
                     emit (send_message (group_chat_id (config env))
                             (waiting_text username (title (email s)) still_pending)
                             []) ;;;
                     ret tt
                 end) ;;;
              ret review_marked_done
        end
  end.

(** *** Rejection flow *)

(** [sub["title"].split()[0].lower() if sub["title"] else str(sub_id)] *)
Definition title_keyword (s : Submission) : Result Keyword :=
  let t := title (email s) in
  if pystr.is_empty t then Returned (submission_number (sub_id s))
  else match pystr.first_word t with
       | None => Raised IndexError
       | Some w =>
           Returned (if pystr.is_ascii w then title_word (pystr.lower w)
                     else lowered w)
       end.

Definition handle_rejection_proposal (env : Env) (sub_id : Z)
    (proposer : string) (why : string) : M unit :=
  sub <- query (db.get_submission_by_id sub_id) ;;
  rejection_id <- call (db.insert_rejection sub_id proposer why (now env)) ;;
  match sub with
  | None => raise TypeError
  | Some s =>
      k <- lift (title_keyword s) ;;
      message_id <- emit (send_message (group_chat_id (config env))
                            (proposal_text proposer (title (email s)) why k) []) ;;
      exec (db.set_rejection_proposal_message_id rejection_id message_id)
  end.

Definition handle_second (env : Env) (sub_id : Z) (username : string) : M Reply :=
  rejection <- query (db.get_active_rejection sub_id) ;;
  match rejection with
  | None => ret no_active_proposal
  | Some r =>
      if String.eqb username (proposed_by r) then ret cannot_second_own
      else
        supporters <- call (fun st =>
                              let (l, st') := db.add_second_to_rejection (r_id r) username st in
                              (Returned l, st')) ;;
        sub <- query (db.get_submission_by_id sub_id) ;;
        match sub with
        | None => raise TypeError
        | Some s =>
            let count := List.length supporters in
            let text := seconds_text (proposed_by r) (title (email s)) (reason r)
                          supporters in
            if (2 <=? count)%nat then
              emit (edit_message_text (group_chat_id (config env))
                      (tg_proposal_message_id r) text
                      [[confirm_rejection_button sub_id]]) ;;;
              ret second_recorded_waiting
            else
              emit (edit_message_text (group_chat_id (config env))
                      (tg_proposal_message_id r) text []) ;;;
              ret (second_recorded count)
        end
  end.

Definition handle_confirm_rejection (env : Env) (sub_id : Z) (operator_tg_id : Z)
  : M Reply :=
  if match operator_user_id (config env) with
     | Some operator => truthy (Some operator) && negb (operator_tg_id =? operator)
     | None => false
     end
  then ret only_operator
  else
    rejection <- query (db.get_active_rejection sub_id) ;;
    sub <- query (db.get_submission_by_id sub_id) ;;
    exec (db.set_submission_rejected sub_id (now env)) ;;;
    match sub with
    | None => raise TypeError
    | Some s =>
        emit (send_message (group_chat_id (config env))
                (rejected_text (title (email s))) []) ;;;
        emit (send_rejection_email s
                (match rejection with Some r => reason r | None => "" end)) ;;;
        ret rejection_confirmed
    end.

(** *** Operator override *)

(** [sub_id] is the number the operator typed after [/override], of any
    size: the lookup raises for one that SQLite cannot hold. *)
Definition handle_override (env : Env) (sub_id : Z) (new_reviewers : list string)
  : M Reply :=
  if negb (sqlite.fits_integer sub_id) then raise OverflowError
  else
    sub <- query (db.get_submission_by_id sub_id) ;;
    match sub with
    | None => ret (override_not_found sub_id)
    | Some s =>
        exec (db.clear_pending_assignments sub_id) ;;;
        for_each new_reviewers
          (fun username => call (db.insert_assignment sub_id username (now env))) ;;;
        exec (db.update_submission_status sub_id assigning) ;;;
        emit (send_message (group_chat_id (config env))
                (override_text (title (email s)) new_reviewers)
                (availability_keyboard sub_id new_reviewers)) ;;;
        ret (override_applied new_reviewers)
    end.

(** *** Follow-up *)

Definition send_followup (env : Env) (followup_row : Followup) : M unit :=
  let sub_id := f_submission_id followup_row in
  sub <- query (db.get_submission_by_id sub_id) ;;
  match sub with
  | None => ret tt
  | Some s =>
      if negb (sub_status_eqb (status s) under_review) then ret tt
      else
        all_assignments <- query (db.get_assignments_for_submission sub_id) ;;
        let active := filter is_active_review all_assignments in
        match active with
        | [] => ret tt
        | _ :: _ =>
            let reviewers := map reviewer_tg_username active in
            emit (send_message (group_chat_id (config env))
                    (followup_text (title (email s)) reviewers)
                    (done_keyboard sub_id reviewers)) ;;;
            exec (db.mark_followup_sent (f_id followup_row) (now env)) ;;;
            call (db.insert_followup sub_id
                    (now env + followup_interval_days (config env) * 86400))
        end
  end.

End state.

(** ** scheduler.py: the hourly follow-up job *)

Module scheduler.

(** Every due row goes to [send_followup]; an exception is logged and the
    loop goes on. *)
Definition _check_followups (env : Env) : M unit :=
  due <- query (db.get_pending_followups (now env)) ;;
  for_each due
    (fun followup => try_except (state.send_followup env followup) (fun _ => ret tt)).

(** *** The mailbox poll *)

Definition _DB_KEY : string := "last_gmail_checked_ts".

(** The bot between two polls: the world, the [bot_state] table, and the
    polling errors reported to the operator's private chat. *)
Record Bot := {
  world : World;
  bot_state : db.BotState;
  reported : list (Z * Exn)
}.

Section Poll.

(** [str] and [float] on a clock reading. *)
Variable str_of_float : Z -> string.
Variable float_of_str : string -> Result Z.

Definition _load_last_checked_ts (env : Env) (t : db.BotState) : Result Z :=
  match db.get_state _DB_KEY None t with
  | Some saved =>
      if pystr.is_empty saved then Returned (now env - 86400)
      else float_of_str saved
  | None => Returned (now env - 86400)
  end.

Definition _save_last_checked_ts (ts : Z) (t : db.BotState) : db.BotState :=
  db.set_state _DB_KEY (str_of_float ts) t.

(** [gmail] is the mailbox's answer to [poll_new_submissions] for a given
    timestamp: the parsed e-mails, each with the oracle's answer to the call
    it causes, or the exception of a failed poll. *)
Definition _poll_gmail (env : Env)
    (gmail : Z -> Result (list (EmailData * Result llm.Picked))) (b : Bot)
  : Result unit * Bot :=
  match _load_last_checked_ts env (bot_state b) with
  | Raised e => (Raised e, b)
  | Returned last_checked_ts =>
      match gmail last_checked_ts with
      | Returned polled =>
          let t := _save_last_checked_ts (now env) (bot_state b) in
          let r := for_each polled
                     (fun email_data =>
                        try_except
                          (state.handle_new_submission env (fst email_data)
                             (snd email_data))
                          (fun _ => ret tt))
                     (world b) in
          (fst r, {| world := snd r; bot_state := t; reported := reported b |})
      | Raised e =>
          (Returned tt,
           match operator_user_id (config env) with
           | Some operator =>
               if truthy (Some operator)
               then {| world := world b; bot_state := bot_state b;
                       reported := reported b ++ [(operator, e)] |}
               else b
           | None => b
           end)
      end
  end.

End Poll.

End scheduler.

(** ** telegram_handlers.py: commands and button presses *)

Module telegram_handlers.

(** [update.effective_user], [query.from_user]. *)
Record User := {
  user_id : Z;
  username : option string
}.

Inductive Command :=
  getid_command | status_command | done_command | reject_command
| second_command | override_command.

(** What a handler tells the user, by [reply_text] or by [query.answer]. *)
Inductive Said :=
| reply_need_username           (* "You must have a Telegram username ..." *)
| reply_usage (c : Command)     (* "Usage: ..." *)
| reply_no_match (keyword : string)
| reply_multiple_matches (keyword : string) (listing : list (Z * string))
| reply_only_operator (c : Command)
| reply_sub_id_not_number       (* "sub_id must be a number." *)
| reply_answer (a : state.Reply)
| reply_ids (chat_id : Z) (user : option Z) (name : option string)
| reply_no_active               (* "No active submissions right now." *)
| reply_active (listing : list (Z * string * SubmissionStatus
                                * list (string * AssignmentStatus)))
| answer_nothing                (* [query.answer()] *)
| alert_for_only (target_username : string)
| answer_confirmed
| answer_noted
| answer_done
| alert_only_operator
| answer_rejection_confirmed.

(** How a handler ends, the world it leaves, and what it said, in order. *)
Definition Handled : Type := Result unit * World * list Said.

(** [user.username] when [user and user.username]. *)
Definition named (user : option User) : option (User * string) :=
  match user with
  | Some u =>
      match username u with
      | Some name => if pystr.is_empty name then None else Some (u, name)
      | None => None
      end
  | None => None
  end.

(** The lookup of /done, /reject and /second: the one submission the
    keyword selects, or the refusal. *)
Definition one_match (keyword : string) (w : World) : Said + Submission :=
  match db.get_submission_by_title_keyword keyword (store w) with
  | [] => inl (reply_no_match keyword)
  | [sub] => inr sub
  | matches =>
      inl (reply_multiple_matches keyword
             (map (fun s => (sub_id s, title (email s))) matches))
  end.

(** The handler of [state.py] ran; its answer, if it returned one, is said. *)
Definition then_say {A : Type} (r : Result A * World) (said : A -> list Said)
  : Handled :=
  match r with
  | (Returned a, w') => (Returned tt, w', said a)
  | (Raised e, w') => (Raised e, w', [])
  end.

(** [query.answer] came first; then the handler of [state.py] ran. *)
Definition after_saying {A : Type} (said : Said) (r : Result A * World) : Handled :=
  match r with
  | (Returned _, w') => (Returned tt, w', [said])
  | (Raised e, w') => (Raised e, w', [said])
  end.

Definition quote : ascii := ascii_of_N 34.

(** /getid *)
Definition cmd_getid (chat_id : Z) (user : option User) (w : World) : Handled :=
  (Returned tt, w,
   [reply_ids chat_id (option_map user_id user) (option_map snd (named user))]).

(** /status *)
Definition cmd_status (w : World) : Handled :=
  match db.get_active_submissions (store w) with
  | [] => (Returned tt, w, [reply_no_active])
  | active =>
      (Returned tt, w,
       [reply_active
          (map (fun sub =>
                  (sub_id sub, title (email sub), status sub,
                   map (fun a => (reviewer_tg_username a, a_status a))
                       (db.get_assignments_for_submission (sub_id sub) (store w))))
               active)])
  end.

(** /done <keyword> *)
Definition cmd_done (env : Env) (user : option User) (args : list string)
    (w : World) : Handled :=
  match named user with
  | None => (Returned tt, w, [reply_need_username])
  | Some (u, name) =>
      match args with
      | [] => (Returned tt, w, [reply_usage done_command])
      | _ :: _ =>
          let keyword :=
            pystr.strip_char "'"
              (pystr.strip_char quote (pystr.strip (pystr.join " " args))) in
          match one_match keyword w with
          | inl refusal => (Returned tt, w, [refusal])
          | inr sub =>
              then_say (state.handle_reviewer_done env (sub_id sub) name
                          (user_id u) w)
                       (fun a => [reply_answer a])
          end
      end
  end.

(** /reject <keyword> <reason> *)
Definition cmd_reject (env : Env) (user : option User) (args : list string)
    (w : World) : Handled :=
  match named user with
  | None => (Returned tt, w, [reply_need_username])
  | Some (u, name) =>
      match args with
      | keyword :: (_ :: _) as rest =>
          let why := pystr.join " " rest in
          match one_match keyword w with
          | inl refusal => (Returned tt, w, [refusal])
          | inr sub =>
              then_say (state.handle_rejection_proposal env (sub_id sub) name
                          why w)
                       (fun _ => [])
          end
      | _ => (Returned tt, w, [reply_usage reject_command])
      end
  end.

(** /second <keyword> *)
Definition cmd_second (env : Env) (user : option User) (args : list string)
    (w : World) : Handled :=
  match named user with
  | None => (Returned tt, w, [reply_need_username])
  | Some (u, name) =>
      match args with
      | [] => (Returned tt, w, [reply_usage second_command])
      | _ :: _ =>
          let keyword := pystr.strip (pystr.join " " args) in
          match one_match keyword w with
          | inl refusal => (Returned tt, w, [refusal])
          | inr sub =>
              then_say (state.handle_second env (sub_id sub) name w)
                       (fun a => [reply_answer a])
          end
      end
  end.

(** [operator_user_id and (not user or user.id != operator_user_id)] *)
Definition not_the_operator (env : Env) (user : option User) : bool :=
  match operator_user_id (config env) with
  | Some operator =>
      truthy (Some operator)
      && match user with
         | None => true
         | Some u => negb (user_id u =? operator)
         end
  | None => false
  end.

(** /override <sub_id> @user1 [@user2] *)
Definition cmd_override (env : Env) (user : option User) (args : list string)
    (w : World) : Handled :=
  if not_the_operator env user
  then (Returned tt, w, [reply_only_operator override_command])
  else
    match args with
    | first :: (_ :: _) as rest =>
        match datetime.int first with
        | Raised _ => (Returned tt, w, [reply_sub_id_not_number])
        | Returned sub_id =>
            let new_reviewers := map (pystr.lstrip_by (Ascii.eqb "@")) rest in
            then_say (state.handle_override env sub_id new_reviewers w)
                     (fun a => [reply_answer a])
        end
    | _ => (Returned tt, w, [reply_usage override_command])
    end.

(** [not user.username or user.username.lower() != target_username.lower()] *)
Definition not_for (user : User) (target_username : string) : bool :=
  match username user with
  | Some name =>
      pystr.is_empty name
      || negb (String.eqb (pystr.lower name) (pystr.lower target_username))
  | None => true
  end.

(** A reviewer's button: [data] is [<action>_<sub_id>_<username>]; the
    press is answered with [said] and goes to [handler]. *)
Definition reviewer_button {A : Type} (said : Said)
    (handler : Z -> string -> Z -> M A) (data : string) (user : User)
    (w : World) : Handled :=
  match pystr.split_max data "_" 2 with
  | [_; sub_id_str; target_username] =>
      match datetime.int sub_id_str with
      | Raised e => (Raised e, w, [])
      | Returned sub_id =>
          if not_for user target_username
          then (Returned tt, w, [alert_for_only target_username])
          else after_saying said (handler sub_id target_username (user_id user) w)
      end
  | _ => (Returned tt, w, [answer_nothing])
  end.

(** Button: accept_<sub_id>_<username> *)
Definition cb_accept (env : Env) (data : string) (user : User) (w : World)
  : Handled :=
  reviewer_button answer_confirmed (state.handle_reviewer_accept env) data user w.

(** Button: decline_<sub_id>_<username> *)
Definition cb_decline (env : Env) (oracle : Result llm.Picked) (data : string)
    (user : User) (w : World) : Handled :=
  reviewer_button answer_noted
    (fun sub_id target tg => state.handle_reviewer_decline env sub_id target tg oracle)
    data user w.

(** Button: done_<sub_id>_<username> *)
Definition cb_done (env : Env) (data : string) (user : User) (w : World)
  : Handled :=
  reviewer_button answer_done (state.handle_reviewer_done env) data user w.

(** Button: confirm_rejection_<sub_id> *)
Definition cb_confirm_rejection (env : Env) (data : string) (user : User)
    (w : World) : Handled :=
  let data_parts := pystr.split data "_" in
  if (List.length data_parts <? 3)%nat then (Returned tt, w, [answer_nothing])
  else
    match datetime.int (last data_parts "") with
    | Raised e => (Raised e, w, [])
    | Returned sub_id =>
        if not_the_operator env (Some user)
        then (Returned tt, w, [alert_only_operator])
        else after_saying answer_rejection_confirmed
               (state.handle_confirm_rejection env sub_id (user_id user) w)
    end.

End telegram_handlers.

(** ** main.py: which handler a button press goes to *)

Module main.

(** The [CallbackQueryHandler]s, tried in the order of their registration;
    a pattern [^prefix] is matched at the start of the data. *)
Definition callback_query (env : Env) (oracle : Result llm.Picked)
    (data : string) (user : telegram_handlers.User) (w : World)
  : option telegram_handlers.Handled :=
  if pystr.startswith data "accept_"
  then Some (telegram_handlers.cb_accept env data user w)
  else if pystr.startswith data "decline_"
  then Some (telegram_handlers.cb_decline env oracle data user w)
  else if pystr.startswith data "done_"
  then Some (telegram_handlers.cb_done env data user w)
  else if pystr.startswith data "confirm_rejection_"
  then Some (telegram_handlers.cb_confirm_rejection env data user w)
  else None.

(** The [CommandHandler]s. *)
Definition command (env : Env) (c : telegram_handlers.Command) (chat_id : Z)
    (user : option telegram_handlers.User) (args : list string) (w : World)
  : telegram_handlers.Handled :=
  match c with
  | telegram_handlers.getid_command => telegram_handlers.cmd_getid chat_id user w
  | telegram_handlers.status_command => telegram_handlers.cmd_status w
  | telegram_handlers.done_command => telegram_handlers.cmd_done env user args w
  | telegram_handlers.reject_command => telegram_handlers.cmd_reject env user args w
  | telegram_handlers.second_command => telegram_handlers.cmd_second env user args w
  | telegram_handlers.override_command =>
      telegram_handlers.cmd_override env user args w
  end.

(** What the chat sends the bot: a command with its arguments, or the press
    of a button (with the oracle's answer, should the press cause a call). *)
Inductive Update :=
| command_update (c : telegram_handlers.Command) (chat_id : Z)
                 (user : option telegram_handlers.User) (args : list string)
| button_update (data : string) (user : telegram_handlers.User)
                (oracle : Result llm.Picked).

(** The world after an update; an update no handler takes changes nothing. *)
Definition process_update (env : Env) (u : Update) (w : World) : World :=
  match u with
  | command_update c chat_id user args => snd (fst (command env c chat_id user args w))
  | button_update data user oracle =>
      match callback_query env oracle data user w with
      | Some h => snd (fst h)
      | None => w
      end
  end.

End main.

(** ** The bot as a transition system *)

(** What reaches the core: a polled e-mail, a button press or command, or
    the hourly job; an oracle call's answer comes with the event. *)
Inductive Event :=
| Admit (email_data : EmailData) (oracle : Result llm.Picked)
| Accept (sub_id : Z) (username : string) (tg_user_id : Z)
| Decline (sub_id : Z) (username : string) (tg_user_id : Z) (oracle : Result llm.Picked)
| MarkDone (sub_id : Z) (username : string) (tg_user_id : Z)
| Propose (sub_id : Z) (proposer : string) (why : string)
| Second (sub_id : Z) (username : string)
| Confirm (sub_id : Z) (operator_tg_id : Z)
| ApplyOverride (sub_id : Z) (new_reviewers : list string)
| CheckFollowups.

Definition step (env : Env) (ev : Event) (w : World) : World :=
  match ev with
  | Admit e o => snd (state.handle_new_submission env e o w)
  | Accept s u i => snd (state.handle_reviewer_accept env s u i w)
  | Decline s u i o => snd (state.handle_reviewer_decline env s u i o w)
  | MarkDone s u i => snd (state.handle_reviewer_done env s u i w)
  | Propose s u why => snd (state.handle_rejection_proposal env s u why w)
  | Second s u => snd (state.handle_second env s u w)
  | Confirm s i => snd (state.handle_confirm_rejection env s i w)
  | ApplyOverride s l => snd (state.handle_override env s l w)
  | CheckFollowups => snd (scheduler._check_followups env w)
  end.

Fixpoint run (trace : list (Env * Event)) (w : World) : World :=
  match trace with
  | [] => w
  | (env, ev) :: rest => run rest (step env ev w)
  end.

Definition empty_world : World := {| store := empty_store; outbox := [] |}.

(** The status column of a submission, if the row exists. *)
Definition status_of (sub : Z) (w : World) : option SubmissionStatus :=
  option_map status (db.get_submission_by_id sub (store w)).

(** * Properties *)

(** ** Notions the statements use *)

(** A proleptic ordinal that is a Saturday or a Sunday. *)
Definition is_weekend_day (d : Z) : Prop := 5 <= (d + 6) mod 7.

(** Friday 2026-11-06, 15:02:11. *)
Definition friday_afternoon : datetime.DateTime :=
  {| datetime.ordinal := 739926; datetime.hour := 15; datetime.minute := 2;
     datetime.second := 11; datetime.microsecond := 5 |}.

Definition sample_config : Config :=
  {| group_chat_id := -100; operator_user_id := Some 7;
     followup_interval_days := 3; publish_timezone := None;
     publish_time := None |}.

(** The environment of a handler that runs at second [t] of that Friday. *)
Definition env_at (t : Z) : Env :=
  {| config := sample_config; now := t;
     local_now := fun _ => Returned friday_afternoon |}.

(** Every character of [s] satisfies [p]. *)
Fixpoint all_chars (p : ascii -> bool) (s : string) : bool :=
  match s with
  | EmptyString => true
  | String c s' => p c && all_chars p s'
  end.

Definition no_backtick (s : string) : bool :=
  all_chars (fun c => negb (llm.is_backtick c)) s.

(** A line feed. *)
Definition nl : string := String (ascii_of_N 10) EmptyString.

(** A [json.loads] that rejects every text, as the real one rejects
    ["not json"]. *)
Definition rejecting_loads (text : string) : option unit := None.

(** A [json.loads] that knows one document, the empty object. *)
Definition loads_empty_object (text : string) : option unit :=
  if String.eqb text "{}" then Some tt else None.

(** The [gmail_message_id] column of the submissions. *)
Definition gmail_ids (st : Store) : list string :=
  map (fun s => gmail_message_id (email s)) (submissions st).

(** How many submissions carry the message id [gid]. *)
Definition count_gmail_id (gid : string) (st : Store) : nat :=
  List.length (filter (fun g => String.eqb g gid) (gmail_ids st)).

Definition sample_mail : EmailData :=
  {| gmail_message_id := "msg-1"; gmail_thread_id := None; title := "Rollups";
     author_name := "Ann"; author_email := "ann@example.org"; medium_url := None;
     email_subject := "Submission: Rollups"; email_body := "Please review." |}.

(** The oracle names [a] and [b] ([b] may be empty). *)
Definition picks (a b : string) : Result llm.Picked :=
  Returned {| llm.reviewer1 := Some (llm.text a);
              llm.reviewer2 := Some (llm.text b);
              llm.category := Some "L2"; llm.reason_zh := None |}.

(** One submission, with alice and bob asked. *)
Definition asked_two : World :=
  run [(env_at 10, Admit sample_mail (picks "alice" "bob"))] empty_world.

(** One submission, with only alice asked. *)
Definition asked_one : World :=
  run [(env_at 10, Admit sample_mail (picks "alice" ""))] empty_world.

(** The one submission, after alice declined and no replacement was found. *)
Definition declined_one : World :=
  run [(env_at 10, Admit sample_mail (picks "alice" ""));
       (env_at 20, Decline 1 "alice" 11 (Raised ValueError))] empty_world.





(** The row a reviewer's button marks done. *)
Definition marked_done (tg : Z) (now : Z) (a : Assignment) : Assignment :=
  {| a_id := a_id a; a_submission_id := a_submission_id a;
     reviewer_tg_username := reviewer_tg_username a;
     reviewer_tg_id := Some tg; a_status := done; assigned_at := assigned_at a;
     responded_at := responded_at a; done_at := Some now |}.


(** The caller passes the operator check of [handle_confirm_rejection]:
    no operator is configured, or the caller is the operator. *)
Definition passes_operator_check (cfg : Config) (caller : Z) : Prop :=
  match operator_user_id cfg with
  | Some operator => operator = 0 \/ caller = operator
  | None => True
  end.

(** The buttons [handle_second] puts under the proposal for a given number
    of seconders. *)
Definition confirm_affordance (sub : Z) (count : nat) : list (list Button) :=
  if (2 <=? count)%nat then [[confirm_rejection_button sub]] else [].

(** A proposal by carol was seconded twice; then dave made a new one. *)
Definition superseded_proposal : World :=
  run [(env_at 10, Admit sample_mail (picks "alice" "bob"));
       (env_at 20, Propose 1 "carol" "off topic");
       (env_at 30, Second 1 "alice");
       (env_at 40, Second 1 "bob");
       (env_at 50, Propose 1 "dave" "too long")] empty_world.

(** The order in which the lifecycle visits the statuses. *)
Definition rank (v : SubmissionStatus) : Z :=
  match v with
  | pending_assignment => 0
  | assigning => 1
  | under_review => 2
  | accepted => 3
  | rejected => 4
  end.

Definition is_terminal (v : SubmissionStatus) : bool :=
  match v with accepted | rejected => true | _ => false end.

(** The events the forward-only property is about: every event but the
    operator's override, and Accept only on a submission that is not yet
    accepted or rejected. *)
Definition admissible (w : World) (ev : Event) : bool :=
  match ev with
  | ApplyOverride _ _ => false
  | Accept sub _ _ =>
      match status_of sub w with
      | Some v => negb (is_terminal v)
      | None => true
      end
  | _ => true
  end.

Fixpoint admissible_run (trace : list (Env * Event)) (w : World) : bool :=
  match trace with
  | [] => true
  | (env, ev) :: rest => admissible w ev && admissible_run rest (step env ev w)
  end.

(** The moves of a submission's status that an event can make. *)
Definition allowed_move (ev : Event) (sub : Z) (v v' : SubmissionStatus) : Prop :=
  v' = v \/
  match ev with
  | Accept s _ _ => s = sub /\ v' = under_review /\ is_terminal v = false
  | MarkDone s _ _ => s = sub /\ v' = accepted /\ (v = under_review \/ v = assigning)
  | Confirm s _ => s = sub /\ v' = rejected
  | _ => False
  end.

(** Alice and bob are asked, alice accepts and is done before bob answers. *)
Definition accepted_early : list (Env * Event) :=
  [(env_at 10, Admit sample_mail (picks "alice" "bob"));
   (env_at 20, Accept 1 "alice" 11);
   (env_at 30, MarkDone 1 "alice" 11)].

(** The submission is rejected while alice and bob are still asked. *)
Definition rejected_early : list (Env * Event) :=
  [(env_at 10, Admit sample_mail (picks "alice" "bob"));
   (env_at 20, Confirm 1 7)].

(** A whole review: both accept, both finish. *)
Definition full_review : list (Env * Event) :=
  [(env_at 10, Admit sample_mail (picks "alice" "bob"));
   (env_at 20, Accept 1 "alice" 11);
   (env_at 30, Accept 1 "bob" 12);
   (env_at 40, CheckFollowups);
   (env_at 300000, CheckFollowups);
   (env_at 300010, MarkDone 1 "alice" 11);
   (env_at 300020, MarkDone 1 "bob" 12)].

(** The store after [insert_followup], whether or not it went through. *)
Definition add_followup (sub at_ : Z) (st : Store) : Store :=
  snd (db.insert_followup sub at_ st).

(** The row [insert_assignment] adds. *)
Definition pending_row (sub : Z) (username : string) (now : Z) (st : Store) : Assignment :=
  {| a_id := db.next_rowid (seq_assignments (sqlite_sequence st)) a_id (assignments st);
     a_submission_id := sub; reviewer_tg_username := username;
     reviewer_tg_id := None; a_status := pending; assigned_at := now;
     responded_at := None; done_at := None |}.

(** The row a reviewer's "can't" button leaves. *)
Definition marked_declined (tg : Z) (now : Z) (a : Assignment) : Assignment :=
  {| a_id := a_id a; a_submission_id := a_submission_id a;
     reviewer_tg_username := reviewer_tg_username a;
     reviewer_tg_id := Some tg; a_status := declined;
     assigned_at := assigned_at a; responded_at := Some now;
     done_at := done_at a |}.

(** The rows of a (submission, reviewer) pairing. *)
Definition pair_rows (sub : Z) (u : string) (w : World) : list Assignment :=
  filter (db.is_pair sub u) (assignments (store w)).

(** The oracle's candidate is usable: not empty, and not the name of any
    reviewer the submission already has, whatever the letter case. *)
Definition usable_replacement (sub : Z) (new_reviewer : string) (st : Store) : bool :=
  negb (pystr.is_empty new_reviewer
        || pystr.mem (pystr.lower new_reviewer)
             (map pystr.lower
                (map reviewer_tg_username (db.get_assignments_for_submission sub st)))).

(** Events that leave the declined rows of ([sub], [u]) alone: all but the
    operator's override of [sub] and [u]'s own "done". *)
Definition leaves_declined (sub : Z) (u : string) (ev : Event) : bool :=
  match ev with
  | ApplyOverride s _ => negb (s =? sub)
  | MarkDone s x _ => negb ((s =? sub) && String.eqb x u)
  | _ => true
  end.

Definition quiet_run (sub : Z) (u : string) (trace : list (Env * Event)) : bool :=
  forallb (fun step => leaves_declined sub u (snd step)) trace.

(** The oracle names carol as the replacement. *)
Definition carol_answer : llm.Picked :=
  {| llm.reviewer1 := Some (llm.text "carol");
     llm.reviewer2 := Some (llm.text "");
     llm.category := Some "L2"; llm.reason_zh := None |}.

Definition carol : Result llm.Picked := Returned carol_answer.

(** Alice declined and carol was asked instead. *)
Definition replaced_alice : World :=
  step (env_at 20) (Decline 1 "alice" 11 carol) asked_two.

(** What may follow the replacement without touching alice's row: the
    others answer and finish, a rejection is proposed, seconded and
    confirmed, another submission is overridden. *)
Definition after_replacement : list (Env * Event) :=
  [(env_at 30, Accept 1 "alice" 11);
   (env_at 40, Accept 1 "bob" 12);
   (env_at 50, Decline 1 "carol" 13 (picks "alice" ""));
   (env_at 60, MarkDone 1 "bob" 12);
   (env_at 70, Propose 1 "dave" "off topic");
   (env_at 80, Second 1 "erin");
   (env_at 90, ApplyOverride 2 ["alice"]);
   (env_at 100, Confirm 1 7);
   (env_at 300000, CheckFollowups)].












(** ** Notions for the chat layer, the poller and the store invariants *)

(** No character of [s] is the underscore. *)
Definition no_underscore (s : string) : bool :=
  all_chars (fun c => negb (Ascii.eqb c "_")) s.

(** Who sent an update. *)
Definition sender (u : main.Update) : option telegram_handlers.User :=
  match u with
  | main.command_update _ _ user _ => user
  | main.button_update _ user _ => Some user
  end.

(** The user goes by the name [r], whatever the letter case. *)
Definition goes_by (user : option telegram_handlers.User) (r : string) (tg : Z) : Prop :=
  exists u name,
    user = Some u /\ telegram_handlers.username u = Some name
    /\ name <> "" /\ pystr.lower name = pystr.lower r
    /\ tg = telegram_handlers.user_id u.

(** The event is one the user may cause: a reviewer's answer in the
    user's own name, a proposal or a second under the user's name, and the
    operator's moves only past the operator check. *)
Definition in_own_name (env : Env) (user : option telegram_handlers.User)
    (ev : Event) : Prop :=
  match ev with
  | Accept _ r tg | Decline _ r tg _ | MarkDone _ r tg => goes_by user r tg
  | Propose _ p _ | Second _ p => goes_by user p (match user with
                                                  | Some u => telegram_handlers.user_id u
                                                  | None => 0
                                                  end)
  | Confirm _ tg =>
      telegram_handlers.not_the_operator env user = false
      /\ exists u, user = Some u /\ tg = telegram_handlers.user_id u
  | ApplyOverride _ _ => telegram_handlers.not_the_operator env user = false
  | Admit _ _ | CheckFollowups => False
  end.

Definition dave : telegram_handlers.User :=
  {| telegram_handlers.user_id := 14; telegram_handlers.username := Some "Dave" |}.

(** The text [x] occurs somewhere in [t]. *)
Definition occurs_in (x t : string) : Prop :=
  exists a b, t = (a ++ x ++ b)%string.



(** The one row of [asked_two]. *)
Definition rollups_row : Submission :=
  {| sub_id := 1; email := sample_mail; status := assigning; created_at := 10;
     accepted_at := None; rejected_at := None; publish_date := None;
     tg_status_message_id := Some 2 |}.

(** The word "Emile", its first letter with an acute accent, in UTF-8. *)
Definition accented_word : string :=
  String (ascii_of_N 195) (String (ascii_of_N 137) "mile").

(** A submission titled with that word and "Zola". *)
Definition accented_row : Submission :=
  {| sub_id := 2;
     email := {| gmail_message_id := "msg-2"; gmail_thread_id := None;
                 title := accented_word ++ " Zola";
                 author_name := "Ann"; author_email := "ann@example.org";
                 medium_url := None; email_subject := "Submission";
                 email_body := "Please review." |};
     status := assigning; created_at := 10;
     accepted_at := None; rejected_at := None; publish_date := None;
     tg_status_message_id := Some 2 |}.

(** The events of a poll: each polled e-mail is admitted, in order. *)
Definition admissions (env : Env) (polled : list (EmailData * Result llm.Picked))
  : list (Env * Event) :=
  map (fun p => (env, Admit (fst p) (snd p))) polled.

(** The message id [gid] is among the polled e-mails. *)
Definition polled_id (gid : string) (polled : list (EmailData * Result llm.Picked))
  : bool :=
  existsb (fun p => String.eqb (gmail_message_id (fst p)) gid) polled.

(** A bot that has not polled yet, around the world [w]. *)
Definition fresh_bot (w : World) : scheduler.Bot :=
  {| scheduler.world := w; scheduler.bot_state := []; scheduler.reported := [] |}.

(** A second e-mail, and a mailbox that answers every poll with the
    two e-mails, the first of them twice; the oracle fails on the second. *)
Definition other_mail : EmailData :=
  {| gmail_message_id := "msg-2"; gmail_thread_id := None; title := "";
     author_name := ""; author_email := "bo@example.org"; medium_url := None;
     email_subject := ""; email_body := "" |}.

Definition sample_mailbox (after : Z) : Result (list (EmailData * Result llm.Picked)) :=
  Returned [(sample_mail, picks "alice" "bob");
            (other_mail, Raised ValueError);
            (sample_mail, picks "carol" "")].

(** A mailbox that cannot be reached. *)
Definition failing_mailbox (after : Z) : Result (list (EmailData * Result llm.Picked)) :=
  Raised ValueError.

(** ** The statements the handlers issue *)

(** One statement of [db.py] as [state.py] issues it: a submission's status
    is set by [update_submission_status] to [assigning] or [under_review]
    only, the publish date of an accepted submission is not a weekend day,
    and a second is added for somebody other than the proposer of the
    proposal in hand. *)
Inductive db_step : Store -> Store -> Prop :=
| issue_insert_submission e now st :
    db_step st (snd (db.insert_submission e now st))
| issue_update_submission_status sub v st :
    v = assigning \/ v = under_review ->
    db_step st (db.update_submission_status sub v st)
| issue_set_submission_accepted sub day now st :
    ~ is_weekend_day day ->
    db_step st (db.set_submission_accepted sub day now st)
| issue_set_submission_rejected sub now st :
    db_step st (db.set_submission_rejected sub now st)
| issue_set_tg_status_message_id sub message_id st :
    db_step st (db.set_tg_status_message_id sub message_id st)
| issue_insert_assignment sub username now st :
    db_step st (snd (db.insert_assignment sub username now st))
| issue_update_assignment_status sub username v tg now st :
    db_step st (db.update_assignment_status sub username v tg now st)
| issue_mark_assignment_done sub username tg now st :
    db_step st (db.mark_assignment_done sub username tg now st)
| issue_clear_pending_assignments sub st :
    db_step st (db.clear_pending_assignments sub st)
| issue_insert_followup sub at_ st :
    db_step st (snd (db.insert_followup sub at_ st))
| issue_mark_followup_sent followup_id now st :
    db_step st (db.mark_followup_sent followup_id now st)
| issue_insert_rejection sub by_ why now st :
    db_step st (snd (db.insert_rejection sub by_ why now st))
| issue_add_second rejection username st :
    In rejection (rejections st) ->
    username <> proposed_by rejection ->
    db_step st (snd (db.add_second_to_rejection (r_id rejection) username st))
| issue_set_rejection_proposal_message_id rejection_id message_id st :
    db_step st (db.set_rejection_proposal_message_id rejection_id message_id st).

(** Statements one after the other. *)
Inductive db_steps : Store -> Store -> Prop :=
| issued_none st : db_steps st st
| issued_more st1 st2 st3 : db_steps st1 st2 -> db_step st2 st3 -> db_steps st1 st3.

(** A computation changes the store by such statements only. *)
Definition issues {A : Type} (m : M A) : Prop :=
  forall w, db_steps (store w) (store (snd (m w))).

(** ** Invariants of the store *)

(** The submission [sub] has a row. *)
Definition known (st : Store) (sub : Z) : Prop :=
  db.get_submission_by_id sub st <> None.

(** Every assignment, follow-up, rejection and history row belongs to a
    submission that has a row. *)
Definition foreign_keys (st : Store) : Prop :=
  (forall a, In a (assignments st) -> known st (a_submission_id a))
  /\ (forall f, In f (followups st) -> known st (f_submission_id f))
  /\ (forall r, In r (rejections st) -> known st (r_submission_id r))
  /\ (forall h, In h (assignment_history st) -> known st (h_submission_id h)).

(** A proposal's seconders are listed once each, and its proposer is not
    among them; the proposals have ids of their own. *)
Definition seconds_wf (st : Store) : Prop :=
  NoDup (map r_id (rejections st))
  /\ forall r, In r (rejections st) ->
               NoDup (seconds r) /\ ~ In (proposed_by r) (seconds r).

(** The history row of an assignment. *)
Definition history_of (a : Assignment) (h : HistoryRow) : Prop :=
  h_submission_id h = a_submission_id a
  /\ h_reviewer_tg_username h = reviewer_tg_username a
  /\ h_assigned_at h = assigned_at a.

Definition history_covers (st : Store) : Prop :=
  forall a, In a (assignments st) ->
            exists h, In h (assignment_history st) /\ history_of a h.

(** The dates of a submission fit its status: a publish date is never a
    weekend day, an accepted submission has one and the time of its
    acceptance, a rejected one the time of its rejection. *)
Definition dates_fit (s : Submission) : Prop :=
  (forall d, publish_date s = Some d -> ~ is_weekend_day d)
  /\ (status s = accepted -> publish_date s <> None /\ accepted_at s <> None)
  /\ (status s = rejected -> rejected_at s <> None).

(** ** How an event ends *)





(** Carol's proposal in [superseded_proposal]. *)
Definition carols_proposal : Rejection :=
  {| r_id := 1; r_submission_id := 1; proposed_by := "carol";
     reason := "off topic"; seconds := ["alice"; "bob"];
     tg_proposal_message_id := Some 3; proposed_at := 20 |}.

(** The submission at the end of [full_review]. *)
Definition published_row : Submission :=
  {| sub_id := 1; email := sample_mail; status := accepted; created_at := 10;
     accepted_at := Some 300020; rejected_at := None;
     publish_date := Some 739929; tg_status_message_id := Some 4 |}.

(** ** The publish date *)

Section PublishDate.

Import datetime.

Lemma weekday_range (c : DateTime) : 0 <= weekday c < 7.
Proof. unfold weekday. apply Z.mod_pos_bound. lia. Qed.

Lemma weekday_tomorrow (c : DateTime) :
  weekday (tomorrow c) = (weekday c + 1) mod 7.
Proof.
  unfold weekday, tomorrow. simpl.
  replace (ordinal c + 1 + 6) with ((ordinal c + 6) + 1) by lia.
  rewrite Z.add_mod by lia. reflexivity.
Qed.

(** What the loop returns is the first day from [candidate] on that is not a
    Saturday or Sunday, at the same time of day. *)
Lemma skip_weekend_returned (c r : DateTime) :
  state.skip_weekend c = Returned r ->
  ordinal c <= ordinal r /\ weekday r < 5 /\
  (forall d, ordinal c <= d < ordinal r -> is_weekend_day d) /\
  hour r = hour c /\ minute r = minute c /\
  second r = second c /\ microsecond r = microsecond c.
Proof.
  funelim (state.skip_weekend c); intro E; try discriminate E.
  - inversion E; subst. repeat split; try lia.
  - match goal with IH : forall r, _ -> _ |- _ => specialize (IH r E); rename IH into IH' end.
    destruct IH' as (Hle & Hwd & Hbetween & Hh & Hm & Hs & Hu).
    simpl in *. repeat split; try lia; try assumption.
    intros d Hd. destruct (Z.eq_dec d (ordinal candidate)) as [-> | Hne].
    + unfold is_weekend_day. unfold weekday in l. exact l.
    + apply Hbetween. lia.
Qed.

Lemma skip_weekend_weekday (c : DateTime) :
  weekday c < 5 -> state.skip_weekend c = Returned c.
Proof.
  intro H. simp skip_weekend.
  destruct (Z_le_dec 5 (weekday c)); simpl; [lia | reflexivity].
Qed.

Lemma skip_weekend_weekend (c : DateTime) :
  5 <= weekday c -> ordinal c + 1 <= MAXORDINAL ->
  state.skip_weekend c = state.skip_weekend (tomorrow c).
Proof.
  intros H Hmax. rewrite state.skip_weekend_equation_1 at 1.
  destruct (Z_le_dec 5 (weekday c)); simpl; [| lia].
  destruct (Z_le_dec (ordinal c + 1) MAXORDINAL); simpl; [reflexivity | lia].
Qed.

(** The loop ends within two days when the calendar has them. *)
Lemma skip_weekend_returns (c : DateTime) :
  ordinal c + 2 <= MAXORDINAL ->
  exists r, state.skip_weekend c = Returned r /\ ordinal r <= ordinal c + 2.
Proof.
  intro Hmax.
  pose proof (weekday_range c) as Hc.
  pose proof (weekday_tomorrow c) as Ht.
  pose proof (weekday_tomorrow (tomorrow c)) as Ht2.
  destruct (Z_lt_le_dec (weekday c) 5) as [H5 | H5].
  { exists c. split; [apply skip_weekend_weekday; exact H5 | lia]. }
  rewrite skip_weekend_weekend by lia.
  assert (E : weekday c = 5 \/ weekday c = 6) by lia.
  destruct E as [E | E]; rewrite E in Ht.
  - change ((5 + 1) mod 7) with 6 in Ht.
    rewrite Ht in Ht2. change ((6 + 1) mod 7) with 0 in Ht2.
    rewrite skip_weekend_weekend by (simpl; lia).
    exists (tomorrow (tomorrow c)).
    split; [apply skip_weekend_weekday; lia | simpl; lia].
  - change ((6 + 1) mod 7) with 0 in Ht.
    exists (tomorrow c).
    split; [apply skip_weekend_weekday; lia | simpl; lia].
Qed.

Lemma weekday_of_ordinal (c r : DateTime) :
  ordinal r = ordinal c -> weekday r = weekday c.
Proof. unfold weekday. intros ->. reflexivity. Qed.

(** C8. [compute_publish_date] returns a time on the first day after today
    that is neither a Saturday nor a Sunday, at the configured hour and
    minute with seconds and microseconds zero; it does return when the
    calendar has three more days and the configured time reads as an hour
    and a minute; and on a Friday, with the default ["09:30"], it returns the
    Monday three days later at 09:30. *)
Theorem compute_publish_date_next_weekday
    (env : Env) (tz tstr : string) (today : DateTime) :
  local_now env tz = Returned today ->
  (forall r, state.compute_publish_date env tz tstr = Returned r ->
     ordinal today < ordinal r /\
     weekday r < 5 /\
     (forall d, ordinal today < d < ordinal r -> is_weekend_day d) /\
     (exists hs ms,
        nth_error (pystr.split tstr ":") 0 = Some hs /\ int hs = Returned (hour r) /\
        nth_error (pystr.split tstr ":") 1 = Some ms /\ int ms = Returned (minute r)) /\
     second r = 0 /\ microsecond r = 0 /\
     (weekday today = 4 -> ordinal r = ordinal today + 3 /\ weekday r = 0))
  /\
  (ordinal today + 3 <= MAXORDINAL ->
   forall hs ms h m,
     nth_error (pystr.split tstr ":") 0 = Some hs -> int hs = Returned h ->
     nth_error (pystr.split tstr ":") 1 = Some ms -> int ms = Returned m ->
     0 <= h <= 23 -> 0 <= m <= 59 ->
     exists r, state.compute_publish_date env tz tstr = Returned r)
  /\
  (ordinal today + 3 <= MAXORDINAL -> weekday today = 4 ->
   state.compute_publish_date env tz "09:30"
   = Returned {| ordinal := ordinal today + 3; hour := 9; minute := 30;
                 second := 0; microsecond := 0 |}).
Proof.
  intro Hnow. unfold state.compute_publish_date. rewrite Hnow. cbn [and_then].
  unfold plus_one_day.
  split; [| split].
  - intros r E.
    destruct (ordinal today + 1 <=? MAXORDINAL) eqn:Hmax; cbn [and_then] in E; [| discriminate E].
    destruct (state.skip_weekend (tomorrow today)) as [c |] eqn:Hloop;
      cbn [and_then] in E; [| discriminate E].
    destruct (nth_error (pystr.split tstr ":") 0) as [hs |] eqn:Hhs;
      [| cbn [and_then] in E; discriminate E].
    destruct (int hs) as [h |] eqn:Hh; cbn [and_then] in E; [| discriminate E].
    destruct (nth_error (pystr.split tstr ":") 1) as [ms |] eqn:Hms;
      [| cbn [and_then] in E; discriminate E].
    destruct (int ms) as [m |] eqn:Hm; cbn [and_then] in E; [| discriminate E].
    unfold replace_time in E.
    destruct ((0 <=? h) && (h <=? 23) && (0 <=? m) && (m <=? 59)); [| discriminate E].
    inversion E; subst r; clear E. simpl.
    apply skip_weekend_returned in Hloop.
    destruct Hloop as (Hle & Hwd & Hbetween & _). simpl in Hle.
    assert (Hwd' : (ordinal c + 6) mod 7 < 5) by exact Hwd.
    repeat split.
    + lia.
    + exact Hwd'.
    + intros d Hd. apply Hbetween. simpl. lia.
    + exists hs, ms. repeat split; assumption.
    + assert (H1 : is_weekend_day (ordinal today + 1) \/ ordinal c = ordinal today + 1).
      { destruct (Z.eq_dec (ordinal c) (ordinal today + 1)); [right; assumption |].
        left. apply Hbetween. simpl. lia. }
      assert (H2 : is_weekend_day (ordinal today + 2) \/ ordinal c <= ordinal today + 2).
      { destruct (Z_le_dec (ordinal c) (ordinal today + 2)); [right; assumption |].
        left. apply Hbetween. simpl. lia. }
      assert (H3 : is_weekend_day (ordinal today + 3) \/ ordinal c <= ordinal today + 3).
      { destruct (Z_le_dec (ordinal c) (ordinal today + 3)); [right; assumption |].
        left. apply Hbetween. simpl. lia. }
      unfold is_weekend_day, weekday in *.
      Z.div_mod_to_equations. lia.
    + unfold is_weekend_day, weekday in *. cbn [ordinal].
      assert (H1 : ordinal c = ordinal today + 1 \/ ordinal c = ordinal today + 2
                   \/ ordinal today + 3 <= ordinal c) by lia.
      assert (H3 : 5 <= (ordinal today + 3 + 6) mod 7 \/ ordinal c <= ordinal today + 3).
      { destruct (Z_le_dec (ordinal c) (ordinal today + 3)); [right; assumption |].
        left. apply Hbetween. simpl. lia. }
      Z.div_mod_to_equations. lia.
  - intros Hmax hs ms h m Hhs Hh Hms Hm Hhr Hmr.
    destruct (Z.leb_spec (ordinal today + 1) MAXORDINAL); [cbn [and_then] | lia].
    destruct (skip_weekend_returns (tomorrow today)) as (c & Hc & _);
      [simpl; lia |].
    rewrite Hc. cbn [and_then]. rewrite Hhs, Hh. cbn [and_then]. rewrite Hms, Hm. cbn [and_then].
    unfold replace_time.
    destruct (Z.leb_spec 0 h); [| lia]. destruct (Z.leb_spec h 23); [| lia].
    destruct (Z.leb_spec 0 m); [| lia]. destruct (Z.leb_spec m 59); [| lia].
    simpl. eexists. reflexivity.
  - intros Hmax Hfri.
    destruct (Z.leb_spec (ordinal today + 1) MAXORDINAL); [cbn [and_then] | lia].
    pose proof (weekday_tomorrow today) as Ht.
    pose proof (weekday_tomorrow (tomorrow today)) as Ht2.
    pose proof (weekday_tomorrow (tomorrow (tomorrow today))) as Ht3.
    rewrite Hfri in Ht. change ((4 + 1) mod 7) with 5 in Ht.
    rewrite Ht in Ht2. change ((5 + 1) mod 7) with 6 in Ht2.
    rewrite Ht2 in Ht3. change ((6 + 1) mod 7) with 0 in Ht3.
    rewrite skip_weekend_weekend by (simpl; lia).
    rewrite skip_weekend_weekend by (simpl; lia).
    rewrite skip_weekend_weekday by lia.
    simpl. unfold replace_time, tomorrow. simpl. do 2 f_equal. lia.
Qed.

(** On Friday 2026-11-06 the default configuration gives Monday 2026-11-09
    at 09:30. *)
Lemma compute_publish_date_next_weekday_witness :
  state.compute_publish_date (env_at 1000) "Asia/Taipei" "09:30"
  = Returned {| ordinal := 739929; hour := 9; minute := 30;
                second := 0; microsecond := 0 |}.
Proof.
  apply (proj2 (proj2 (compute_publish_date_next_weekday
                         (env_at 1000) "Asia/Taipei" "09:30" friday_afternoon
                         eq_refl))).
  - vm_compute. discriminate.
  - reflexivity.
Defined.

End PublishDate.

(** ** The oracle's answer: fences and the one parse *)

Section Fences.

Import pystr.

Lemma rstrip_by_clean (p : ascii -> bool) (s : string) :
  all_chars (fun c => negb (p c)) s = true -> rstrip_by p s = s.
Proof.
  induction s as [| c s IH]; simpl; intro H; [reflexivity |].
  apply andb_prop in H. destruct H as [Hc Hs].
  rewrite (IH Hs). apply negb_true_iff in Hc. rewrite Hc. reflexivity.
Qed.

Lemma rstrip_by_app_keep (p : ascii -> bool) (s t : string) :
  rstrip_by p t <> EmptyString ->
  rstrip_by p (s ++ t)%string = (s ++ rstrip_by p t)%string.
Proof.
  intro Ht. induction s as [| c s IH]; simpl; [reflexivity |].
  rewrite IH. destruct (s ++ rstrip_by p t)%string eqn:E.
  - destruct s; simpl in E; [contradiction | discriminate E].
  - simpl. rewrite andb_false_r. reflexivity.
Qed.

Lemma rstrip_by_app_drop (p : ascii -> bool) (s t : string) :
  rstrip_by p t = EmptyString ->
  rstrip_by p (s ++ t)%string = rstrip_by p s.
Proof.
  intro Ht. induction s as [| c s IH]; simpl; [exact Ht |].
  rewrite IH. reflexivity.
Qed.

Lemma lstrip_rstrip_cons (p : ascii -> bool) (c : ascii) (s : string) :
  p c = true ->
  lstrip_by p (rstrip_by p (String c s)) = lstrip_by p (rstrip_by p s).
Proof.
  intro Hc. simpl. rewrite Hc. simpl.
  destruct (rstrip_by p s); simpl; [reflexivity | rewrite Hc; reflexivity].
Qed.

(** Blank lines around a text do not survive [strip]. *)
Lemma strip_between_newlines (body : string) :
  strip (nl ++ body ++ nl)%string = strip body.
Proof.
  unfold strip, nl.
  change (String (ascii_of_N 10) "" ++ body ++ String (ascii_of_N 10) "")%string
    with (String (ascii_of_N 10) (body ++ String (ascii_of_N 10) ""))%string.
  rewrite lstrip_rstrip_cons by reflexivity.
  rewrite rstrip_by_app_drop by reflexivity. reflexivity.
Qed.

Lemma rev_append_onto (t cur s : string) :
  rev_append (rev_append t cur) s = rev_append cur (t ++ s)%string.
Proof.
  revert cur. induction t as [| c t IH]; intro cur; simpl; [reflexivity |].
  rewrite IH. reflexivity.
Qed.

Lemma prefix_nil (s : string) : String.prefix "" s = true.
Proof. destruct s; reflexivity. Qed.

Lemma prefix_fence (rest : string) :
  String.prefix "```" ("```" ++ rest)%string = true.
Proof. cbn. apply prefix_nil. Qed.

Lemma prefix_not_fence (c : ascii) (s : string) :
  llm.is_backtick c = false -> String.prefix "```" (String c s) = false.
Proof.
  intro Hc. cbn [String.prefix].
  destruct (ascii_dec "`" c) as [E | _]; [| reflexivity].
  subst c. discriminate Hc.
Qed.

(** At a fence the current piece ends and the scan goes on behind it. *)
Lemma split_go_fence (rest cur : string) :
  split_go "```" ("```" ++ rest)%string O cur
  = rev_append cur "" :: split_go "```" rest O "".
Proof.
  change ("```" ++ rest)%string with (String "`" (String "`" (String "`" rest))).
  cbn [split_go].
  change (String "`" (String "`" (String "`" rest))) with ("```" ++ rest)%string.
  rewrite prefix_fence. reflexivity.
Qed.

(** Scanning a stretch without a backtick only lengthens the current piece. *)
Lemma split_go_clean (t rest cur : string) :
  no_backtick t = true ->
  split_go "```" (t ++ rest)%string O cur
  = split_go "```" rest O (rev_append t cur).
Proof.
  revert cur. induction t as [| c t IH]; intros cur H; [reflexivity |].
  unfold no_backtick in H. simpl in H. apply andb_prop in H. destruct H as [Hc Ht].
  apply negb_true_iff in Hc.
  change (String c t ++ rest)%string with (String c (t ++ rest)%string).
  cbn [split_go]. rewrite (prefix_not_fence _ _ Hc).
  rewrite (IH (String c cur) Ht). reflexivity.
Qed.

Lemma no_backtick_app (a b : string) :
  no_backtick a = true -> no_backtick b = true -> no_backtick (a ++ b)%string = true.
Proof.
  unfold no_backtick. induction a as [| c a IH]; simpl; intros Ha Hb; [exact Hb |].
  apply andb_prop in Ha. destruct Ha as [Hc Ha].
  rewrite Hc. simpl. apply IH; assumption.
Qed.

Lemma append_assoc (a b c : string) :
  ((a ++ b) ++ c)%string = (a ++ (b ++ c))%string.
Proof. induction a as [| x a IH]; simpl; [reflexivity | rewrite IH; reflexivity]. Qed.

Lemma append_empty_r (s : string) : (s ++ "")%string = s.
Proof. induction s as [| c s IH]; simpl; [reflexivity | rewrite IH; reflexivity]. Qed.

Lemma split_go_nonempty (sep s : string) (skip : nat) (cur : string) :
  split_go sep s skip cur <> [].
Proof.
  revert skip cur. induction s as [| c s IH]; intros skip cur; cbn [split_go].
  - discriminate.
  - destruct skip; [| apply IH].
    destruct (String.prefix sep (String c s)); [discriminate | apply IH].
Qed.

(** After an opening fence the split has a second piece. *)
Lemma split_after_fence (s : string) :
  startswith s "```" = true -> exists body, nth_error (split s "```") 1 = Some body.
Proof.
  unfold startswith, split. intro H.
  destruct s as [| c s]; [discriminate H |].
  cbn [split_go]. rewrite H.
  destruct (split_go "```" s (Nat.pred (String.length "```")) "") as [| b l] eqn:E.
  - exfalso. exact (split_go_nonempty _ _ _ _ E).
  - exists b. reflexivity.
Qed.

End Fences.

(** [strip_fences] never fails: the guard [startswith] makes the index 1
    exist. *)
Lemma strip_fences_returns (raw : string) :
  exists text, llm.strip_fences raw = Returned text.
Proof.
  unfold llm.strip_fences.
  destruct (pystr.startswith (pystr.strip raw) "```") eqn:H.
  - destruct (split_after_fence _ H) as (body & Hb). rewrite Hb.
    eexists. reflexivity.
  - eexists. reflexivity.
Qed.

(** A fenced answer, with or without the [json] tag, is reduced to the text
    between the fences. *)
Lemma strip_fences_fenced (tag body : string) :
  tag = "json" \/ tag = "" ->
  no_backtick body = true ->
  pystr.strip body = body ->
  llm.strip_fences ("```" ++ tag ++ nl ++ body ++ nl ++ "```")%string = Returned body.
Proof.
  intros Htag Hclean Htrim.
  assert (Hraw : pystr.strip ("```" ++ tag ++ nl ++ body ++ nl ++ "```")%string
                 = ("```" ++ tag ++ nl ++ body ++ nl ++ "```")%string).
  { unfold pystr.strip.
    replace ("```" ++ tag ++ nl ++ body ++ nl ++ "```")%string
      with (("```" ++ tag ++ nl ++ body) ++ (nl ++ "```"))%string
      by (rewrite !append_assoc; reflexivity).
    rewrite rstrip_by_app_keep by (vm_compute; discriminate).
    reflexivity. }
  unfold llm.strip_fences. rewrite Hraw.
  assert (Hsplit : nth_error (pystr.split ("```" ++ tag ++ nl ++ body ++ nl ++ "```")%string "```") 1
                   = Some (tag ++ nl ++ body ++ nl)%string).
  { unfold pystr.split. rewrite split_go_fence.
    replace (tag ++ nl ++ body ++ nl ++ "```")%string
      with ((tag ++ nl ++ body ++ nl) ++ "```" ++ "")%string
      by (rewrite !append_assoc; reflexivity).
    rewrite split_go_clean.
    - rewrite split_go_fence. cbn [nth_error].
      rewrite rev_append_onto. cbn [pystr.rev_append].
      rewrite append_empty_r. reflexivity.
    - destruct Htag; subst tag; repeat apply no_backtick_app;
        try assumption; reflexivity. }
  assert (Hstart : pystr.startswith ("```" ++ tag ++ nl ++ body ++ nl ++ "```")%string "```" = true)
    by apply prefix_fence.
  rewrite Hstart, Hsplit.
  assert (Hbody : (if pystr.startswith (tag ++ nl ++ body ++ nl)%string "json"
                   then pystr.drop 4 (tag ++ nl ++ body ++ nl)%string
                   else (tag ++ nl ++ body ++ nl)%string)
                  = (nl ++ body ++ nl)%string).
  { destruct Htag; subst tag; [| reflexivity].
    unfold pystr.startswith. cbn. reflexivity. }
  rewrite Hbody. rewrite strip_between_newlines, Htrim.
  rewrite rstrip_by_clean by exact Hclean.
  rewrite Htrim. reflexivity.
Qed.

(** C9, as the code has it.  [_parse_json_response] strips the fences (a
    fenced answer without backticks inside is reduced to the text between
    the fences), calls [json.loads] once, on the stripped text, and raises
    [ValueError] exactly when that one call fails: no second attempt is
    made. *)
Theorem parse_json_response_single_attempt
    {Json : Type} (json_loads : string -> option Json) (raw : string) :
  (exists text,
     llm.strip_fences raw = Returned text /\
     llm._parse_json_response json_loads raw
     = (match json_loads text with
        | Some j => Returned j
        | None => Raised ValueError
        end, [text]))
  /\
  (forall tag body,
     tag = "json" \/ tag = "" ->
     no_backtick body = true ->
     pystr.strip body = body ->
     raw = ("```" ++ tag ++ nl ++ body ++ nl ++ "```")%string ->
     llm.strip_fences raw = Returned body).
Proof.
  split.
  - destruct (strip_fences_returns raw) as (text & Ht).
    exists text. split; [exact Ht |].
    unfold llm._parse_json_response. rewrite Ht.
    destruct (json_loads text); reflexivity.
  - intros tag body Htag Hclean Htrim ->.
    apply strip_fences_fenced; assumption.
Qed.

(** A fenced empty object is parsed from the text between the fences, in one
    call. *)
Lemma parse_json_response_single_attempt_witness :
  llm._parse_json_response loads_empty_object
    ("```" ++ "json" ++ nl ++ "{}" ++ nl ++ "```")%string
  = (Returned tt, ["{}"]).
Proof.
  destruct (parse_json_response_single_attempt loads_empty_object
              ("```" ++ "json" ++ nl ++ "{}" ++ nl ++ "```")%string)
    as [(text & Ht & Hp) Hfenced].
  rewrite (Hfenced "json" "{}" (or_introl eq_refl) eq_refl eq_refl eq_refl) in Ht.
  inversion Ht; subst text. exact Hp.
Defined.

(** C9 as stated fails: on ["not json"], which [json.loads] rejects, the
    error is raised after a single parse attempt. *)
Lemma parse_json_response_no_second_attempt :
  llm._parse_json_response rejecting_loads "not json"
  = (Raised ValueError, ["not json"]).
Proof. reflexivity. Qed.

(** ** Facts about the queries *)

(** [UPDATE ... WHERE] and the rowid generator are reasoned about by their
    lemmas, not by unfolding. *)
Arguments db.update_where : simpl never.
Arguments db.next_rowid : simpl never.

Section StoreFacts.

Lemma sub_status_eqb_eq (a b : SubmissionStatus) : sub_status_eqb a b = true <-> a = b.
Proof. destruct a, b; simpl; split; intro H; try reflexivity; discriminate H. Qed.

Lemma asg_status_eqb_eq (a b : AssignmentStatus) : asg_status_eqb a b = true <-> a = b.
Proof. destruct a, b; simpl; split; intro H; try reflexivity; discriminate H. Qed.

Lemma asg_status_eqb_neq (a b : AssignmentStatus) : asg_status_eqb a b = false <-> a <> b.
Proof. destruct a, b; simpl; split; intro H; try reflexivity; try discriminate H;
       try congruence; exfalso; apply H; reflexivity. Qed.

Lemma update_where_length {R : Type} (p : R -> bool) (f : R -> R) (l : list R) :
  List.length (db.update_where p f l) = List.length l.
Proof. unfold db.update_where. apply length_map. Qed.

(** An update that matches no row changes nothing. *)
Lemma update_where_none {R : Type} (p : R -> bool) (f : R -> R) (l : list R) :
  (forall r, In r l -> p r = false) -> db.update_where p f l = l.
Proof.
  unfold db.update_where.
  induction l as [| r l IH]; intro H; simpl; [reflexivity |].
  rewrite (H r (or_introl eq_refl)). rewrite IH; [reflexivity |].
  intros x Hx. apply H. right. exact Hx.
Qed.

(** Selecting rows by a column that the update keeps commutes with it. *)
Lemma filter_update_where {R : Type} (q p : R -> bool) (f : R -> R) (l : list R) :
  (forall r, q (f r) = q r) ->
  filter q (db.update_where p f l) = db.update_where p f (filter q l).
Proof.
  unfold db.update_where.
  intro Hq. induction l as [| r l IH]; simpl; [reflexivity |].
  destruct (p r) eqn:Hp.
  - rewrite Hq. destruct (q r); simpl; [rewrite Hp, IH |]; auto.
  - destruct (q r); simpl; [rewrite Hp, IH |]; auto.
Qed.

(** An update of the very rows selected rewrites each of them. *)
Lemma update_where_filter_same {R : Type} (p : R -> bool) (f : R -> R) (l : list R) :
  db.update_where p f (filter p l) = map f (filter p l).
Proof.
  unfold db.update_where.
  induction l as [| r l IH]; simpl; [reflexivity |].
  destruct (p r) eqn:Hp; simpl; [rewrite Hp, IH |]; auto.
Qed.

(** Rows outside the update's condition are left alone. *)
Lemma update_where_filter_other {R : Type} (q p : R -> bool) (f : R -> R) (l : list R) :
  (forall r, q r = true -> p r = false) ->
  db.update_where p f (filter q l) = filter q l.
Proof.
  intro H. apply update_where_none. intros r Hr.
  apply filter_In in Hr. apply H. tauto.
Qed.

Lemma find_update_where {R : Type} (key : R -> Z) (x y : Z) (f : R -> R) (l : list R) :
  (forall r, key (f r) = key r) ->
  find (fun r => key r =? x) (db.update_where (fun r => key r =? y) f l)
  = if x =? y then option_map f (find (fun r => key r =? x) l)
    else find (fun r => key r =? x) l.
Proof.
  unfold db.update_where.
  intro Hk. induction l as [| r l IH]; simpl.
  - destruct (x =? y); reflexivity.
  - destruct (key r =? y) eqn:Hy.
    + rewrite Hk. destruct (key r =? x) eqn:Hx.
      * assert (x = y) by lia. subst y. rewrite Z.eqb_refl. reflexivity.
      * exact IH.
    + destruct (key r =? x) eqn:Hx.
      * destruct (x =? y) eqn:Hxy; [lia | reflexivity].
      * exact IH.
Qed.

Lemma latest_by_id_map (f : Assignment -> Assignment) (l : list Assignment) :
  (forall a, a_id (f a) = a_id a) ->
  db.latest_by_id (map f l) = option_map f (db.latest_by_id l).
Proof.
  intro Hid. induction l as [| r l IH]; simpl; [reflexivity |].
  rewrite IH. destruct (db.latest_by_id l) as [r' |]; simpl; [| reflexivity].
  rewrite !Hid. destruct (a_id r' <? a_id r); reflexivity.
Qed.

Lemma latest_by_id_in (l : list Assignment) (a : Assignment) :
  db.latest_by_id l = Some a -> In a l.
Proof.
  revert a. induction l as [| r l IH]; simpl; intros a H; [discriminate H |].
  destruct (db.latest_by_id l) as [r' |].
  - destruct (a_id r' <? a_id r); inversion H; subst; auto.
  - inversion H; auto.
Qed.


(** The row [get_assignment] returns is a row of the pair. *)
Lemma get_assignment_in (sub : Z) (username : string) (st : Store) (a : Assignment) :
  db.get_assignment sub username st = Some a ->
  In a (assignments st) /\ a_submission_id a = sub /\ reviewer_tg_username a = username.
Proof.
  unfold db.get_assignment. intro H. apply latest_by_id_in in H.
  apply filter_In in H. destruct H as [Hin Hp]. unfold db.is_pair in Hp.
  apply andb_prop in Hp. destruct Hp as [Hs Hu].
  apply String.eqb_eq in Hu. split; [exact Hin | split; [lia | exact Hu]].
Qed.

Lemma is_pair_true (sub : Z) (username : string) (a : Assignment) :
  db.is_pair sub username a = true
  <-> a_submission_id a = sub /\ reviewer_tg_username a = username.
Proof.
  unfold db.is_pair. rewrite andb_true_iff, Z.eqb_eq, String.eqb_eq. tauto.
Qed.

End StoreFacts.

(** ** Handlers, one by one *)

Ltac unfold_m :=
  unfold bind, ret, raise, query, exec, call, emit, lift, try_except in *.

(** Bring queries and statements down to the tables. *)
Ltac to_tables :=
  unfold db.insert_submission, db.insert_assignment, db.insert_followup,
    db.insert_rejection, db.add_second_to_rejection,
    db.update_submission_status, db.set_submission_accepted,
    db.set_submission_rejected, db.set_tg_status_message_id,
    db.update_assignment_status, db.mark_assignment_done,
    db.clear_pending_assignments, db.mark_followup_sent,
    db.set_rejection_proposal_message_id in *;
  unfold db.get_submission_by_id, db.get_submission_by_gmail_id,
    db.get_assignment, db.get_assignments_for_submission,
    db.get_confirmed_reviewers, db.get_done_reviewers,
    db.get_active_rejection, db.get_pending_followups,
    db.with_submissions, db.with_assignments, db.with_followups,
    db.with_rejections in *;
  cbn [submissions assignments followups rejections assignment_history
       sqlite_sequence store outbox fst snd] in *.

Lemma find_submission_update (x y : Z) (f : Submission -> Submission)
    (l : list Submission) :
  (forall r, sub_id (f r) = sub_id r) ->
  find (fun s => sub_id s =? x) (db.update_where (fun s => sub_id s =? y) f l)
  = if x =? y then option_map f (find (fun s => sub_id s =? x) l)
    else find (fun s => sub_id s =? x) l.
Proof. apply (find_update_where sub_id). Qed.

Lemma find_submission_update_same (x : Z) (f : Submission -> Submission)
    (l : list Submission) :
  (forall r, sub_id (f r) = sub_id r) ->
  find (fun s => sub_id s =? x) (db.update_where (fun s => sub_id s =? x) f l)
  = option_map f (find (fun s => sub_id s =? x) l).
Proof. intro H. rewrite find_submission_update by exact H. rewrite Z.eqb_refl. reflexivity. Qed.

Lemma add_followup_submissions (sub at_ : Z) (st : Store) :
  submissions (add_followup sub at_ st) = submissions st.
Proof.
  unfold add_followup, db.insert_followup.
  destruct (db.get_submission_by_id sub st); reflexivity.
Qed.

Lemma add_followup_assignments (sub at_ : Z) (st : Store) :
  assignments (add_followup sub at_ st) = assignments st.
Proof.
  unfold add_followup, db.insert_followup.
  destruct (db.get_submission_by_id sub st); reflexivity.
Qed.

Lemma add_followup_rejections (sub at_ : Z) (st : Store) :
  rejections (add_followup sub at_ st) = rejections st.
Proof.
  unfold add_followup, db.insert_followup.
  destruct (db.get_submission_by_id sub st); reflexivity.
Qed.


(** The transition to [under_review] when the submission is there: the
    status, one follow-up, the e-mail, the prompt with its done buttons. *)
Lemma transition_to_under_review_some (env : Env) (sub : Z) (w : World) (s : Submission) :
  db.get_submission_by_id sub (store w) = Some s ->
  state._transition_to_under_review env sub w
  = (Returned tt,
     {| store :=
          db.set_tg_status_message_id sub (Z.of_nat (List.length (outbox w ++ [send_under_review_email s])) + 1)
            (add_followup sub
               (now env + followup_interval_days (config env) * 86400)
               (db.update_submission_status sub under_review (store w)));
        outbox :=
          (outbox w ++ [send_under_review_email s])
          ++ [send_message (group_chat_id (config env))
                (under_review_text (title (email s))
                   (map reviewer_tg_username (db.get_confirmed_reviewers sub (store w))))
                (state.done_keyboard sub
                   (map reviewer_tg_username (db.get_confirmed_reviewers sub (store w))))] |}).
Proof.
  intro Hs. unfold state._transition_to_under_review, add_followup. unfold_m. to_tables.
  rewrite Hs. rewrite find_submission_update_same by reflexivity. rewrite Hs.
  reflexivity.
Qed.

(** Without the submission row the follow-up cannot be inserted. *)
Lemma transition_to_under_review_none (env : Env) (sub : Z) (w : World) :
  db.get_submission_by_id sub (store w) = None ->
  state._transition_to_under_review env sub w
  = (Raised IntegrityError,
     {| store := db.update_submission_status sub under_review (store w);
        outbox := outbox w |}).
Proof.
  intro Hs. unfold state._transition_to_under_review. unfold_m. to_tables.
  rewrite Hs. rewrite find_submission_update_same by reflexivity. rewrite Hs.
  reflexivity.
Qed.

Lemma transition_to_under_review_assignments (env : Env) (sub : Z) (w : World) :
  assignments (store (snd (state._transition_to_under_review env sub w)))
  = assignments (store w).
Proof.
  destruct (db.get_submission_by_id sub (store w)) as [s |] eqn:Hs.
  - rewrite (transition_to_under_review_some _ _ _ _ Hs).
    cbn [snd store]. unfold db.set_tg_status_message_id. cbn [assignments db.with_submissions].
    rewrite add_followup_assignments. reflexivity.
  - rewrite (transition_to_under_review_none _ _ _ Hs). reflexivity.
Qed.

Lemma get_assignment_update_status (sub : Z) (username : string)
    (v : AssignmentStatus) (tg : option Z) (now : Z) (st : Store) :
  db.get_assignment sub username (db.update_assignment_status sub username v tg now st)
  = option_map
      (fun a => {| a_id := a_id a; a_submission_id := a_submission_id a;
                   reviewer_tg_username := reviewer_tg_username a;
                   reviewer_tg_id := match tg with
                                     | Some i => Some i
                                     | None => reviewer_tg_id a
                                     end;
                   a_status := v; assigned_at := assigned_at a;
                   responded_at := Some now; done_at := done_at a |})
      (db.get_assignment sub username st).
Proof.
  to_tables.
  rewrite filter_update_where by reflexivity.
  rewrite update_where_filter_same.
  apply latest_by_id_map. reflexivity.
Qed.

Lemma accept_assignments (env : Env) (sub : Z) (username : string) (tg : Z)
    (w : World) (a : Assignment) :
  db.get_assignment sub username (store w) = Some a ->
  a_status a = pending ->
  assignments (store (snd (state.handle_reviewer_accept env sub username tg w)))
  = assignments (db.update_assignment_status sub username confirmed (Some tg)
                   (now env) (store w)).
Proof.
  intros Ha Hp. unfold state.handle_reviewer_accept. unfold_m. cbn.
  rewrite Ha, Hp. cbn.
  match goal with
  | |- context [match ?l with [] => _ | _ :: _ => _ end] => destruct l
  end.
  - match goal with
    | |- context [match ?l with [] => _ | _ :: _ => _ end] => destruct l
    end; [reflexivity |].
    match goal with
    | |- context [state._transition_to_under_review ?e ?s ?x] =>
        pose proof (transition_to_under_review_assignments e s x) as Ht;
        destruct (state._transition_to_under_review e s x) as [[u | e'] w']
    end; exact Ht.
  - reflexivity.
Qed.

(** C5. [handle_reviewer_accept] answers "Assignment not found." and changes
    nothing when the pairing has no row; answers "Already recorded!" and
    changes nothing (store and outgoing messages alike) when the pairing's
    most recent row is not [pending]; and when that row is [pending] it
    leaves it [confirmed], with the responder's chat id and the time, so
    that a second delivery of the same event is answered "Already
    recorded!" and changes nothing. *)
Theorem accept_guards (env env' : Env) (sub : Z) (username : string)
    (tg tg' : Z) (w : World) :
  (db.get_assignment sub username (store w) = None ->
   state.handle_reviewer_accept env sub username tg w
   = (Returned state.assignment_not_found, w))
  /\
  (forall a, db.get_assignment sub username (store w) = Some a ->
             a_status a <> pending ->
             state.handle_reviewer_accept env sub username tg w
             = (Returned state.already_recorded, w))
  /\
  (forall a, db.get_assignment sub username (store w) = Some a ->
             a_status a = pending ->
             let w' := snd (state.handle_reviewer_accept env sub username tg w) in
             (exists a', db.get_assignment sub username (store w') = Some a' /\
                         a_id a' = a_id a /\ a_status a' = confirmed /\
                         reviewer_tg_id a' = Some tg /\
                         responded_at a' = Some (now env)) /\
             state.handle_reviewer_accept env' sub username tg' w'
             = (Returned state.already_recorded, w')).
Proof.
  split; [| split].
  - intro H. unfold state.handle_reviewer_accept. unfold_m. rewrite H. reflexivity.
  - intros a H Hs. unfold state.handle_reviewer_accept. unfold_m. rewrite H.
    apply asg_status_eqb_neq in Hs. rewrite Hs. reflexivity.
  - intros a H Hs w'.
    assert (Hrow : db.get_assignment sub username (store w')
                   = Some {| a_id := a_id a; a_submission_id := a_submission_id a;
                             reviewer_tg_username := reviewer_tg_username a;
                             reviewer_tg_id := Some tg; a_status := confirmed;
                             assigned_at := assigned_at a;
                             responded_at := Some (now env); done_at := done_at a |}).
    { unfold db.get_assignment. subst w'.
      rewrite (accept_assignments env sub username tg w a H Hs).
      fold (db.get_assignment sub username
              (db.update_assignment_status sub username confirmed (Some tg) (now env) (store w))).
      rewrite get_assignment_update_status, H. reflexivity. }
    split.
    + eexists. split; [exact Hrow |]. repeat split.
    + unfold state.handle_reviewer_accept at 1. unfold_m. rewrite Hrow. reflexivity.
Qed.

(** Alice accepts; the same button press delivered again is answered
    "Already recorded!" and changes nothing. *)
Lemma accept_guards_witness :
  state.handle_reviewer_accept (env_at 30) 1 "alice" 11
    (snd (state.handle_reviewer_accept (env_at 20) 1 "alice" 11 asked_two))
  = (Returned state.already_recorded,
     snd (state.handle_reviewer_accept (env_at 20) 1 "alice" 11 asked_two)).
Proof.
  edestruct (accept_guards (env_at 20) (env_at 30) 1 "alice" 11 11 asked_two)
    as (_ & _ & H).
  edestruct H as [_ Hdup].
  - vm_compute. reflexivity.
  - reflexivity.
  - exact Hdup.
Defined.

(** *** Admit *)

Lemma map_update_where {R X : Type} (g : R -> X) (p : R -> bool) (f : R -> R)
    (l : list R) :
  (forall r, g (f r) = g r) -> map g (db.update_where p f l) = map g l.
Proof.
  intro H. unfold db.update_where. rewrite map_map. apply map_ext.
  intro r. destruct (p r); [apply H | reflexivity].
Qed.

Lemma max_rowid_bound {R : Type} (key : R -> Z) (l : list R) (r : R) :
  In r l -> key r <= db.max_rowid key l.
Proof.
  induction l as [| x l IH]; simpl; [intros [] |].
  intros [-> | H]; [lia |]. specialize (IH H). lia.
Qed.

(** The next rowid is the key of no row. *)
Lemma next_rowid_fresh {R : Type} (seq : Z) (key : R -> Z) (l : list R) (r : R) :
  In r l -> key r < db.next_rowid seq key l.
Proof.
  intro H. apply (max_rowid_bound key) in H. unfold db.next_rowid. lia.
Qed.

Lemma find_app {A : Type} (p : A -> bool) (l l' : list A) :
  find p (l ++ l') = match find p l with Some x => Some x | None => find p l' end.
Proof.
  induction l as [| x l IH]; simpl; [reflexivity |].
  destruct (p x); [reflexivity | exact IH].
Qed.

Lemma find_next_rowid (seq : Z) (l : list Submission) :
  find (fun s => sub_id s =? db.next_rowid seq sub_id l) l = None.
Proof.
  destruct (find _ l) as [s |] eqn:E; [| reflexivity].
  apply find_some in E. destruct E as [Hin Heq].
  apply (next_rowid_fresh seq sub_id) in Hin. lia.
Qed.

(** Inserting assignments for a submission that exists: every insert goes
    through, one after the other. *)
Lemma for_each_insert_assignment (sub : Z) (now : Z) (reviewers : list string)
    (w : World) (s : Submission) :
  db.get_submission_by_id sub (store w) = Some s ->
  for_each reviewers (fun r => call (db.insert_assignment sub r now)) w
  = (Returned tt,
     {| store := fold_left (fun st r => snd (db.insert_assignment sub r now st))
                   reviewers (store w);
        outbox := outbox w |}).
Proof.
  revert w. induction reviewers as [| r l IH]; intros w Hs; simpl.
  - destruct w; reflexivity.
  - unfold_m. unfold db.insert_assignment at 1. rewrite Hs. cbn.
    match goal with
    | |- context [for_each l ?f ?x] => rewrite (IH x)
    end.
    + cbn. unfold db.insert_assignment at 3. rewrite Hs. reflexivity.
    + exact Hs.
Qed.

Lemma insert_assignments_submissions (sub : Z) (now : Z) (reviewers : list string)
    (st : Store) :
  submissions (fold_left (fun st r => snd (db.insert_assignment sub r now st))
                 reviewers st)
  = submissions st.
Proof.
  revert st. induction reviewers as [| r l IH]; intro st; simpl; [reflexivity |].
  rewrite IH. unfold db.insert_assignment.
  destruct (db.get_submission_by_id sub st); reflexivity.
Qed.

(** What [handle_new_submission] does to the column of message ids. *)
Lemma new_submission_gmail_ids (env : Env) (e : EmailData) (o : Result llm.Picked) (w : World) :
  gmail_ids (store (snd (state.handle_new_submission env e o w)))
  = match db.get_submission_by_gmail_id (gmail_message_id e) (store w) with
    | Some _ => gmail_ids (store w)
    | None => gmail_ids (store w) ++ [gmail_message_id e]
    end.
Proof.
  unfold state.handle_new_submission.
  unfold bind, ret, raise, query, exec, emit. cbn [fst snd].
  destruct (db.get_submission_by_gmail_id (gmail_message_id e) (store w)) eqn:Hg;
    [reflexivity |].
  unfold call at 1. unfold db.insert_submission. rewrite Hg.
  set (i := db.next_rowid _ _ _).
  set (row := {| sub_id := i; email := e; status := pending_assignment;
                 created_at := now env; accepted_at := None; rejected_at := None;
                 publish_date := None; tg_status_message_id := None |}).
  cbn [store outbox].
  destruct o as [d | ex].
  2: { unfold gmail_ids. cbn. rewrite map_app. reflexivity. }
  destruct (llm.reviewer1 d) as [r1 |].
  2: { unfold gmail_ids. cbn. rewrite map_app. reflexivity. }
  unfold lift. destruct (state.stripped_names _) as [reviewers | ex].
  2: { unfold gmail_ids. cbn. rewrite map_app. reflexivity. }
  match goal with
  | |- context [for_each ?l ?f ?x] =>
      rewrite (for_each_insert_assignment i (now env) l x row)
  end.
  - cbn [fst snd store outbox]. unfold gmail_ids.
    unfold db.set_tg_status_message_id, db.update_submission_status,
      db.with_submissions.
    cbn [submissions]. rewrite !map_update_where by reflexivity.
    rewrite insert_assignments_submissions. cbn [submissions].
    rewrite map_app. reflexivity.
  - to_tables. rewrite find_app. subst i. rewrite find_next_rowid.
    cbn. rewrite Z.eqb_refl. reflexivity.
Qed.

Lemma find_gmail_id_column (gid : string) (st : Store) :
  db.get_submission_by_gmail_id gid st = None
  <-> filter (fun g => String.eqb g gid) (gmail_ids st) = [].
Proof.
  unfold db.get_submission_by_gmail_id, gmail_ids.
  induction (submissions st) as [| s l IH]; simpl; [tauto |].
  destruct (String.eqb (gmail_message_id (email s)) gid); [| exact IH].
  split; discriminate.
Qed.

(** C3. A second [handle_new_submission] for the same message id returns
    without changing the store or sending anything; after the first call
    the id is carried by one submission if it was new, and by as many as
    before otherwise, and a row is added only for a new id. *)
Theorem new_submission_idempotent (env env' : Env) (e : EmailData)
    (o o' : Result llm.Picked) (w : World) :
  let w1 := snd (state.handle_new_submission env e o w) in
  state.handle_new_submission env' e o' w1 = (Returned tt, w1)
  /\ count_gmail_id (gmail_message_id e) (store w1)
     = Nat.max 1 (count_gmail_id (gmail_message_id e) (store w))
  /\ List.length (submissions (store w1))
     = (List.length (submissions (store w))
        + (1 - count_gmail_id (gmail_message_id e) (store w)))%nat.
Proof.
  intro w1.
  pose proof (new_submission_gmail_ids env e o w) as Hcol. fold w1 in Hcol.
  assert (Hlen : forall st, List.length (gmail_ids st) = List.length (submissions st))
    by (intro st; apply length_map).
  destruct (db.get_submission_by_gmail_id (gmail_message_id e) (store w)) as [s |] eqn:Hg.
  - assert (Hw : w1 = w).
    { subst w1. unfold state.handle_new_submission. unfold_m. rewrite Hg. reflexivity. }
    rewrite Hw. split; [| split].
    + unfold state.handle_new_submission. unfold_m. rewrite Hg. reflexivity.
    + unfold count_gmail_id.
      destruct (filter _ (gmail_ids (store w))) eqn:Hf; [| simpl; lia].
      apply find_gmail_id_column in Hf. congruence.
    + unfold count_gmail_id.
      destruct (filter _ (gmail_ids (store w))) eqn:Hf; [| simpl; lia].
      apply find_gmail_id_column in Hf. congruence.
  - assert (Hzero : count_gmail_id (gmail_message_id e) (store w) = 0%nat).
    { unfold count_gmail_id. apply find_gmail_id_column in Hg. rewrite Hg. reflexivity. }
    assert (Hone : count_gmail_id (gmail_message_id e) (store w1) = 1%nat).
    { unfold count_gmail_id in *. rewrite Hcol, filter_app, length_app, Hzero.
      simpl. rewrite String.eqb_refl. reflexivity. }
    split; [| split].
    + unfold state.handle_new_submission. unfold_m.
      destruct (db.get_submission_by_gmail_id (gmail_message_id e) (store w1)) eqn:Hg1;
        [reflexivity |].
      apply find_gmail_id_column in Hg1. unfold count_gmail_id in Hone.
      rewrite Hg1 in Hone. discriminate Hone.
    + rewrite Hone, Hzero. reflexivity.
    + rewrite <- !Hlen, Hcol, length_app, Hzero. reflexivity.
Qed.

(** *** MarkDone *)

Lemma in_update_where {R : Type} (p : R -> bool) (f : R -> R) (l : list R) (x : R) :
  In x (db.update_where p f l) <-> exists r, In r l /\ x = if p r then f r else r.
Proof.
  unfold db.update_where. rewrite in_map_iff.
  split; intros (r & H1 & H2); exists r; [split; [exact H2 | symmetry; exact H1] |
                                          split; [symmetry; exact H2 | exact H1]].
Qed.

Lemma filter_all {A : Type} (p : A -> bool) (l : list A) :
  (forall x, In x l -> p x = true) -> filter p l = l.
Proof.
  induction l as [| x l IH]; intro H; simpl; [reflexivity |].
  rewrite (H x (or_introl eq_refl)). rewrite IH; [reflexivity |].
  intros y Hy. apply H. right. exact Hy.
Qed.

Lemma filter_nil {A : Type} (p : A -> bool) (l : list A) :
  (forall x, In x l -> p x = false) -> filter p l = [].
Proof.
  induction l as [| x l IH]; intro H; simpl; [reflexivity |].
  rewrite (H x (or_introl eq_refl)). apply IH.
  intros y Hy. apply H. right. exact Hy.
Qed.

Lemma transition_to_accepted_some (env : Env) (sub : Z) (l : list Assignment)
    (w : World) (s : Submission) (d : datetime.DateTime) :
  db.get_submission_by_id sub (store w) = Some s ->
  state.compute_publish_date env (get_or (publish_timezone (config env)) "Asia/Taipei")
    (get_or (publish_time (config env)) "09:30") = Returned d ->
  state._transition_to_accepted env sub l w
  = (Returned tt,
     {| store := db.set_submission_accepted sub (datetime.ordinal d) (now env) (store w);
        outbox := (outbox w
                   ++ [send_message (group_chat_id (config env))
                         (accepted_text (title (email s)) (datetime.ordinal d)) []])
                  ++ [send_acceptance_email s (datetime.ordinal d)] |}).
Proof.
  intros Hs Hd. unfold state._transition_to_accepted. unfold_m.
  rewrite Hs, Hd. reflexivity.
Qed.

(** After the mark, the rows of the pair are [done] and nothing else moved. *)
Lemma mark_done_rows (sub : Z) (u : string) (tg now : Z) (st : Store) (b' : Assignment) :
  In b' (assignments (db.mark_assignment_done sub u (Some tg) now st)) <->
  exists b, In b (assignments st) /\
            b' = if db.is_pair sub u b then marked_done tg now b else b.
Proof. unfold db.mark_assignment_done. cbn [assignments db.with_assignments]. apply in_update_where. Qed.

(** When, after the mark, no reviewer of the submission is left [confirmed],
    [handle_reviewer_done] accepts the submission. *)
Lemma done_accepts (env : Env) (sub : Z) (u : string) (tg : Z) (w : World)
    (s : Submission) (a : Assignment) (d : datetime.DateTime) :
  db.get_submission_by_id sub (store w) = Some s ->
  status s = under_review \/ status s = assigning ->
  db.get_assignment sub u (store w) = Some a ->
  a_status a <> done ->
  (forall b, In b (assignments (store w)) -> a_submission_id b = sub ->
             a_status b = confirmed -> reviewer_tg_username b = u) ->
  state.compute_publish_date env (get_or (publish_timezone (config env)) "Asia/Taipei")
    (get_or (publish_time (config env)) "09:30") = Returned d ->
  state.handle_reviewer_done env sub u tg w
  = (Returned state.review_marked_done,
     {| store := db.set_submission_accepted sub (datetime.ordinal d) (now env)
                   (db.mark_assignment_done sub u (Some tg) (now env) (store w));
        outbox := (outbox w
                   ++ [send_message (group_chat_id (config env))
                         (accepted_text (title (email s)) (datetime.ordinal d)) []])
                  ++ [send_acceptance_email s (datetime.ordinal d)] |}).
Proof.
  intros Hs Hst Ha Hnd Hothers Hd.
  set (st1 := db.mark_assignment_done sub u (Some tg) (now env) (store w)).
  set (active := filter state.is_active_review (db.get_assignments_for_submission sub st1)).
  assert (Hall : forall x, In x active -> asg_status_eqb (a_status x) done = true).
  { intros x Hx. subst active. apply filter_In in Hx. destruct Hx as [Hx Hact].
    unfold db.get_assignments_for_submission in Hx. apply filter_In in Hx.
    destruct Hx as [Hx Hsub]. subst st1. apply mark_done_rows in Hx.
    destruct Hx as (b & Hb & ->).
    destruct (db.is_pair sub u b) eqn:Hp; [reflexivity |].
    unfold state.is_active_review in Hact. apply orb_prop in Hact.
    destruct Hact as [Hc | Hdn]; [| exact Hdn].
    apply asg_status_eqb_eq in Hc.
    assert (Hu : reviewer_tg_username b = u) by (apply Hothers; [exact Hb | lia | exact Hc]).
    assert (Hp' : db.is_pair sub u b = true) by (apply is_pair_true; split; [lia | exact Hu]).
    congruence. }
  assert (Hne : active <> []).
  { apply get_assignment_in in Ha. destruct Ha as (Hin & Hsa & Hua).
    assert (Hm : In (marked_done tg (now env) a) active).
    { subst active. apply filter_In. split; [| reflexivity].
      unfold db.get_assignments_for_submission. apply filter_In. split.
      - subst st1. apply mark_done_rows. exists a. split; [exact Hin |].
        assert (Hp : db.is_pair sub u a = true) by (apply is_pair_true; tauto).
        rewrite Hp. reflexivity.
      - simpl. lia. }
    intro E. rewrite E in Hm. exact Hm. }
  unfold state.handle_reviewer_done. unfold_m. rewrite Hs.
  assert (Hguard : negb (sub_status_eqb (status s) under_review
                         || sub_status_eqb (status s) assigning) = false).
  { destruct Hst as [-> | ->]; reflexivity. }
  rewrite Hguard, Ha.
  apply asg_status_eqb_neq in Hnd. rewrite Hnd.
  cbn [fst snd store outbox]. fold st1. fold active.
  rewrite (filter_all _ active Hall).
  assert (Hcond : negb (Nat.eqb (List.length active) 0)
                  && (List.length active <=? List.length active)%nat = true).
  { destruct active; [congruence |]. simpl. rewrite Nat.leb_refl. reflexivity. }
  rewrite Hcond.
  assert (Hs1 : db.get_submission_by_id sub st1 = Some s) by exact Hs.
  match goal with
  | |- context [state._transition_to_accepted env sub active ?x] =>
      rewrite (transition_to_accepted_some env sub active x s d Hs1 Hd)
  end.
  reflexivity.
Qed.

Lemma transition_to_accepted_raises (env : Env) (sub : Z) (l : list Assignment)
    (w : World) (e : Exn) :
  state.compute_publish_date env (get_or (publish_timezone (config env)) "Asia/Taipei")
    (get_or (publish_time (config env)) "09:30") = Raised e ->
  state._transition_to_accepted env sub l w = (Raised e, w).
Proof.
  intro Hd. unfold state._transition_to_accepted. unfold_m. rewrite Hd. reflexivity.
Qed.

Lemma get_assignment_mark_done (sub : Z) (u : string) (tg now : Z) (st : Store) :
  db.get_assignment sub u (db.mark_assignment_done sub u (Some tg) now st)
  = option_map (marked_done tg now) (db.get_assignment sub u st).
Proof.
  to_tables. rewrite filter_update_where by reflexivity.
  rewrite update_where_filter_same. apply latest_by_id_map. reflexivity.
Qed.

(** Past its guards, [handle_reviewer_done] marks the rows of the pair; it
    answers "Review marked as done!" unless the publish date cannot be
    computed at the point of acceptance. *)
Lemma done_marks (env : Env) (sub : Z) (u : string) (tg : Z) (w : World)
    (s : Submission) (a : Assignment) :
  db.get_submission_by_id sub (store w) = Some s ->
  status s = under_review \/ status s = assigning ->
  db.get_assignment sub u (store w) = Some a ->
  a_status a <> done ->
  let r := state.handle_reviewer_done env sub u tg w in
  assignments (store (snd r))
  = assignments (db.mark_assignment_done sub u (Some tg) (now env) (store w))
  /\ (fst r = Returned state.review_marked_done
      \/ exists e, fst r = Raised e /\
                   state.compute_publish_date env
                     (get_or (publish_timezone (config env)) "Asia/Taipei")
                     (get_or (publish_time (config env)) "09:30") = Raised e).
Proof.
  intros Hs Hst Ha Hnd r. subst r.
  unfold state.handle_reviewer_done. unfold_m. rewrite Hs.
  assert (Hguard : negb (sub_status_eqb (status s) under_review
                         || sub_status_eqb (status s) assigning) = false).
  { destruct Hst as [-> | ->]; reflexivity. }
  rewrite Hguard, Ha. apply asg_status_eqb_neq in Hnd. rewrite Hnd.
  cbn [fst snd store outbox].
  set (st1 := db.mark_assignment_done sub u (Some tg) (now env) (store w)).
  match goal with
  | |- context [if ?c then state._transition_to_accepted _ _ _ else _] => destruct c
  end.
  - destruct (state.compute_publish_date env
                (get_or (publish_timezone (config env)) "Asia/Taipei")
                (get_or (publish_time (config env)) "09:30")) as [d | e] eqn:Hd.
    + match goal with
      | |- context [state._transition_to_accepted env sub ?l ?x] =>
          rewrite (transition_to_accepted_some env sub l x s d Hs Hd)
      end.
      cbn [fst snd store outbox]. split; [reflexivity | left; reflexivity].
    + match goal with
      | |- context [state._transition_to_accepted env sub ?l ?x] =>
          rewrite (transition_to_accepted_raises env sub l x e Hd)
      end.
      cbn [fst snd store outbox]. split; [reflexivity |].
      right. exists e. split; reflexivity.
  - match goal with
    | |- context [match ?l with [] => _ | _ :: _ => _ end] => destruct l
    end; cbn [fst snd store outbox]; split; try reflexivity; left; reflexivity.
Qed.

(** C10. For a submission that is [under_review] or [assigning],
    [handle_reviewer_done] refuses only a reviewer without a row ("not
    assigned") or with a row already [done] ("Already recorded!").  A row in
    any other status, [declined] included, is set to [done]: the reviewer is
    then among the active (confirmed or done) reviewers, the answer is
    "Review marked as done!" whenever the publish date can be computed, and
    the submission is accepted if no other reviewer is still [confirmed]. *)
Theorem done_on_declined_row (env : Env) (sub : Z) (u : string) (tg : Z)
    (w : World) (s : Submission) :
  db.get_submission_by_id sub (store w) = Some s ->
  status s = under_review \/ status s = assigning ->
  (db.get_assignment sub u (store w) = None ->
   state.handle_reviewer_done env sub u tg w = (Returned (state.not_assigned u), w))
  /\
  (forall a, db.get_assignment sub u (store w) = Some a -> a_status a = done ->
             state.handle_reviewer_done env sub u tg w
             = (Returned state.already_recorded, w))
  /\
  (forall a, db.get_assignment sub u (store w) = Some a ->
             a_status a = declined \/ a_status a = pending \/ a_status a = confirmed ->
     let r := state.handle_reviewer_done env sub u tg w in
     db.get_assignment sub u (store (snd r)) = Some (marked_done tg (now env) a)
     /\ In (marked_done tg (now env) a)
           (filter state.is_active_review
              (db.get_assignments_for_submission sub (store (snd r))))
     /\ (forall d,
           state.compute_publish_date env
             (get_or (publish_timezone (config env)) "Asia/Taipei")
             (get_or (publish_time (config env)) "09:30") = Returned d ->
           fst r = Returned state.review_marked_done
           /\ ((forall b, In b (assignments (store w)) -> a_submission_id b = sub ->
                          a_status b = confirmed -> reviewer_tg_username b = u) ->
               status_of sub (snd r) = Some accepted))).
Proof.
  intros Hs Hst.
  assert (Hguard : negb (sub_status_eqb (status s) under_review
                         || sub_status_eqb (status s) assigning) = false).
  { destruct Hst as [-> | ->]; reflexivity. }
  split; [| split].
  - intro Hn. unfold state.handle_reviewer_done. unfold_m.
    rewrite Hs, Hguard, Hn. reflexivity.
  - intros a Ha Hd. unfold state.handle_reviewer_done. unfold_m.
    rewrite Hs, Hguard, Ha, Hd. reflexivity.
  - intros a Ha Hstatus r.
    assert (Hnd : a_status a <> done) by (destruct Hstatus as [-> | [-> | ->]]; discriminate).
    destruct (done_marks env sub u tg w s a Hs Hst Ha Hnd) as [Hrows Hreply].
    fold r in Hrows, Hreply.
    assert (Hget : db.get_assignment sub u (store (snd r))
                   = Some (marked_done tg (now env) a)).
    { unfold db.get_assignment. rewrite Hrows.
      fold (db.get_assignment sub u
              (db.mark_assignment_done sub u (Some tg) (now env) (store w))).
      rewrite get_assignment_mark_done, Ha. reflexivity. }
    split; [exact Hget | split].
    + apply filter_In. split; [| reflexivity].
      apply get_assignment_in in Hget. destruct Hget as (Hin & Hsa & _).
      unfold db.get_assignments_for_submission. apply filter_In.
      split; [exact Hin | lia].
    + intros d Hd. split.
      * destruct Hreply as [Hok | (e & _ & He)]; [exact Hok | congruence].
      * intro Hothers. subst r.
        rewrite (done_accepts env sub u tg w s a d Hs Hst Ha Hnd Hothers Hd).
        unfold status_of. to_tables.
        rewrite find_submission_update_same by reflexivity.
        unfold db.get_submission_by_id in Hs. rewrite Hs. reflexivity.
Qed.

(** Alice declined, nobody replaced her, and her "done" button still
    accepts the submission. *)
Lemma done_on_declined_row_witness :
  status_of 1 (snd (state.handle_reviewer_done (env_at 30) 1 "alice" 11 declined_one))
  = Some accepted.
Proof.
  edestruct (done_on_declined_row (env_at 30) 1 "alice" 11 declined_one)
    as (_ & _ & H).
  - vm_compute. reflexivity.
  - right. reflexivity.
  - edestruct H as (_ & _ & Hd).
    + vm_compute. reflexivity.
    + left. reflexivity.
    + edestruct Hd as (_ & Hacc).
      * vm_compute. reflexivity.
      * apply Hacc. intros b Hb _ Hc. vm_compute in Hb.
        destruct Hb as [<- | []]. discriminate Hc.
Defined.

(** *** A lone reviewer *)





(** *** Rejection: second and confirm *)

Lemma confirm_rejects (env : Env) (sub : Z) (caller : Z) (w : World) (s : Submission) :
  db.get_submission_by_id sub (store w) = Some s ->
  passes_operator_check (config env) caller ->
  state.handle_confirm_rejection env sub caller w
  = (Returned state.rejection_confirmed,
     {| store := db.set_submission_rejected sub (now env) (store w);
        outbox := (outbox w
                   ++ [send_message (group_chat_id (config env))
                         (rejected_text (title (email s))) []])
                  ++ [send_rejection_email s
                        (match db.get_active_rejection sub (store w) with
                         | Some r => reason r
                         | None => ""
                         end)] |}).
Proof.
  intros Hs Hop. unfold state.handle_confirm_rejection. unfold_m.
  assert (Hcheck : match operator_user_id (config env) with
                   | Some operator => truthy (Some operator) && negb (caller =? operator)
                   | None => false
                   end = false).
  { unfold passes_operator_check in Hop.
    destruct (operator_user_id (config env)) as [op |]; [| reflexivity].
    unfold truthy. destruct Hop as [-> | ->]; [reflexivity |].
    rewrite Z.eqb_refl, andb_false_r. reflexivity. }
  rewrite Hcheck, Hs. reflexivity.
Qed.

Lemma confirm_forbidden (env : Env) (sub : Z) (caller operator : Z) (w : World) :
  operator_user_id (config env) = Some operator ->
  operator <> 0 -> caller <> operator ->
  state.handle_confirm_rejection env sub caller w = (Returned state.only_operator, w).
Proof.
  intros Hop H0 Hne. unfold state.handle_confirm_rejection. unfold_m.
  rewrite Hop. unfold truthy.
  destruct (Z.eqb_spec operator 0); [contradiction |].
  destruct (Z.eqb_spec caller operator); [contradiction |]. reflexivity.
Qed.

Lemma second_affordance (env : Env) (sub : Z) (u : string) (w : World)
    (r : Rejection) (s : Submission) :
  db.get_active_rejection sub (store w) = Some r ->
  u <> proposed_by r ->
  db.get_submission_by_id sub (store w) = Some s ->
  let supporters := fst (db.add_second_to_rejection (r_id r) u (store w)) in
  outbox (snd (state.handle_second env sub u w))
  = outbox w
    ++ [edit_message_text (group_chat_id (config env)) (tg_proposal_message_id r)
          (seconds_text (proposed_by r) (title (email s)) (reason r) supporters)
          (confirm_affordance sub (List.length supporters))].
Proof.
  intros Hr Hu Hs supporters. unfold state.handle_second. unfold_m. rewrite Hr.
  apply String.eqb_neq in Hu. rewrite Hu.
  unfold db.add_second_to_rejection in *. cbn [fst snd store outbox] in *.
  assert (Hs' : forall l, db.get_submission_by_id sub (db.with_rejections (store w) l) = Some s)
    by (intro l; exact Hs).
  rewrite Hs'. fold supporters. unfold confirm_affordance.
  destruct (2 <=? List.length supporters)%nat; reflexivity.
Qed.

(** C2, as the code has it.  [handle_confirm_rejection] does not look at
    the seconders: a caller who passes the operator check rejects an existing
    submission whatever its proposals are, and any other caller changes
    nothing.  The threshold is kept by the chat affordance alone:
    [handle_second] puts the confirm button under the proposal exactly when
    the seconders, after the call, are two or more. *)
Theorem confirm_ignores_seconders (env : Env) (sub : Z) (w : World) (s : Submission) :
  db.get_submission_by_id sub (store w) = Some s ->
  (forall caller, passes_operator_check (config env) caller ->
     fst (state.handle_confirm_rejection env sub caller w)
     = Returned state.rejection_confirmed
     /\ status_of sub (snd (state.handle_confirm_rejection env sub caller w))
        = Some rejected)
  /\
  (forall caller operator,
     operator_user_id (config env) = Some operator ->
     operator <> 0 -> caller <> operator ->
     state.handle_confirm_rejection env sub caller w = (Returned state.only_operator, w))
  /\
  (forall u r,
     db.get_active_rejection sub (store w) = Some r ->
     u <> proposed_by r ->
     let supporters := fst (db.add_second_to_rejection (r_id r) u (store w)) in
     outbox (snd (state.handle_second env sub u w))
     = outbox w
       ++ [edit_message_text (group_chat_id (config env)) (tg_proposal_message_id r)
             (seconds_text (proposed_by r) (title (email s)) (reason r) supporters)
             (confirm_affordance sub (List.length supporters))]).
Proof.
  intro Hs. split; [| split].
  - intros caller Hop. rewrite (confirm_rejects env sub caller w s Hs Hop).
    split; [reflexivity |].
    unfold status_of. to_tables.
    rewrite find_submission_update_same by reflexivity. rewrite Hs. reflexivity.
  - intros caller operator Hop H0 Hne. exact (confirm_forbidden env sub caller operator w Hop H0 Hne).
  - intros u r Hr Hu. exact (second_affordance env sub u w r s Hr Hu Hs).
Qed.

(** The operator confirms on a submission nobody proposed to reject. *)
Lemma confirm_ignores_seconders_witness :
  status_of 1 (snd (state.handle_confirm_rejection (env_at 20) 1 7 asked_two))
  = Some rejected.
Proof.
  edestruct (confirm_ignores_seconders (env_at 20) 1 asked_two) as [H _].
  - vm_compute. reflexivity.
  - edestruct (H 7) as [_ Hst].
    + right. reflexivity.
    + exact Hst.
Defined.

(** C2 as stated fails: with no rejection proposal at all, or with a latest
    proposal that nobody seconded, the operator's Confirm rejects the
    submission. *)
Lemma confirm_rejects_below_threshold :
  db.get_active_rejection 1 (store asked_two) = None
  /\ status_of 1 (step (env_at 20) (Confirm 1 7) asked_two) = Some rejected
  /\ option_map seconds (db.get_active_rejection 1 (store superseded_proposal)) = Some []
  /\ status_of 1 (step (env_at 60) (Confirm 1 7) superseded_proposal) = Some rejected.
Proof. vm_compute. repeat split; reflexivity. Qed.

(** ** The status of a submission along a run *)

Lemma status_of_same (sub : Z) (w w' : World) :
  submissions (store w') = submissions (store w) ->
  status_of sub w' = status_of sub w.
Proof. unfold status_of, db.get_submission_by_id. intros ->. reflexivity. Qed.

(** A write to the row of [y] shows in the status of [sub] only if [sub] is
    [y]. *)
Lemma status_after_update (sub y : Z) (f : Submission -> Submission)
    (l : list Submission) :
  (forall r, sub_id (f r) = sub_id r) ->
  option_map status
    (find (fun s => sub_id s =? sub) (db.update_where (fun s => sub_id s =? y) f l))
  = if sub =? y
    then option_map (fun r => status (f r)) (find (fun s => sub_id s =? sub) l)
    else option_map status (find (fun s => sub_id s =? sub) l).
Proof.
  intro H. rewrite find_submission_update by exact H.
  destruct (sub =? y); [| reflexivity].
  destruct (find _ l); reflexivity.
Qed.

Ltac status_norm :=
  unfold status_of in *; to_tables;
  repeat first [ rewrite status_after_update by reflexivity
               | rewrite find_submission_update by reflexivity
               | rewrite add_followup_submissions
               | progress cbn [option_map fst snd submissions status] ].

(** A general loop rule: what every round keeps, the loop keeps. *)
Lemma for_each_keeps {A B : Type} (P : World -> Prop) (f : A -> M B) (l : list A) :
  (forall x w, P w -> P (snd (f x w))) ->
  forall w, P w -> P (snd (for_each l f w)).
Proof.
  intro Hf. induction l as [| x l IH]; intros w Hw; simpl; [exact Hw |].
  unfold bind. specialize (Hf x w Hw).
  destruct (f x w) as [[b | e] w']; simpl in *; [apply IH; exact Hf | exact Hf].
Qed.

Lemma send_followup_submissions (env : Env) (f : Followup) (w : World) :
  submissions (store (snd (state.send_followup env f w))) = submissions (store w).
Proof.
  unfold state.send_followup. unfold_m.
  destruct (db.get_submission_by_id (f_submission_id f) (store w)) as [s |] eqn:Hs;
    [| reflexivity].
  destruct (negb (sub_status_eqb (status s) under_review)); [reflexivity |].
  destruct (filter state.is_active_review _); [reflexivity |].
  to_tables. rewrite Hs. reflexivity.
Qed.

Lemma check_followups_submissions (env : Env) (w : World) :
  submissions (store (snd (scheduler._check_followups env w))) = submissions (store w).
Proof.
  unfold scheduler._check_followups. unfold bind, query. cbn [fst snd].
  apply (for_each_keeps (fun w' => submissions (store w') = submissions (store w)));
    [| reflexivity].
  intros f w' Hw'. unfold try_except.
  pose proof (send_followup_submissions env f w') as H.
  destruct (state.send_followup env f w') as [[u | e] w'']; simpl in *; congruence.
Qed.

Lemma decline_submissions (env : Env) (sub : Z) (u : string) (tg : Z)
    (o : Result llm.Picked) (w : World) :
  submissions (store (snd (state.handle_reviewer_decline env sub u tg o w)))
  = submissions (store w).
Proof.
  unfold state.handle_reviewer_decline. unfold_m.
  destruct (db.get_assignment sub u (store w)) as [a |]; [| reflexivity].
  destruct (negb (asg_status_eqb (a_status a) pending)); [reflexivity |].
  cbn [fst snd store outbox].
  destruct (db.get_submission_by_id sub _) as [s |] eqn:Hs; [| reflexivity].
  destruct o as [d | e]; [| reflexivity].
  destruct (llm.reviewer1 d) as [[r1 | truth] |]; [| reflexivity | reflexivity].
  destruct (pystr.is_empty (pystr.strip r1) || _); [reflexivity |].
  unfold db.insert_assignment. cbn [fst snd store outbox]. rewrite Hs. reflexivity.
Qed.

Lemma propose_submissions (env : Env) (sub : Z) (by_ why : string) (w : World) :
  submissions (store (snd (state.handle_rejection_proposal env sub by_ why w)))
  = submissions (store w).
Proof.
  unfold state.handle_rejection_proposal. unfold_m. unfold db.insert_rejection.
  destruct (db.get_submission_by_id sub (store w)) as [s |]; [| reflexivity].
  cbn [fst snd store outbox].
  destruct (state.title_keyword s); reflexivity.
Qed.

Lemma second_submissions (env : Env) (sub : Z) (u : string) (w : World) :
  submissions (store (snd (state.handle_second env sub u w))) = submissions (store w).
Proof.
  unfold state.handle_second. unfold_m.
  destruct (db.get_active_rejection sub (store w)) as [r |]; [| reflexivity].
  destruct (String.eqb u (proposed_by r)); [reflexivity |].
  unfold db.add_second_to_rejection. cbn [fst snd store outbox].
  destruct (db.get_submission_by_id sub _); [| reflexivity].
  destruct (2 <=? _)%nat; reflexivity.
Qed.

(** A submission that exists has a smaller id than the next one. *)
Lemma existing_below_next (sub : Z) (seq : Z) (l : list Submission) (s : Submission) :
  find (fun r => sub_id r =? sub) l = Some s ->
  (sub =? db.next_rowid seq sub_id l) = false.
Proof.
  intro H. apply find_some in H. destruct H as [Hin Heq].
  apply (next_rowid_fresh seq sub_id) in Hin. lia.
Qed.

(** Admitting a message leaves every row that exists as it is. *)
Lemma new_submission_keeps_rows (env : Env) (e : EmailData) (o : Result llm.Picked)
    (w : World) (sub : Z) (s : Submission) :
  db.get_submission_by_id sub (store w) = Some s ->
  db.get_submission_by_id sub (store (snd (state.handle_new_submission env e o w)))
  = Some s.
Proof.
  intro Hs. unfold state.handle_new_submission.
  unfold bind, ret, raise, query, exec, emit. cbn [fst snd].
  destruct (db.get_submission_by_gmail_id (gmail_message_id e) (store w)) eqn:Hg;
    [exact Hs |].
  unfold call at 1. unfold db.insert_submission. rewrite Hg.
  set (i := db.next_rowid _ _ _).
  set (row := {| sub_id := i; email := e; status := pending_assignment;
                 created_at := now env; accepted_at := None; rejected_at := None;
                 publish_date := None; tg_status_message_id := None |}).
  cbn [store outbox].
  assert (Hold : find (fun r => sub_id r =? sub) (submissions (store w) ++ [row]) = Some s).
  { rewrite find_app. unfold db.get_submission_by_id in Hs. rewrite Hs. reflexivity. }
  assert (Hi : (sub =? i) = false) by (exact (existing_below_next _ _ _ _ Hs)).
  destruct o as [d | ex]; [| exact Hold].
  destruct (llm.reviewer1 d) as [r1 |]; [| exact Hold].
  unfold lift. destruct (state.stripped_names _) as [reviewers | ex']; [| exact Hold].
  match goal with
  | |- context [for_each ?l ?f ?x] =>
      rewrite (for_each_insert_assignment i (now env) l x row)
  end.
  - cbn [fst snd store outbox].
    unfold db.set_tg_status_message_id, db.update_submission_status,
      db.with_submissions, db.get_submission_by_id.
    cbn [submissions].
    rewrite !find_submission_update by reflexivity. rewrite Hi.
    rewrite insert_assignments_submissions. exact Hold.
  - to_tables. rewrite find_app. subst i. rewrite find_next_rowid.
    cbn. rewrite Z.eqb_refl. reflexivity.
Qed.

Lemma accept_status (env : Env) (s : Z) (u : string) (tg : Z) (w : World)
    (sub : Z) (v : SubmissionStatus) :
  status_of sub w = Some v ->
  exists v', status_of sub (snd (state.handle_reviewer_accept env s u tg w)) = Some v'
             /\ (v' = v \/ (s = sub /\ v' = under_review)).
Proof.
  intro Hv. unfold state.handle_reviewer_accept. unfold_m.
  destruct (db.get_assignment s u (store w)) as [a |]; [| exists v; auto].
  destruct (negb (asg_status_eqb (a_status a) pending)); [exists v; auto |].
  cbn [fst snd store outbox].
  set (w1 := {| store := db.update_assignment_status s u confirmed (Some tg)
                           (now env) (store w);
                outbox := outbox w |}).
  assert (Hv1 : status_of sub w1 = Some v) by exact Hv.
  destruct (filter _ (filter _ _)) as [| p ps]; [| exists v; auto].
  destruct (filter _ _) as [| x xs]; [exists v; auto |].
  destruct (db.get_submission_by_id s (store w1)) as [row |] eqn:Hrow.
  - rewrite (transition_to_under_review_some env s w1 row Hrow).
    cbn [fst snd]. status_norm.
    destruct (sub =? s) eqn:E.
    + exists under_review. split; [| right; split; [lia | reflexivity]].
      destruct (find _ _); [reflexivity | discriminate Hv1].
    + exists v. split; [exact Hv1 | left; reflexivity].
  - rewrite (transition_to_under_review_none env s w1 Hrow).
    cbn [fst snd]. status_norm.
    destruct (sub =? s) eqn:E; [| exists v; split; [exact Hv1 | left; reflexivity]].
    assert (sub = s) by lia. subst s. rewrite Hrow in Hv1. discriminate Hv1.
Qed.

Lemma done_status (env : Env) (s : Z) (u : string) (tg : Z) (w : World)
    (sub : Z) (v : SubmissionStatus) :
  status_of sub w = Some v ->
  exists v', status_of sub (snd (state.handle_reviewer_done env s u tg w)) = Some v'
             /\ (v' = v \/ (s = sub /\ v' = accepted
                            /\ (v = under_review \/ v = assigning))).
Proof.
  intro Hv. unfold state.handle_reviewer_done. unfold_m.
  destruct (db.get_submission_by_id s (store w)) as [row |] eqn:Hrow; [| exists v; auto].
  destruct (sub_status_eqb (status row) under_review
            || sub_status_eqb (status row) assigning) eqn:Hguard;
    [| exists v; auto].
  cbn [negb].
  destruct (db.get_assignment s u (store w)) as [a |]; [| exists v; auto].
  destruct (asg_status_eqb (a_status a) done); [exists v; auto |].
  cbn [fst snd store outbox].
  set (w1 := {| store := db.mark_assignment_done s u (Some tg) (now env) (store w);
                outbox := outbox w |}).
  assert (Hv1 : status_of sub w1 = Some v) by exact Hv.
  assert (Hrow1 : db.get_submission_by_id s (store w1) = Some row) by exact Hrow.
  match goal with
  | |- context [if ?c then state._transition_to_accepted _ _ _ else _] => destruct c
  end.
  - destruct (state.compute_publish_date env
                (get_or (publish_timezone (config env)) "Asia/Taipei")
                (get_or (publish_time (config env)) "09:30")) as [d | e] eqn:Hd.
    + match goal with
      | |- context [state._transition_to_accepted env s ?l ?x] =>
          rewrite (transition_to_accepted_some env s l x row d Hrow1 Hd)
      end.
      cbn [fst snd]. subst w1. status_norm.
      destruct (sub =? s) eqn:E; [| exists v; split; [exact Hv | left; reflexivity]].
      assert (sub = s) by lia. subst s. rewrite Hrow in Hv. cbn in Hv.
      inversion Hv; subst v. exists accepted. rewrite Hrow. cbn.
      split; [reflexivity | right].
      split; [reflexivity | split; [reflexivity |]].
      apply orb_prop in Hguard.
      destruct Hguard as [H | H]; apply sub_status_eqb_eq in H; auto.
    + match goal with
      | |- context [state._transition_to_accepted env s ?l ?x] =>
          rewrite (transition_to_accepted_raises env s l x e Hd)
      end.
      exists v. split; [exact Hv1 | left; reflexivity].
  - match goal with
    | |- context [match ?l with [] => _ | _ :: _ => _ end] => destruct l
    end; exists v; split; try (left; reflexivity); exact Hv1.
Qed.

Lemma confirm_status (env : Env) (s : Z) (caller : Z) (w : World)
    (sub : Z) (v : SubmissionStatus) :
  status_of sub w = Some v ->
  exists v', status_of sub (snd (state.handle_confirm_rejection env s caller w)) = Some v'
             /\ (v' = v \/ (s = sub /\ v' = rejected)).
Proof.
  intro Hv. unfold state.handle_confirm_rejection. unfold_m.
  destruct (match operator_user_id (config env) with
            | Some operator => truthy (Some operator) && negb (caller =? operator)
            | None => false
            end); [exists v; auto |].
  cbn [fst snd store outbox].
  assert (Hafter : exists v', status_of sub {| store := db.set_submission_rejected s (now env) (store w);
                                               outbox := outbox w |} = Some v'
                              /\ (v' = v \/ (s = sub /\ v' = rejected))).
  { status_norm. destruct (sub =? s) eqn:E.
    - destruct (find _ _); [| discriminate Hv].
      exists rejected. split; [reflexivity | right; split; [lia | reflexivity]].
    - exists v. split; [exact Hv | left; reflexivity]. }
  destruct (db.get_submission_by_id s (store w)); exact Hafter.
Qed.

(** One admissible event makes one of the allowed moves. *)
Lemma step_allowed_move (env : Env) (ev : Event) (w : World) (sub : Z)
    (v : SubmissionStatus) :
  admissible w ev = true ->
  status_of sub w = Some v ->
  exists v', status_of sub (step env ev w) = Some v' /\ allowed_move ev sub v v'.
Proof.
  intros Hadm Hv. unfold allowed_move.
  destruct ev as [e o | s u tg | s u tg o | s u tg | s u why | s u | s caller | s l |];
    cbn [step].
  - exists v. split; [| left; reflexivity].
    unfold status_of in *.
    destruct (db.get_submission_by_id sub (store w)) as [row |] eqn:Hrow;
      [| discriminate Hv].
    rewrite (new_submission_keeps_rows env e o w sub row Hrow). exact Hv.
  - destruct (accept_status env s u tg w sub v Hv) as (v' & Hv' & [-> | [-> ->]]).
    + exists v. split; [exact Hv' | left; reflexivity].
    + exists under_review. split; [exact Hv' | right].
      cbn [admissible] in Hadm. rewrite Hv in Hadm.
      apply negb_true_iff in Hadm. auto.
  - exists v. split; [| left; reflexivity].
    rewrite (status_of_same sub w _ (decline_submissions env s u tg o w)). exact Hv.
  - destruct (done_status env s u tg w sub v Hv) as (v' & Hv' & Hmove).
    exists v'. split; [exact Hv' |]. destruct Hmove; [left | right]; assumption.
  - exists v. split; [| left; reflexivity].
    rewrite (status_of_same sub w _ (propose_submissions env s u why w)). exact Hv.
  - exists v. split; [| left; reflexivity].
    rewrite (status_of_same sub w _ (second_submissions env s u w)). exact Hv.
  - destruct (confirm_status env s caller w sub v Hv) as (v' & Hv' & Hmove).
    exists v'. split; [exact Hv' |]. destruct Hmove; [left | right]; assumption.
  - discriminate Hadm.
  - exists v. split; [| left; reflexivity].
    rewrite (status_of_same sub w _ (check_followups_submissions env w)). exact Hv.
Qed.

Lemma allowed_move_forward (ev : Event) (sub : Z) (v v' : SubmissionStatus) :
  allowed_move ev sub v v' -> rank v <= rank v'.
Proof.
  unfold allowed_move. intros [-> | H]; [lia |].
  destruct ev; try contradiction.
  - destruct H as (_ & -> & Ht). destruct v; simpl in *; try lia; discriminate Ht.
  - destruct H as (_ & -> & [-> | ->]); simpl; lia.
  - destruct H as (_ & ->). destruct v; simpl; lia.
Qed.

(** C1, as the code has it.  Each event other than the operator's override,
    Accept being applied only to a submission that is not yet accepted or
    rejected, leaves a submission's status as it is or makes one of three
    moves: Accept to [under_review], MarkDone from [under_review] or
    [assigning] to [accepted], Confirm from any status to [rejected].  So
    along a run of such events the status only moves forward in the order
    pending_assignment, assigning, under_review, accepted, rejected. *)
Theorem status_moves_forward :
  (forall env ev w sub v,
     admissible w ev = true ->
     status_of sub w = Some v ->
     exists v', status_of sub (step env ev w) = Some v' /\ allowed_move ev sub v v')
  /\
  (forall trace w sub v,
     admissible_run trace w = true ->
     status_of sub w = Some v ->
     exists v', status_of sub (run trace w) = Some v' /\ rank v <= rank v').
Proof.
  split; [exact step_allowed_move |].
  induction trace as [| [env ev] rest IH]; intros w sub v Hadm Hv.
  - exists v. split; [exact Hv | lia].
  - cbn [admissible_run] in Hadm. apply andb_prop in Hadm. destruct Hadm as [H1 H2].
    destruct (step_allowed_move env ev w sub v H1 Hv) as (v1 & Hv1 & Hmove).
    apply allowed_move_forward in Hmove.
    destruct (IH (step env ev w) sub v1 H2 Hv1) as (v' & Hv' & Hle).
    exists v'. split; [exact Hv' | lia].
Qed.

(** A whole review, from the two requests to the second "done", never
    takes the submission back. *)
Lemma status_moves_forward_witness :
  exists v', status_of 1 (run (tl full_review) asked_two) = Some v'
             /\ rank assigning <= rank v'.
Proof.
  apply (proj2 status_moves_forward (tl full_review) asked_two 1 assigning).
  - vm_compute. reflexivity.
  - vm_compute. reflexivity.
Defined.

(** C1 as stated fails: a submission leaves [accepted] when Confirm rejects
    it, and leaves [accepted] or [rejected] for [under_review] when a
    reviewer who was still asked accepts. *)
Lemma terminal_status_left :
  status_of 1 (run accepted_early empty_world) = Some accepted
  /\ status_of 1 (run (accepted_early ++ [(env_at 40, Confirm 1 7)]) empty_world)
     = Some rejected
  /\ status_of 1 (run (accepted_early ++ [(env_at 40, Accept 1 "bob" 12)]) empty_world)
     = Some under_review
  /\ status_of 1 (run rejected_early empty_world) = Some rejected
  /\ status_of 1 (run (rejected_early ++ [(env_at 30, Accept 1 "alice" 11);
                                          (env_at 40, Accept 1 "bob" 12)]) empty_world)
     = Some under_review.
Proof. vm_compute. repeat split; reflexivity. Qed.

(** ** Decline, replacement, and what becomes of the declined row *)

Lemma usernames_after_update (sub s2 : Z) (u2 : string) (f : Assignment -> Assignment)
    (l : list Assignment) :
  (forall a, reviewer_tg_username (f a) = reviewer_tg_username a) ->
  (forall a, a_submission_id (f a) = a_submission_id a) ->
  map reviewer_tg_username
    (filter (fun a => a_submission_id a =? sub) (db.update_where (db.is_pair s2 u2) f l))
  = map reviewer_tg_username (filter (fun a => a_submission_id a =? sub) l).
Proof.
  intros Hu Hs. rewrite filter_update_where by (intro r; rewrite Hs; reflexivity).
  apply map_update_where. exact Hu.
Qed.

(** A successful replacement: the rows of the pairing become [declined] and
    one [pending] row for the replacement is appended. *)
Lemma decline_replaces (env : Env) (sub : Z) (u : string) (tg : Z) (d : llm.Picked)
    (w : World) (s : Submission) (a : Assignment) (r1 : string) :
  db.get_submission_by_id sub (store w) = Some s ->
  db.get_assignment sub u (store w) = Some a ->
  a_status a = pending ->
  llm.reviewer1 d = Some (llm.text r1) ->
  usable_replacement sub (pystr.strip r1) (store w) = true ->
  let st1 := db.update_assignment_status sub u declined (Some tg) (now env) (store w) in
  state.handle_reviewer_decline env sub u tg (Returned d) w
  = (Returned state.noted_looking_for_replacement,
     {| store := snd (db.insert_assignment sub (pystr.strip r1) (now env) st1);
        outbox := outbox w
                  ++ [send_message (group_chat_id (config env))
                        (replacement_text u (title (email s)) (pystr.strip r1))
                        (state.availability_keyboard sub [pystr.strip r1])] |}).
Proof.
  intros Hs Ha Hp Hr Hok st1.
  unfold state.handle_reviewer_decline. unfold_m. rewrite Ha, Hp.
  cbn [asg_status_eqb negb fst snd store outbox]. fold st1.
  assert (Hs1 : db.get_submission_by_id sub st1 = Some s) by exact Hs.
  rewrite Hs1, Hr.
  assert (Hex : map reviewer_tg_username (db.get_assignments_for_submission sub st1)
                = map reviewer_tg_username (db.get_assignments_for_submission sub (store w))).
  { unfold st1, db.get_assignments_for_submission, db.update_assignment_status.
    cbn [assignments db.with_assignments].
    apply usernames_after_update; reflexivity. }
  rewrite Hex. unfold usable_replacement in Hok. apply negb_true_iff in Hok.
  rewrite Hok. unfold db.insert_assignment. cbn [fst snd store outbox].
  rewrite Hs1. reflexivity.
Qed.

Lemma mem_lower_in (x : string) (l : list string) :
  In x l -> pystr.mem (pystr.lower x) (map pystr.lower l) = true.
Proof.
  induction l as [| y l IH]; simpl; [intros [] |].
  intros [-> | H]; [rewrite String.eqb_refl; reflexivity |].
  rewrite (IH H). apply orb_true_r.
Qed.

(** A usable replacement is nobody the submission already has. *)
Lemma usable_is_new (sub : Z) (x : string) (st : Store) :
  usable_replacement sub x st = true ->
  filter (db.is_pair sub x) (assignments st) = [].
Proof.
  intro H. unfold usable_replacement in H. apply negb_true_iff in H.
  apply orb_false_elim in H. destruct H as [_ H].
  apply filter_nil. intros b Hb.
  destruct (db.is_pair sub x b) eqn:Hp; [| reflexivity].
  apply is_pair_true in Hp. destruct Hp as [Hs Hu].
  assert (Hin : In x (map reviewer_tg_username (db.get_assignments_for_submission sub st))).
  { rewrite <- Hu. apply in_map. unfold db.get_assignments_for_submission.
    apply filter_In. split; [exact Hb | lia]. }
  apply mem_lower_in in Hin. congruence.
Qed.

(** *** What each handler does to the assignments *)

Lemma accept_assignments_cases (env : Env) (s2 : Z) (u2 : string) (tg : Z) (w : World) :
  assignments (store (snd (state.handle_reviewer_accept env s2 u2 tg w)))
  = assignments (store w)
  \/ (exists a, db.get_assignment s2 u2 (store w) = Some a /\ a_status a = pending /\
                assignments (store (snd (state.handle_reviewer_accept env s2 u2 tg w)))
                = assignments (db.update_assignment_status s2 u2 confirmed (Some tg)
                                 (now env) (store w))).
Proof.
  destruct (db.get_assignment s2 u2 (store w)) as [a |] eqn:Ha.
  - destruct (asg_status_eqb (a_status a) pending) eqn:Hp.
    + apply asg_status_eqb_eq in Hp. right. exists a.
      split; [reflexivity | split; [exact Hp |]].
      exact (accept_assignments env s2 u2 tg w a Ha Hp).
    + left. unfold state.handle_reviewer_accept. unfold_m. rewrite Ha, Hp. reflexivity.
  - left. unfold state.handle_reviewer_accept. unfold_m. rewrite Ha. reflexivity.
Qed.

Lemma decline_assignments_cases (env : Env) (s2 : Z) (u2 : string) (tg : Z)
    (o : Result llm.Picked) (w : World) :
  let st1 := db.update_assignment_status s2 u2 declined (Some tg) (now env) (store w) in
  assignments (store (snd (state.handle_reviewer_decline env s2 u2 tg o w)))
  = assignments (store w)
  \/ (exists a, db.get_assignment s2 u2 (store w) = Some a /\ a_status a = pending /\
       (assignments (store (snd (state.handle_reviewer_decline env s2 u2 tg o w)))
        = assignments st1
        \/ exists r1,
             usable_replacement s2 (pystr.strip r1) (store w) = true /\
             assignments (store (snd (state.handle_reviewer_decline env s2 u2 tg o w)))
             = assignments st1 ++ [pending_row s2 (pystr.strip r1) (now env) st1])).
Proof.
  intro st1.
  destruct (db.get_assignment s2 u2 (store w)) as [a |] eqn:Ha.
  2: { left. unfold state.handle_reviewer_decline. unfold_m. rewrite Ha. reflexivity. }
  destruct (asg_status_eqb (a_status a) pending) eqn:Hp.
  2: { left. unfold state.handle_reviewer_decline. unfold_m. rewrite Ha, Hp. reflexivity. }
  apply asg_status_eqb_eq in Hp. right. exists a.
  split; [reflexivity | split; [exact Hp |]].
  destruct (db.get_submission_by_id s2 (store w)) as [s |] eqn:Hs.
  2: { left. unfold state.handle_reviewer_decline. unfold_m. rewrite Ha, Hp.
       cbn [asg_status_eqb negb fst snd store outbox].
       assert (Hs1 : db.get_submission_by_id s2 st1 = None) by exact Hs.
       fold st1. rewrite Hs1. reflexivity. }
  destruct o as [d | e].
  2: { left. unfold state.handle_reviewer_decline. unfold_m. rewrite Ha, Hp.
       cbn [asg_status_eqb negb fst snd store outbox].
       assert (Hs1 : db.get_submission_by_id s2 st1 = Some s) by exact Hs.
       fold st1. rewrite Hs1. reflexivity. }
  destruct (llm.reviewer1 d) as [[r1 | truth] |] eqn:Hr.
  2, 3: left; unfold state.handle_reviewer_decline; unfold_m; rewrite Ha, Hp;
    cbn [asg_status_eqb negb fst snd store outbox];
    assert (Hs1 : db.get_submission_by_id s2 st1 = Some s) by exact Hs;
    fold st1; rewrite Hs1, Hr; reflexivity.
  destruct (usable_replacement s2 (pystr.strip r1) (store w)) eqn:Hok.
  - right. exists r1. split; [exact Hok |].
    rewrite (decline_replaces env s2 u2 tg d w s a r1 Hs Ha Hp Hr Hok).
    cbn [snd store]. fold st1. unfold db.insert_assignment.
    assert (Hs1 : db.get_submission_by_id s2 st1 = Some s) by exact Hs.
    rewrite Hs1. reflexivity.
  - left. unfold state.handle_reviewer_decline. unfold_m. rewrite Ha, Hp.
    cbn [asg_status_eqb negb fst snd store outbox].
    assert (Hs1 : db.get_submission_by_id s2 st1 = Some s) by exact Hs.
    fold st1. rewrite Hs1, Hr.
    assert (Hex : map reviewer_tg_username (db.get_assignments_for_submission s2 st1)
                  = map reviewer_tg_username (db.get_assignments_for_submission s2 (store w))).
    { unfold st1, db.get_assignments_for_submission, db.update_assignment_status.
      cbn [assignments db.with_assignments].
      apply usernames_after_update; reflexivity. }
    rewrite Hex. unfold usable_replacement in Hok. apply negb_false_iff in Hok.
    rewrite Hok. reflexivity.
Qed.

Lemma done_assignments_cases (env : Env) (s2 : Z) (u2 : string) (tg : Z) (w : World) :
  assignments (store (snd (state.handle_reviewer_done env s2 u2 tg w)))
  = assignments (store w)
  \/ assignments (store (snd (state.handle_reviewer_done env s2 u2 tg w)))
     = assignments (db.mark_assignment_done s2 u2 (Some tg) (now env) (store w)).
Proof.
  destruct (db.get_submission_by_id s2 (store w)) as [s |] eqn:Hs.
  2: { left. unfold state.handle_reviewer_done. unfold_m. rewrite Hs. reflexivity. }
  destruct (sub_status_eqb (status s) under_review
            || sub_status_eqb (status s) assigning) eqn:Hguard.
  2: { left. unfold state.handle_reviewer_done. unfold_m. rewrite Hs, Hguard. reflexivity. }
  destruct (db.get_assignment s2 u2 (store w)) as [a |] eqn:Ha.
  2: { left. unfold state.handle_reviewer_done. unfold_m. rewrite Hs, Hguard.
       cbn [negb]. rewrite Ha. reflexivity. }
  destruct (asg_status_eqb (a_status a) done) eqn:Hd.
  { left. unfold state.handle_reviewer_done. unfold_m. rewrite Hs, Hguard.
    cbn [negb]. rewrite Ha, Hd. reflexivity. }
  right. apply asg_status_eqb_neq in Hd.
  apply orb_prop in Hguard.
  assert (Hst : status s = under_review \/ status s = assigning)
    by (destruct Hguard as [H | H]; apply sub_status_eqb_eq in H; auto).
  exact (proj1 (done_marks env s2 u2 tg w s a Hs Hst Ha Hd)).
Qed.

Lemma propose_assignments (env : Env) (sub : Z) (by_ why : string) (w : World) :
  assignments (store (snd (state.handle_rejection_proposal env sub by_ why w)))
  = assignments (store w).
Proof.
  unfold state.handle_rejection_proposal. unfold_m. unfold db.insert_rejection.
  destruct (db.get_submission_by_id sub (store w)) as [s |]; [| reflexivity].
  cbn [fst snd store outbox].
  destruct (state.title_keyword s); reflexivity.
Qed.

Lemma second_assignments (env : Env) (sub : Z) (u : string) (w : World) :
  assignments (store (snd (state.handle_second env sub u w))) = assignments (store w).
Proof.
  unfold state.handle_second. unfold_m.
  destruct (db.get_active_rejection sub (store w)) as [r |]; [| reflexivity].
  destruct (String.eqb u (proposed_by r)); [reflexivity |].
  unfold db.add_second_to_rejection. cbn [fst snd store outbox].
  destruct (db.get_submission_by_id sub _); [| reflexivity].
  destruct (2 <=? _)%nat; reflexivity.
Qed.

Lemma confirm_assignments (env : Env) (sub : Z) (caller : Z) (w : World) :
  assignments (store (snd (state.handle_confirm_rejection env sub caller w)))
  = assignments (store w).
Proof.
  unfold state.handle_confirm_rejection. unfold_m.
  destruct (match operator_user_id (config env) with
            | Some operator => truthy (Some operator) && negb (caller =? operator)
            | None => false
            end); [reflexivity |].
  cbn [fst snd store outbox].
  destruct (db.get_submission_by_id sub (store w)); reflexivity.
Qed.

Lemma send_followup_assignments (env : Env) (f : Followup) (w : World) :
  assignments (store (snd (state.send_followup env f w))) = assignments (store w).
Proof.
  unfold state.send_followup. unfold_m.
  destruct (db.get_submission_by_id (f_submission_id f) (store w)) as [s |] eqn:Hs;
    [| reflexivity].
  destruct (negb (sub_status_eqb (status s) under_review)); [reflexivity |].
  destruct (filter state.is_active_review _); [reflexivity |].
  to_tables. rewrite Hs. reflexivity.
Qed.

Lemma check_followups_assignments (env : Env) (w : World) :
  assignments (store (snd (scheduler._check_followups env w))) = assignments (store w).
Proof.
  unfold scheduler._check_followups. unfold bind, query. cbn [fst snd].
  apply (for_each_keeps (fun w' => assignments (store w') = assignments (store w)));
    [| reflexivity].
  intros f w' Hw'. unfold try_except.
  pose proof (send_followup_assignments env f w') as H.
  destruct (state.send_followup env f w') as [[u | e] w'']; simpl in *; congruence.
Qed.

Lemma insert_assignments_other (s2 sub : Z) (u : string) (now : Z)
    (l : list string) (st : Store) :
  s2 <> sub ->
  filter (db.is_pair sub u)
    (assignments (fold_left (fun st r => snd (db.insert_assignment s2 r now st)) l st))
  = filter (db.is_pair sub u) (assignments st).
Proof.
  intro Hne. revert st. induction l as [| r l IH]; intro st; simpl; [reflexivity |].
  rewrite IH. unfold db.insert_assignment.
  destruct (db.get_submission_by_id s2 st); [| reflexivity].
  cbn [snd assignments]. rewrite filter_app. cbn [filter].
  assert (Hp : db.is_pair sub u
                 {| a_id := db.next_rowid (seq_assignments (sqlite_sequence st)) a_id
                              (assignments st);
                    a_submission_id := s2; reviewer_tg_username := r;
                    reviewer_tg_id := None; a_status := pending; assigned_at := now;
                    responded_at := None; done_at := None |} = false).
  { unfold db.is_pair. cbn [a_submission_id].
    destruct (Z.eqb_spec s2 sub); [contradiction | reflexivity]. }
  rewrite Hp. apply app_nil_r.
Qed.

Lemma filter_filter_weaker {A : Type} (p q : A -> bool) (l : list A) :
  (forall x, p x = true -> q x = true) -> filter p (filter q l) = filter p l.
Proof.
  intro H. induction l as [| x l IH]; simpl; [reflexivity |].
  destruct (q x) eqn:Hq; simpl.
  - rewrite IH. reflexivity.
  - destruct (p x) eqn:Hp; [| exact IH].
    rewrite (H x Hp) in Hq. discriminate Hq.
Qed.

Lemma new_submission_pair_rows (env : Env) (e : EmailData) (o : Result llm.Picked) (w : World)
    (sub : Z) (u : string) (s : Submission) :
  db.get_submission_by_id sub (store w) = Some s ->
  pair_rows sub u (snd (state.handle_new_submission env e o w)) = pair_rows sub u w.
Proof.
  intro Hs. unfold pair_rows, state.handle_new_submission.
  unfold bind, ret, raise, query, exec, emit. cbn [fst snd].
  destruct (db.get_submission_by_gmail_id (gmail_message_id e) (store w)) eqn:Hg;
    [reflexivity |].
  unfold call at 1. unfold db.insert_submission. rewrite Hg.
  set (i := db.next_rowid _ _ _).
  set (row := {| sub_id := i; email := e; status := pending_assignment;
                 created_at := now env; accepted_at := None; rejected_at := None;
                 publish_date := None; tg_status_message_id := None |}).
  cbn [store outbox].
  assert (Hi : (sub =? i) = false) by (exact (existing_below_next _ _ _ _ Hs)).
  destruct o as [d | ex]; [| reflexivity].
  destruct (llm.reviewer1 d) as [r1 |]; [| reflexivity].
  unfold lift. destruct (state.stripped_names _) as [reviewers | ex']; [| reflexivity].
  match goal with
  | |- context [for_each ?l ?f ?x] =>
      rewrite (for_each_insert_assignment i (now env) l x row)
  end.
  - cbn [fst snd store outbox].
    unfold db.set_tg_status_message_id, db.update_submission_status, db.with_submissions.
    cbn [assignments].
    rewrite insert_assignments_other by lia. reflexivity.
  - to_tables. rewrite find_app. subst i. rewrite find_next_rowid.
    cbn. rewrite Z.eqb_refl. reflexivity.
Qed.

(** The override of an existing submission: the undecided rows go, the new
    reviewers are asked, the status is [assigning]. *)
Lemma override_store (env : Env) (s2 : Z) (l : list string) (w : World) (row : Submission) :
  sqlite.fits_integer s2 = true ->
  db.get_submission_by_id s2 (store w) = Some row ->
  store (snd (state.handle_override env s2 l w))
  = db.update_submission_status s2 assigning
      (fold_left (fun st r => snd (db.insert_assignment s2 r (now env) st)) l
         (db.clear_pending_assignments s2 (store w))).
Proof.
  intros Hfit Hs. unfold state.handle_override. rewrite Hfit. cbn [negb].
  unfold bind, ret, raise, query, exec, emit. rewrite Hs. cbn [fst snd store outbox].
  match goal with
  | |- context [for_each ?l ?f ?x] =>
      rewrite (for_each_insert_assignment s2 (now env) l x row)
  end; [reflexivity | exact Hs].
Qed.

Lemma override_none (env : Env) (s2 : Z) (l : list string) (w : World) :
  db.get_submission_by_id s2 (store w) = None ->
  snd (state.handle_override env s2 l w) = w.
Proof.
  intro Hs. unfold state.handle_override.
  destruct (sqlite.fits_integer s2); [| reflexivity].
  cbn [negb]. unfold_m. rewrite Hs. reflexivity.
Qed.

(** The override of a number that SQLite cannot hold changes nothing. *)
Lemma override_too_big (env : Env) (s2 : Z) (l : list string) (w : World) :
  sqlite.fits_integer s2 = false ->
  state.handle_override env s2 l w = (Raised OverflowError, w).
Proof. intro Hfit. unfold state.handle_override. rewrite Hfit. reflexivity. Qed.

Lemma override_pair_rows (env : Env) (s2 : Z) (l : list string) (w : World)
    (sub : Z) (u : string) :
  s2 <> sub ->
  pair_rows sub u (snd (state.handle_override env s2 l w)) = pair_rows sub u w.
Proof.
  intro Hne. unfold pair_rows.
  destruct (sqlite.fits_integer s2) eqn:Hfit;
    [| rewrite (override_too_big env s2 l w Hfit); reflexivity].
  destruct (db.get_submission_by_id s2 (store w)) as [row |] eqn:Hs.
  - rewrite (override_store env s2 l w row Hfit Hs).
    unfold db.update_submission_status, db.with_submissions. cbn [assignments].
    rewrite insert_assignments_other by exact Hne.
    unfold db.clear_pending_assignments, db.with_assignments. cbn [assignments].
    apply filter_filter_weaker. intros x Hx. apply is_pair_true in Hx.
    destruct Hx as [Hx _]. destruct (Z.eqb_spec (a_submission_id x) s2); [lia | reflexivity].
  - rewrite (override_none env s2 l w Hs). reflexivity.
Qed.

Lemma override_status (env : Env) (s2 : Z) (l : list string) (w : World)
    (sub : Z) (v : SubmissionStatus) :
  status_of sub w = Some v ->
  exists v', status_of sub (snd (state.handle_override env s2 l w)) = Some v'
             /\ (v' = v \/ (s2 = sub /\ v' = assigning)).
Proof.
  intro Hv.
  destruct (sqlite.fits_integer s2) eqn:Hfit.
  2: { rewrite (override_too_big env s2 l w Hfit). exists v.
       split; [exact Hv | left; reflexivity]. }
  destruct (db.get_submission_by_id s2 (store w)) as [row |] eqn:Hs.
  - unfold status_of. rewrite (override_store env s2 l w row Hfit Hs).
    unfold db.update_submission_status, db.with_submissions, db.get_submission_by_id.
    cbn [submissions]. rewrite status_after_update by reflexivity.
    rewrite insert_assignments_submissions.
    unfold db.clear_pending_assignments, db.with_assignments. cbn [submissions].
    unfold status_of, db.get_submission_by_id in Hv.
    destruct (sub =? s2) eqn:E.
    + destruct (find _ _); [| discriminate Hv]. exists assigning.
      split; [reflexivity | right; split; [lia | reflexivity]].
    + exists v. split; [exact Hv | left; reflexivity].
  - rewrite (override_none env s2 l w Hs). exists v. split; [exact Hv | left; reflexivity].
Qed.

(** No event removes a submission. *)
Lemma step_keeps_submission (env : Env) (ev : Event) (w : World) (sub : Z)
    (s : Submission) :
  db.get_submission_by_id sub (store w) = Some s ->
  exists s', db.get_submission_by_id sub (store (step env ev w)) = Some s'.
Proof.
  intro Hs.
  assert (Hv : status_of sub w = Some (status s)) by (unfold status_of; rewrite Hs; reflexivity).
  assert (Hex : exists v', status_of sub (step env ev w) = Some v').
  { destruct ev as [e o | s2 u tg | s2 u tg o | s2 u tg | s2 u why | s2 u | s2 caller | s2 l |];
      cbn [step].
    - exists (status s). unfold status_of.
      rewrite (new_submission_keeps_rows env e o w sub s Hs). reflexivity.
    - destruct (accept_status env s2 u tg w sub _ Hv) as (v' & Hv' & _). eauto.
    - exists (status s).
      rewrite (status_of_same sub w _ (decline_submissions env s2 u tg o w)). exact Hv.
    - destruct (done_status env s2 u tg w sub _ Hv) as (v' & Hv' & _). eauto.
    - exists (status s).
      rewrite (status_of_same sub w _ (propose_submissions env s2 u why w)). exact Hv.
    - exists (status s).
      rewrite (status_of_same sub w _ (second_submissions env s2 u w)). exact Hv.
    - destruct (confirm_status env s2 caller w sub _ Hv) as (v' & Hv' & _). eauto.
    - destruct (override_status env s2 l w sub _ Hv) as (v' & Hv' & _). eauto.
    - exists (status s).
      rewrite (status_of_same sub w _ (check_followups_submissions env w)). exact Hv. }
  destruct Hex as (v' & Hv'). unfold status_of in Hv'.
  destruct (db.get_submission_by_id sub (store (step env ev w))) as [s' |];
    [exists s'; reflexivity | discriminate Hv'].
Qed.

(** An update of one pairing leaves the rows of another as they are. *)
Lemma pair_rows_update_other (sub s2 : Z) (u u2 : string)
    (f : Assignment -> Assignment) (l : list Assignment) :
  (s2 =? sub) && String.eqb u2 u = false ->
  (forall a, a_submission_id (f a) = a_submission_id a) ->
  (forall a, reviewer_tg_username (f a) = reviewer_tg_username a) ->
  filter (db.is_pair sub u) (db.update_where (db.is_pair s2 u2) f l)
  = filter (db.is_pair sub u) l.
Proof.
  intros Hne Hs Hu.
  rewrite filter_update_where
    by (intro r; unfold db.is_pair; rewrite Hs, Hu; reflexivity).
  apply update_where_filter_other. intros r Hr.
  apply is_pair_true in Hr. destruct Hr as [<- <-].
  unfold db.is_pair.
  destruct (Z.eqb_spec (a_submission_id r) s2) as [E | E]; [| reflexivity].
  destruct (String.eqb_spec (reviewer_tg_username r) u2) as [E' | E']; [| reflexivity].
  subst. rewrite Z.eqb_refl, String.eqb_refl in Hne. discriminate Hne.
Qed.

(** While its rows are all [declined], a pairing's rows are not touched by
    any event other than the override of its submission and the reviewer's
    own "done". *)
Lemma step_keeps_declined (env : Env) (ev : Event) (w : World) (sub : Z) (u : string)
    (s : Submission) :
  db.get_submission_by_id sub (store w) = Some s ->
  pair_rows sub u w <> [] ->
  (forall b, In b (pair_rows sub u w) -> a_status b = declined) ->
  leaves_declined sub u ev = true ->
  pair_rows sub u (step env ev w) = pair_rows sub u w.
Proof.
  intros Hs Hne Hdecl Hquiet.
  assert (Hother : forall s2 u2 a, db.get_assignment s2 u2 (store w) = Some a ->
                                   a_status a <> declined ->
                                   (s2 =? sub) && String.eqb u2 u = false).
  { intros s2 u2 a Ha Hnd.
    destruct ((s2 =? sub) && String.eqb u2 u) eqn:E; [| reflexivity].
    apply andb_prop in E. destruct E as [E1 E2].
    apply Z.eqb_eq in E1. apply String.eqb_eq in E2. subst s2 u2.
    exfalso. apply Hnd. apply Hdecl. unfold pair_rows.
    unfold db.get_assignment in Ha. exact (latest_by_id_in _ _ Ha). }
  destruct ev as [e o | s2 u2 tg | s2 u2 tg o | s2 u2 tg | s2 u2 why | s2 u2 | s2 caller | s2 l |];
    cbn [step]; unfold pair_rows.
  - exact (new_submission_pair_rows env e o w sub u s Hs).
  - destruct (accept_assignments_cases env s2 u2 tg w) as [-> | (a & Ha & Hp & ->)];
      [reflexivity |].
    unfold db.update_assignment_status, db.with_assignments. cbn [assignments].
    apply pair_rows_update_other; try reflexivity.
    apply (Hother s2 u2 a Ha). rewrite Hp. discriminate.
  - destruct (decline_assignments_cases env s2 u2 tg o w)
      as [-> | (a & Ha & Hp & [-> | (r1 & Hok & ->)])]; [reflexivity | |].
    + unfold db.update_assignment_status, db.with_assignments. cbn [assignments].
      apply pair_rows_update_other; try reflexivity.
      apply (Hother s2 u2 a Ha). rewrite Hp. discriminate.
    + rewrite filter_app.
      unfold db.update_assignment_status, db.with_assignments. cbn [assignments].
      rewrite pair_rows_update_other; try reflexivity.
      2: { apply (Hother s2 u2 a Ha). rewrite Hp. discriminate. }
      cbn [filter]. unfold db.is_pair at 2, pending_row.
      cbn [a_submission_id reviewer_tg_username].
      destruct ((s2 =? sub) && String.eqb (pystr.strip r1) u) eqn:E;
        [| apply app_nil_r].
      apply andb_prop in E. destruct E as [E1 E2].
      apply Z.eqb_eq in E1. apply String.eqb_eq in E2. subst s2 u.
      apply usable_is_new in Hok. exfalso. apply Hne. exact Hok.
  - cbn [leaves_declined] in Hquiet. apply negb_true_iff in Hquiet.
    destruct (done_assignments_cases env s2 u2 tg w) as [-> | ->]; [reflexivity |].
    unfold db.mark_assignment_done, db.with_assignments. cbn [assignments].
    apply pair_rows_update_other; try reflexivity. exact Hquiet.
  - rewrite propose_assignments. reflexivity.
  - rewrite second_assignments. reflexivity.
  - rewrite confirm_assignments. reflexivity.
  - cbn [leaves_declined] in Hquiet. apply negb_true_iff in Hquiet.
    apply override_pair_rows. lia.
  - rewrite check_followups_assignments. reflexivity.
Qed.

Lemma run_keeps_declined (trace : list (Env * Event)) (w : World) (sub : Z) (u : string)
    (s : Submission) :
  db.get_submission_by_id sub (store w) = Some s ->
  pair_rows sub u w <> [] ->
  (forall b, In b (pair_rows sub u w) -> a_status b = declined) ->
  quiet_run sub u trace = true ->
  pair_rows sub u (run trace w) = pair_rows sub u w.
Proof.
  revert w s. induction trace as [| [env ev] rest IH]; intros w s Hs Hne Hdecl Hq;
    [reflexivity |].
  cbn [quiet_run forallb snd] in Hq. apply andb_prop in Hq. destruct Hq as [Hq1 Hq2].
  cbn [run].
  pose proof (step_keeps_declined env ev w sub u s Hs Hne Hdecl Hq1) as Hstep.
  destruct (step_keeps_submission env ev w sub s Hs) as (s' & Hs').
  rewrite (IH (step env ev w) s' Hs'); [exact Hstep | | | exact Hq2].
  - rewrite Hstep. exact Hne.
  - rewrite Hstep. exact Hdecl.
Qed.

(** C6, as the code has it.  After a Decline whose replacement search
    succeeds, the assignments are the old rows, those of the declining
    pairing now [declined], followed by one new [pending] row, the only row
    of the replacement.  The declined rows then stay exactly as they are
    under every run of events that contains neither an override of the
    submission nor a "done" by the declined reviewer. *)
Theorem decline_replacement (env : Env) (sub : Z) (u : string) (tg : Z)
    (d : llm.Picked) (w : World) (s : Submission) (a : Assignment) (r1 : string) :
  db.get_submission_by_id sub (store w) = Some s ->
  db.get_assignment sub u (store w) = Some a ->
  a_status a = pending ->
  llm.reviewer1 d = Some (llm.text r1) ->
  usable_replacement sub (pystr.strip r1) (store w) = true ->
  let w' := snd (state.handle_reviewer_decline env sub u tg (Returned d) w) in
  let st1 := db.update_assignment_status sub u declined (Some tg) (now env) (store w) in
  assignments (store w')
  = assignments st1 ++ [pending_row sub (pystr.strip r1) (now env) st1]
  /\ pair_rows sub (pystr.strip r1) w' = [pending_row sub (pystr.strip r1) (now env) st1]
  /\ pair_rows sub u w' = map (marked_declined tg (now env)) (pair_rows sub u w)
  /\ db.get_assignment sub u (store w') = Some (marked_declined tg (now env) a)
  /\ (forall trace, quiet_run sub u trace = true ->
                    pair_rows sub u (run trace w') = pair_rows sub u w').
Proof.
  intros Hs Ha Hp Hr Hok w' st1.
  assert (Hs1 : db.get_submission_by_id sub st1 = Some s) by exact Hs.
  assert (Hrows : assignments (store w')
                  = assignments st1 ++ [pending_row sub (pystr.strip r1) (now env) st1]).
  { subst w'. rewrite (decline_replaces env sub u tg d w s a r1 Hs Ha Hp Hr Hok).
    cbn [snd store]. fold st1. unfold db.insert_assignment. rewrite Hs1. reflexivity. }
  assert (Hnew : filter (db.is_pair sub (pystr.strip r1)) (assignments (store w)) = [])
    by exact (usable_is_new _ _ _ Hok).
  pose proof (get_assignment_in _ _ _ _ Ha) as (Hin & Hsa & Hua).
  assert (Hdiff : (sub =? sub) && String.eqb u (pystr.strip r1) = false).
  { destruct (String.eqb_spec u (pystr.strip r1)) as [E | E]; [| apply andb_false_r].
    exfalso. assert (Hf : In a (filter (db.is_pair sub (pystr.strip r1)) (assignments (store w)))).
    { apply filter_In. split; [exact Hin |]. apply is_pair_true. split; congruence. }
    rewrite Hnew in Hf. exact Hf. }
  assert (Hpair : pair_rows sub u w' = map (marked_declined tg (now env)) (pair_rows sub u w)).
  { unfold pair_rows. rewrite Hrows, filter_app.
    unfold st1, db.update_assignment_status, db.with_assignments. cbn [assignments].
    rewrite filter_update_where by reflexivity. rewrite update_where_filter_same.
    cbn [filter]. unfold db.is_pair at 2, pending_row.
    cbn [a_submission_id reviewer_tg_username].
    rewrite Z.eqb_refl in *. cbn [andb] in *.
    rewrite String.eqb_sym, Hdiff. apply app_nil_r. }
  split; [exact Hrows | split; [| split; [exact Hpair | split]]].
  - unfold pair_rows. rewrite Hrows, filter_app.
    unfold st1, db.update_assignment_status, db.with_assignments. cbn [assignments].
    rewrite pair_rows_update_other by (try reflexivity; exact Hdiff).
    rewrite Hnew. cbn [filter app]. unfold db.is_pair, pending_row.
    cbn [a_submission_id reviewer_tg_username].
    rewrite Z.eqb_refl, String.eqb_refl. reflexivity.
  - unfold db.get_assignment. fold (pair_rows sub u w'). rewrite Hpair.
    unfold pair_rows. rewrite latest_by_id_map by reflexivity.
    unfold db.get_assignment in Ha. rewrite Ha. reflexivity.
  - intros trace Hq.
    assert (Hsub : db.get_submission_by_id sub (store w') = Some s).
    { unfold db.get_submission_by_id. subst w'.
      rewrite decline_submissions. exact Hs. }
    apply (run_keeps_declined trace w' sub u s Hsub); [| | exact Hq].
    + rewrite Hpair. intro E. apply map_eq_nil in E.
      assert (Hf : In a (pair_rows sub u w)).
      { unfold pair_rows. apply filter_In. split; [exact Hin |].
        apply is_pair_true. tauto. }
      rewrite E in Hf. exact Hf.
    + intros b Hb. rewrite Hpair in Hb. apply in_map_iff in Hb.
      destruct Hb as (x & <- & _). reflexivity.
Qed.

(** Alice declines, carol is asked; whatever the others then do, alice's
    row stays as the Decline left it. *)
Lemma decline_replacement_witness :
  pair_rows 1 "alice" (run after_replacement replaced_alice)
  = pair_rows 1 "alice" replaced_alice.
Proof.
  edestruct (decline_replacement (env_at 20) 1 "alice" 11 carol_answer asked_two)
    as (_ & _ & _ & _ & H).
  - vm_compute. reflexivity.
  - vm_compute. reflexivity.
  - reflexivity.
  - reflexivity.
  - vm_compute. reflexivity.
  - apply (H after_replacement). vm_compute. reflexivity.
Defined.

(** C6 as stated fails: the declined row is not permanent.  The operator's
    override deletes it, and the declined reviewer's own "done" turns it
    into a [done] row. *)
Lemma declined_row_not_permanent :
  option_map a_status (db.get_assignment 1 "alice" (store replaced_alice)) = Some declined
  /\ db.get_assignment 1 "alice"
       (store (step (env_at 30) (ApplyOverride 1 ["dave"]) replaced_alice)) = None
  /\ option_map a_status
       (db.get_assignment 1 "alice"
          (store (step (env_at 30) (MarkDone 1 "alice" 11) replaced_alice)))
     = Some done.
Proof. vm_compute. repeat split; reflexivity. Qed.

(** *** The most recent row of a pairing *)













(** ** Follow-ups *)

(** *** What [send_followup] does *)



(** *** The follow-up invariant, store by store *)


Lemma exists_after_update (x y : Z) (f : Submission -> Submission) (l : list Submission) :
  (forall r, sub_id (f r) = sub_id r) ->
  find (fun s => sub_id s =? x) l <> None ->
  find (fun s => sub_id s =? x) (db.update_where (fun s => sub_id s =? y) f l) <> None.
Proof.
  intros Hid H. rewrite find_submission_update by exact Hid.
  destruct (x =? y); [| exact H].
  destruct (find _ l); [discriminate | contradiction].
Qed.






(** *** The invariant, handler by handler *)


































(** * The chat layer *)

(** ** Numbers in callback data: [str] and [int] *)

Lemma int_digits_acc (d : Decimal.uint) (acc : positive) :
  datetime.int_digits (NilEmpty.string_of_uint d) (Z.pos acc) true
  = Some (Z.pos (Pos.of_uint_acc d acc)).
Proof.
  revert acc. induction d as [| d IH | d IH | d IH | d IH | d IH | d IH | d IH
                              | d IH | d IH | d IH]; intro acc;
    [reflexivity | ..];
    cbn [NilEmpty.string_of_uint datetime.int_digits Pos.of_uint_acc];
    match goal with
    | |- context [datetime.digit_val ?c] =>
        change (datetime.digit_val c) with (Some (Z.of_N (N_of_ascii c) - 48));
        cbn [N_of_ascii N_of_digits Z.of_N]
    end;
    rewrite <- IH; f_equal; lia.
Qed.

Lemma int_digits_uint (d : Decimal.uint) :
  datetime.int_digits (NilEmpty.string_of_uint d) 0 true
  = Some (Z.of_N (Pos.of_uint d)).
Proof.
  induction d as [| d IH | d IH | d IH | d IH | d IH | d IH | d IH
                  | d IH | d IH | d IH];
    [reflexivity | exact IH | ..];
    cbn [NilEmpty.string_of_uint datetime.int_digits Pos.of_uint];
    match goal with
    | |- context [datetime.digit_val ?c] =>
        change (datetime.digit_val c) with (Some (Z.of_N (N_of_ascii c) - 48));
        cbn [N_of_ascii N_of_digits Z.of_N]
    end;
    match goal with
    | |- datetime.int_digits _ ?z true = _ =>
        let v := eval vm_compute in z in change z with v
    end;
    apply int_digits_acc.
Qed.

Lemma int_digits_first (d : Decimal.uint) (acc : Z) :
  d <> Decimal.Nil ->
  datetime.int_digits (NilEmpty.string_of_uint d) acc false
  = datetime.int_digits (NilEmpty.string_of_uint d) acc true.
Proof. destruct d; intro H; [contradiction | reflexivity ..]. Qed.

Lemma to_uint_not_nil (p : positive) : Pos.to_uint p <> Decimal.Nil.
Proof.
  intro E. pose proof (DecimalPos.Unsigned.of_to p) as H.
  rewrite E in H. discriminate H.
Qed.

(** The digits of a positive number read back as the number. *)
Lemma int_digits_pos (p : positive) :
  datetime.int_digits (NilEmpty.string_of_uint (Pos.to_uint p)) 0 false
  = Some (Z.pos p).
Proof.
  rewrite (int_digits_first _ _ (to_uint_not_nil p)), int_digits_uint.
  rewrite DecimalPos.Unsigned.of_to. reflexivity.
Qed.

Lemma digits_not_space (d : Decimal.uint) :
  all_chars (fun c => negb (pystr.isspace c)) (NilEmpty.string_of_uint d) = true.
Proof. induction d; simpl; [reflexivity | exact IHd ..]. Qed.

Lemma digits_no_underscore (d : Decimal.uint) :
  no_underscore (NilEmpty.string_of_uint d) = true.
Proof. unfold no_underscore. induction d; simpl; [reflexivity | exact IHd ..]. Qed.

Lemma lstrip_by_clean (p : ascii -> bool) (s : string) :
  all_chars (fun c => negb (p c)) s = true -> pystr.lstrip_by p s = s.
Proof.
  destruct s as [| c s]; simpl; intro H; [reflexivity |].
  apply andb_prop in H. destruct H as [Hc _].
  apply negb_true_iff in Hc. rewrite Hc. reflexivity.
Qed.

Lemma strip_clean (s : string) :
  all_chars (fun c => negb (pystr.isspace c)) s = true -> pystr.strip s = s.
Proof.
  intro H. unfold pystr.strip.
  rewrite (rstrip_by_clean _ _ H). apply lstrip_by_clean. exact H.
Qed.

Lemma string_of_uint_not_nil (d : Decimal.uint) :
  d <> Decimal.Nil -> NilZero.string_of_uint d = NilEmpty.string_of_uint d.
Proof. destruct d; intro H; [contradiction | reflexivity ..]. Qed.

(** [int(str(n)) == n]. *)
Lemma int_of_int (n : Z) : datetime.int (pystr.of_int n) = Returned n.
Proof.
  destruct n as [| p | p]; [reflexivity | |];
    unfold pystr.of_int, datetime.int; cbn [Z.to_int NilZero.string_of_int];
    rewrite (string_of_uint_not_nil _ (to_uint_not_nil p)).
  - rewrite (strip_clean _ (digits_not_space _)).
    pose proof (int_digits_pos p) as H. pose proof (to_uint_not_nil p) as Hn.
    destruct (Pos.to_uint p); [contradiction | ..];
      cbn [NilEmpty.string_of_uint] in *; cbv beta iota; rewrite H; reflexivity.
  - rewrite strip_clean by (cbn [all_chars]; rewrite digits_not_space; reflexivity).
    rewrite int_digits_pos. reflexivity.
Qed.

Lemma of_int_no_underscore (n : Z) : no_underscore (pystr.of_int n) = true.
Proof.
  destruct n as [| p | p]; [reflexivity | |];
    unfold pystr.of_int; cbn [Z.to_int NilZero.string_of_int];
    rewrite (string_of_uint_not_nil _ (to_uint_not_nil p)).
  - apply digits_no_underscore.
  - unfold no_underscore. cbn [all_chars].
    exact (digits_no_underscore _).
Qed.

(** ** Cutting callback data at the underscores *)

Lemma prefix_app (p x : string) : String.prefix p (p ++ x)%string = true.
Proof.
  induction p as [| c p IH]; simpl; [apply prefix_nil |].
  destruct (ascii_dec c c) as [_ | N]; [exact IH | contradiction].
Qed.

Lemma prefix_underscore (c : ascii) (s : string) :
  String.prefix "_" (String c s) = Ascii.eqb c "_".
Proof.
  cbn [String.prefix]. destruct (ascii_dec "_" c) as [E | N].
  - subst c. apply prefix_nil.
  - symmetry. apply Ascii.eqb_neq. congruence.
Qed.

(** A stretch without underscore is one piece, up to the underscore behind it. *)
Lemma split_max_go_clean (t rest : string) (m : nat) (cur : string) :
  no_underscore t = true ->
  pystr.split_max_go "_" (t ++ String "_" rest)%string (S m) O cur
  = pystr.rev_append (pystr.rev_append t cur) ""
    :: pystr.split_max_go "_" rest m O "".
Proof.
  revert cur. induction t as [| c t IH]; intros cur H.
  - cbn [append pystr.split_max_go]. rewrite prefix_underscore. reflexivity.
  - unfold no_underscore in H. cbn [all_chars] in H.
    apply andb_prop in H. destruct H as [Hc Ht]. apply negb_true_iff in Hc.
    cbn [append pystr.split_max_go]. rewrite prefix_underscore, Hc.
    apply (IH (String c cur) Ht).
Qed.

Lemma split_max_go_rest (sep s : string) :
  pystr.split_max_go sep s O O "" = [s].
Proof. destruct s; reflexivity. Qed.

Lemma rev_append_twice (t s : string) :
  pystr.rev_append (pystr.rev_append t "") s = (t ++ s)%string.
Proof. apply (rev_append_onto t "" s). Qed.

(** [f"{action}_{sub_id}_{username}".split("_", 2)] gives the three parts
    back, whatever the username. *)
Lemma split_button (action : string) (sub : Z) (r : string) :
  no_underscore action = true ->
  pystr.split_max (action ++ "_" ++ pystr.of_int sub ++ "_" ++ r)%string "_" 2
  = [action; pystr.of_int sub; r].
Proof.
  intro Ha. unfold pystr.split_max.
  change (action ++ "_" ++ pystr.of_int sub ++ "_" ++ r)%string
    with (action ++ String "_" (pystr.of_int sub ++ String "_" r))%string.
  rewrite (split_max_go_clean _ _ _ _ Ha).
  rewrite (split_max_go_clean _ _ _ _ (of_int_no_underscore sub)).
  rewrite split_max_go_rest, !rev_append_twice, !append_empty_r. reflexivity.
Qed.

Lemma split_go_clean_underscore (t rest cur : string) :
  no_underscore t = true ->
  pystr.split_go "_" (t ++ rest)%string O cur
  = pystr.split_go "_" rest O (pystr.rev_append t cur).
Proof.
  revert cur. induction t as [| c t IH]; intros cur H; [reflexivity |].
  unfold no_underscore in H. cbn [all_chars] in H.
  apply andb_prop in H. destruct H as [Hc Ht]. apply negb_true_iff in Hc.
  cbn [append pystr.split_go]. rewrite prefix_underscore, Hc.
  apply (IH (String c cur) Ht).
Qed.

Lemma split_go_underscore (rest cur : string) :
  pystr.split_go "_" (String "_" rest) O cur
  = pystr.rev_append cur "" :: pystr.split_go "_" rest O "".
Proof. cbn [pystr.split_go]. rewrite prefix_underscore. reflexivity. Qed.

(** [f"confirm_rejection_{sub_id}".split("_")]. *)
Lemma split_confirm (sub : Z) :
  pystr.split ("confirm_rejection_" ++ pystr.of_int sub)%string "_"
  = ["confirm"; "rejection"; pystr.of_int sub].
Proof.
  unfold pystr.split.
  rewrite <- (append_empty_r (pystr.of_int sub)) at 1.
  change ("confirm_rejection_" ++ (pystr.of_int sub ++ ""))%string
    with ("confirm" ++ String "_" ("rejection" ++ String "_" (pystr.of_int sub ++ "")))%string.
  rewrite split_go_clean_underscore by reflexivity.
  rewrite split_go_underscore.
  rewrite split_go_clean_underscore by reflexivity.
  rewrite split_go_underscore.
  rewrite (split_go_clean_underscore _ _ _ (of_int_no_underscore sub)).
  cbn [pystr.split_go]. rewrite !rev_append_twice, !append_empty_r. reflexivity.
Qed.

(** ** Buttons find their way back *)

Lemma not_for_owner (user : telegram_handlers.User) (r : string) :
  telegram_handlers.not_for user r = false ->
  goes_by (Some user) r (telegram_handlers.user_id user).
Proof.
  unfold telegram_handlers.not_for, goes_by. intro H.
  destruct (telegram_handlers.username user) as [name |] eqn:E; [| discriminate H].
  apply orb_false_iff in H. destruct H as [Hn Hl].
  apply negb_false_iff, String.eqb_eq in Hl.
  exists user, name. repeat split; try assumption; try reflexivity.
  intro Z. subst name. discriminate Hn.
Qed.

Lemma reviewer_button_made {A : Type} (said : telegram_handlers.Said)
    (handler : Z -> string -> Z -> M A) (action : string) (sub : Z) (r : string)
    (user : telegram_handlers.User) (w : World) :
  no_underscore action = true ->
  telegram_handlers.reviewer_button said handler
    (action ++ "_" ++ pystr.of_int sub ++ "_" ++ r)%string user w
  = if telegram_handlers.not_for user r
    then (Returned tt, w, [telegram_handlers.alert_for_only r])
    else telegram_handlers.after_saying said
           (handler sub r (telegram_handlers.user_id user) w).
Proof.
  intro Ha. unfold telegram_handlers.reviewer_button.
  rewrite (split_button _ _ _ Ha), int_of_int. reflexivity.
Qed.

(** X1 (reviewer buttons round trip).  The callback data that [state.py]
    puts on an accept, decline or done button for submission [sub] and
    reviewer [r] is routed by [main.py] to the matching handler of
    [telegram_handlers.py], which reads back exactly [sub] and [r], also when
    the username has underscores in it: a press by anyone not going by the
    name [r] is answered with an alert and changes nothing, any other press
    runs the [state.py] handler for ([sub], [r]) with the presser's id. *)
Theorem reviewer_button_round_trip (env : Env) (oracle : Result llm.Picked)
    (sub : Z) (r : string) (user : telegram_handlers.User) (w : World) :
  main.callback_query env oracle (state.callback_data (accept_button sub r)) user w
  = Some (if telegram_handlers.not_for user r
          then (Returned tt, w, [telegram_handlers.alert_for_only r])
          else telegram_handlers.after_saying telegram_handlers.answer_confirmed
                 (state.handle_reviewer_accept env sub r
                    (telegram_handlers.user_id user) w))
  /\ main.callback_query env oracle (state.callback_data (decline_button sub r)) user w
     = Some (if telegram_handlers.not_for user r
             then (Returned tt, w, [telegram_handlers.alert_for_only r])
             else telegram_handlers.after_saying telegram_handlers.answer_noted
                    (state.handle_reviewer_decline env sub r
                       (telegram_handlers.user_id user) oracle w))
  /\ main.callback_query env oracle (state.callback_data (done_button sub r)) user w
     = Some (if telegram_handlers.not_for user r
             then (Returned tt, w, [telegram_handlers.alert_for_only r])
             else telegram_handlers.after_saying telegram_handlers.answer_done
                    (state.handle_reviewer_done env sub r
                       (telegram_handlers.user_id user) w)).
Proof.
  unfold main.callback_query, state.callback_data, pystr.startswith.
  repeat split.
  - rewrite (prefix_app "accept_").
    unfold telegram_handlers.cb_accept.
    change ("accept_" ++ pystr.of_int sub ++ "_" ++ r)%string
      with ("accept" ++ "_" ++ pystr.of_int sub ++ "_" ++ r)%string.
    rewrite reviewer_button_made by reflexivity. reflexivity.
  - change (String.prefix "accept_" ("decline_" ++ pystr.of_int sub ++ "_" ++ r))
      with false.
    rewrite (prefix_app "decline_"). cbv iota.
    unfold telegram_handlers.cb_decline.
    change ("decline_" ++ pystr.of_int sub ++ "_" ++ r)%string
      with ("decline" ++ "_" ++ pystr.of_int sub ++ "_" ++ r)%string.
    rewrite reviewer_button_made by reflexivity. reflexivity.
  - change (String.prefix "accept_" ("done_" ++ pystr.of_int sub ++ "_" ++ r))
      with false.
    change (String.prefix "decline_" ("done_" ++ pystr.of_int sub ++ "_" ++ r))
      with false.
    rewrite (prefix_app "done_"). cbv iota.
    unfold telegram_handlers.cb_done.
    change ("done_" ++ pystr.of_int sub ++ "_" ++ r)%string
      with ("done" ++ "_" ++ pystr.of_int sub ++ "_" ++ r)%string.
    rewrite reviewer_button_made by reflexivity. reflexivity.
Qed.

(** X2 (confirm button round trip).  The callback data of the
    "confirm rejection" button for submission [sub] is routed to
    [cb_confirm_rejection], which reads [sub] back from its last part; the
    press of anyone who fails the operator check is answered with an alert
    and changes nothing, any other press runs [handle_confirm_rejection]
    for [sub] with the presser's id. *)
Theorem confirm_button_round_trip (env : Env) (oracle : Result llm.Picked)
    (sub : Z) (user : telegram_handlers.User) (w : World) :
  main.callback_query env oracle
    (state.callback_data (confirm_rejection_button sub)) user w
  = Some (if telegram_handlers.not_the_operator env (Some user)
          then (Returned tt, w, [telegram_handlers.alert_only_operator])
          else telegram_handlers.after_saying
                 telegram_handlers.answer_rejection_confirmed
                 (state.handle_confirm_rejection env sub
                    (telegram_handlers.user_id user) w)).
Proof.
  unfold main.callback_query, state.callback_data, pystr.startswith.
  change (String.prefix "accept_" ("confirm_rejection_" ++ pystr.of_int sub))
    with false.
  change (String.prefix "decline_" ("confirm_rejection_" ++ pystr.of_int sub))
    with false.
  change (String.prefix "done_" ("confirm_rejection_" ++ pystr.of_int sub))
    with false.
  rewrite (prefix_app "confirm_rejection_"). cbv iota.
  unfold telegram_handlers.cb_confirm_rejection.
  rewrite split_confirm. cbn [List.length Nat.ltb Nat.leb last].
  rewrite int_of_int. reflexivity.
Qed.

(** ** Updates as events of the state machine *)

Lemma then_say_world {A : Type} (r : Result A * World)
    (said : A -> list telegram_handlers.Said) :
  snd (fst (telegram_handlers.then_say r said)) = snd r.
Proof. destruct r as [[a | e] w']; reflexivity. Qed.

Lemma after_saying_world {A : Type} (said : telegram_handlers.Said)
    (r : Result A * World) :
  snd (fst (telegram_handlers.after_saying said r)) = snd r.
Proof. destruct r as [[a | e] w']; reflexivity. Qed.

Lemma named_goes_by (user : option telegram_handlers.User)
    (u : telegram_handlers.User) (name : string) :
  telegram_handlers.named user = Some (u, name) ->
  goes_by user name (telegram_handlers.user_id u).
Proof.
  unfold telegram_handlers.named, goes_by. intro H.
  destruct user as [u0 |]; [| discriminate H].
  destruct (telegram_handlers.username u0) as [n |] eqn:E; [| discriminate H].
  destruct (pystr.is_empty n) eqn:En; [discriminate H |].
  injection H as <- <-. exists u0, n. repeat split; try assumption; try reflexivity.
  intro Z. subst n. discriminate En.
Qed.

Lemma named_user (user : option telegram_handlers.User)
    (u : telegram_handlers.User) (name : string) :
  telegram_handlers.named user = Some (u, name) -> user = Some u.
Proof.
  unfold telegram_handlers.named. intro H.
  destruct user as [u0 |]; [| discriminate H].
  destruct (telegram_handlers.username u0) as [n |]; [| discriminate H].
  destruct (pystr.is_empty n); [discriminate H |].
  injection H as <- <-. reflexivity.
Qed.

Lemma reviewer_button_event {A : Type} (env : Env) (said : telegram_handlers.Said)
    (handler : Z -> string -> Z -> M A) (ev : Z -> string -> Z -> Event)
    (data : string) (user : telegram_handlers.User) (w : World) :
  (forall sub r tg, snd (handler sub r tg w) = step env (ev sub r tg) w) ->
  (forall sub r tg, goes_by (Some user) r tg ->
                    in_own_name env (Some user) (ev sub r tg)) ->
  let w' := snd (fst (telegram_handlers.reviewer_button said handler data user w)) in
  w' = w \/ exists e, w' = step env e w /\ in_own_name env (Some user) e.
Proof.
  intros Hstep Hown. unfold telegram_handlers.reviewer_button.
  destruct (pystr.split_max data "_" 2) as [| a [| s [| t [| x l]]]];
    try (left; reflexivity).
  destruct (datetime.int s) as [sub | e]; [| left; reflexivity].
  destruct (telegram_handlers.not_for user t) eqn:Hn; [left; reflexivity |].
  right. exists (ev sub t (telegram_handlers.user_id user)). split.
  - cbv zeta. rewrite after_saying_world. apply Hstep.
  - apply Hown. apply not_for_owner. exact Hn.
Qed.

(** X3 (updates are events in the sender's own name).  Whatever command or
    button press reaches the handlers of [telegram_handlers.py], the world
    either stays as it is or changes as by one event of the state machine;
    that event is a reviewer's answer under the sender's own username (up to
    letter case, with the sender's id), a proposal or second under the
    sender's username, or an override or confirmation that passed the
    operator check.  No update admits a submission or runs the follow-up
    job. *)
Theorem update_is_own_event (env : Env) (u : main.Update) (w : World) :
  main.process_update env u w = w
  \/ exists ev, main.process_update env u w = step env ev w
                /\ in_own_name env (sender u) ev.
Proof.
  destruct u as [c chat_id user args | data user oracle].
  - cbn [main.process_update sender]. destruct c; cbn [main.command].
    + left. reflexivity.
    + left. unfold telegram_handlers.cmd_status.
      destruct (db.get_active_submissions (store w)); reflexivity.
    + unfold telegram_handlers.cmd_done.
      destruct (telegram_handlers.named user) as [[u0 name] |] eqn:Hu;
        [| left; reflexivity].
      destruct args as [| a args]; [left; reflexivity |].
      destruct (telegram_handlers.one_match _ w) as [refusal | sub];
        [left; reflexivity |].
      right. exists (MarkDone (sub_id sub) name (telegram_handlers.user_id u0)).
      split; [apply then_say_world |]. exact (named_goes_by _ _ _ Hu).
    + unfold telegram_handlers.cmd_reject.
      destruct (telegram_handlers.named user) as [[u0 name] |] eqn:Hu;
        [| left; reflexivity].
      destruct args as [| keyword [| a rest]]; try (left; reflexivity).
      destruct (telegram_handlers.one_match _ w) as [refusal | sub];
        [left; reflexivity |].
      right. exists (Propose (sub_id sub) name (pystr.join " " (a :: rest))).
      split; [apply then_say_world |].
      cbn [in_own_name]. rewrite (named_user _ _ _ Hu).
      rewrite <- (named_user _ _ _ Hu). exact (named_goes_by _ _ _ Hu).
    + unfold telegram_handlers.cmd_second.
      destruct (telegram_handlers.named user) as [[u0 name] |] eqn:Hu;
        [| left; reflexivity].
      destruct args as [| a args]; [left; reflexivity |].
      destruct (telegram_handlers.one_match _ w) as [refusal | sub];
        [left; reflexivity |].
      right. exists (Second (sub_id sub) name).
      split; [apply then_say_world |].
      cbn [in_own_name]. rewrite (named_user _ _ _ Hu).
      rewrite <- (named_user _ _ _ Hu). exact (named_goes_by _ _ _ Hu).
    + unfold telegram_handlers.cmd_override.
      destruct (telegram_handlers.not_the_operator env user) eqn:Ho;
        [left; reflexivity |].
      destruct args as [| first [| a rest]]; try (left; reflexivity).
      destruct (datetime.int first) as [sub | e]; [| left; reflexivity].
      right.
      exists (ApplyOverride sub
                (map (pystr.lstrip_by (Ascii.eqb "@")) (a :: rest))).
      split; [apply then_say_world | exact Ho].
  - cbn [main.process_update sender]. unfold main.callback_query.
    destruct (pystr.startswith data "accept_").
    { apply (reviewer_button_event env _ _ Accept); [reflexivity |].
      intros sub r tg H. exact H. }
    destruct (pystr.startswith data "decline_").
    { apply (reviewer_button_event env _ _ (fun s r tg => Decline s r tg oracle));
        [reflexivity |].
      intros sub r tg H. exact H. }
    destruct (pystr.startswith data "done_").
    { apply (reviewer_button_event env _ _ MarkDone); [reflexivity |].
      intros sub r tg H. exact H. }
    destruct (pystr.startswith data "confirm_rejection_"); [| left; reflexivity].
    unfold telegram_handlers.cb_confirm_rejection.
    destruct (List.length (pystr.split data "_") <? 3)%nat; [left; reflexivity |].
    destruct (datetime.int _) as [sub | e]; [| left; reflexivity].
    destruct (telegram_handlers.not_the_operator env (Some user)) eqn:Ho;
      [left; reflexivity |].
    right. exists (Confirm sub (telegram_handlers.user_id user)). split.
    + apply after_saying_world.
    + split; [exact Ho |]. exists user. split; reflexivity.
Qed.

(** ** Looking a submission up by a word of its title *)

Lemma like_percent_eq (p t : string) :
  sqlite.like (String "%" p) t
  = sqlite.like p t
    || match t with
       | EmptyString => false
       | String _ t' => sqlite.like (String "%" p) t'
       end.
Proof. destruct t; reflexivity. Qed.

Lemma like_char_eq (c : ascii) (p t : string) :
  Ascii.eqb c "%" = false ->
  sqlite.like (String c p) t
  = match t with
    | EmptyString => false
    | String d t' =>
        (Ascii.eqb c "_" || Ascii.eqb (pystr.lower_char c) (pystr.lower_char d))
        && sqlite.like p t'
    end.
Proof. intro H. cbn [sqlite.like]. rewrite H. reflexivity. Qed.

(** [%] takes any run of characters. *)
Lemma like_percent (p t : string) :
  sqlite.like (String "%" p) t = true
  <-> exists a b, t = (a ++ b)%string /\ sqlite.like p b = true.
Proof.
  induction t as [| d t IH]; rewrite like_percent_eq.
  - rewrite orb_false_r. split.
    + intro H. exists "", "". split; [reflexivity | exact H].
    + intros (a & b & E & H). destruct a; [| discriminate E].
      simpl in E. subst b. exact H.
  - split.
    + intro H. apply orb_true_iff in H. destruct H as [H | H].
      * exists "", (String d t). split; [reflexivity | exact H].
      * apply IH in H. destruct H as (a & b & E & H).
        exists (String d a), b. split; [simpl; rewrite E; reflexivity | exact H].
    + intros (a & b & E & H). apply orb_true_iff.
      destruct a as [| x a].
      * simpl in E. subst b. left. exact H.
      * simpl in E. injection E as <- E. right. apply IH.
        exists a, b. split; assumption.
Qed.

Lemma like_any (t : string) : sqlite.like "%" t = true.
Proof.
  apply like_percent. exists t, "". split; [| reflexivity].
  symmetry. apply append_empty_r.
Qed.

Lemma like_same (p : string) : sqlite.like p p = true.
Proof.
  induction p as [| c p IH]; [reflexivity |].
  destruct (Ascii.eqb c "%") eqn:E.
  - apply Ascii.eqb_eq in E. subst c. apply like_percent.
    exists "%"%string, p. split; [reflexivity | exact IH].
  - rewrite (like_char_eq _ _ _ E), Ascii.eqb_refl, orb_true_r. exact IH.
Qed.

Lemma like_app (p q t u : string) :
  sqlite.like p t = true -> sqlite.like q u = true ->
  sqlite.like (p ++ q) (t ++ u) = true.
Proof.
  revert t. induction p as [| c p IH]; intros t Hp Hq.
  - destruct t; [exact Hq | discriminate Hp].
  - destruct (Ascii.eqb c "%") eqn:E.
    + apply Ascii.eqb_eq in E. subst c.
      apply like_percent in Hp. destruct Hp as (a & b & -> & Hb).
      change (String "%" p ++ q)%string with (String "%" (p ++ q)).
      apply like_percent. exists a, (b ++ u)%string.
      split; [apply append_assoc | apply IH; assumption].
    + rewrite (like_char_eq _ _ _ E) in Hp.
      destruct t as [| d t]; [discriminate Hp |].
      apply andb_prop in Hp. destruct Hp as [Hc Hp].
      change (String c p ++ q)%string with (String c (p ++ q)).
      change (String d t ++ u)%string with (String d (t ++ u)).
      rewrite (like_char_eq _ _ _ E), Hc. apply IH; assumption.
Qed.

(** A keyword is found wherever it occurs as written, wildcards or not. *)
Lemma like_occurs (x t : string) :
  occurs_in x t -> sqlite.like ("%" ++ x ++ "%") t = true.
Proof.
  intros (a & b & ->).
  change ("%" ++ x ++ "%")%string with (String "%" (x ++ "%")).
  apply like_percent. exists a, (x ++ b)%string. split; [reflexivity |].
  apply like_app; [apply like_same | apply like_any].
Qed.

Lemma lower_app (a b : string) :
  pystr.lower (a ++ b) = (pystr.lower a ++ pystr.lower b)%string.
Proof. induction a as [| c a IH]; simpl; [reflexivity | rewrite IH; reflexivity]. Qed.

Lemma lower_char_idem (c : ascii) :
  pystr.lower_char (pystr.lower_char c) = pystr.lower_char c.
Proof.
  destruct c as [[] [] [] [] [] [] [] []]; reflexivity.
Qed.







Lemma lower_pattern (keyword : string) :
  sqlite.lower ("%" ++ keyword ++ "%") = ("%" ++ pystr.lower keyword ++ "%")%string.
Proof.
  unfold sqlite.lower.
  change ("%" ++ keyword ++ "%")%string with (String "%" (keyword ++ "%")).
  cbn [pystr.lower]. rewrite lower_app. reflexivity.
Qed.

Lemma is_terminal_eqb (v : SubmissionStatus) :
  negb (sub_status_eqb v accepted || sub_status_eqb v rejected)
  = negb (is_terminal v).
Proof. destruct v; reflexivity. Qed.






(** ** The keyword a proposal suggests *)

Lemma take_word_prefix (s : string) :
  exists b, s = (pystr.take_word s ++ b)%string.
Proof.
  induction s as [| c s [b IH]]; [exists ""%string; reflexivity |].
  cbn [pystr.take_word]. destruct (pystr.space_width (String c s)).
  - exists b. simpl. rewrite <- IH. reflexivity.
  - exists (String c s). reflexivity.
Qed.

(** The first word is a piece of the text. *)
Lemma first_word_go_occurs (s : string) (skip : nat) (w : string) :
  pystr.first_word_go s skip = Some w -> exists a b, s = (a ++ w ++ b)%string.
Proof.
  revert skip. induction s as [| c s IH]; intros skip H; [discriminate H |].
  cbn [pystr.first_word_go] in H.
  assert (Hrest : forall k, pystr.first_word_go s k = Some w ->
                            exists a b, String c s = (a ++ w ++ b)%string).
  { intros k Hk. destruct (IH k Hk) as (a & b & E).
    exists (String c a), b. simpl. rewrite <- E. reflexivity. }
  destruct skip as [| k]; [| exact (Hrest k H)].
  destruct (pystr.space_width (String c s)) as [| k]; [| exact (Hrest k H)].
  injection H as <-. destruct (take_word_prefix (String c s)) as [b Eb].
  exists ""%string, b. exact Eb.
Qed.

Lemma lower_idem (s : string) : pystr.lower (pystr.lower s) = pystr.lower s.
Proof.
  induction s as [| c s IH]; simpl; [reflexivity |].
  rewrite lower_char_idem, IH. reflexivity.
Qed.

Lemma like_number_empty (n : Z) (q : string) :
  sqlite.like (pystr.lower (pystr.of_int n) ++ q) "" = false.
Proof.
  destruct n as [| p | p]; [reflexivity | | reflexivity].
  unfold pystr.of_int. cbn [Z.to_int NilZero.string_of_int].
  rewrite (string_of_uint_not_nil _ (to_uint_not_nil p)).
  pose proof (to_uint_not_nil p) as Hn.
  destruct (Pos.to_uint p); [contradiction | reflexivity ..].
Qed.

(** X6 (the keyword of a proposal).  For a submission that is neither
    accepted nor rejected, when the first word of the title is of ASCII, the
    word that [handle_rejection_proposal] tells the group to type after
    /second (that word in lower case) is a keyword by which
    [get_submission_by_title_keyword] finds the submission; but when the
    title is empty the suggested keyword is the submission's number, and the
    lookup by that keyword does not find it.  A first word with other
    characters is lower-cased by Unicode's tables, and nothing is said of
    it. *)
Theorem proposal_keyword_lookup (st : Store) (s : Submission) :
  In s (submissions st) ->
  is_terminal (status s) = false ->
  (forall kw, state.title_keyword s = Returned (title_word kw) ->
              In s (db.get_submission_by_title_keyword kw st))
  /\ (forall n, state.title_keyword s = Returned (submission_number n) ->
                n = sub_id s
                /\ ~ In s (db.get_submission_by_title_keyword (pystr.of_int n) st)).
Proof.
  intros Hin Ht. unfold state.title_keyword, db.get_submission_by_title_keyword.
  split.
  - intros kw H. apply filter_In. split; [exact Hin |].
    rewrite is_terminal_eqb, Ht, andb_true_r, lower_pattern.
    apply like_occurs. unfold sqlite.lower.
    destruct (pystr.is_empty (title (email s))); [discriminate H |].
    destruct (pystr.first_word (title (email s))) as [w |] eqn:Ew;
      [| discriminate H].
    destruct (pystr.is_ascii w); [| discriminate H].
    injection H as <-.
    destruct (first_word_go_occurs _ _ _ Ew) as (a & b & E).
    rewrite lower_idem. exists (pystr.lower a), (pystr.lower b).
    rewrite <- !lower_app. f_equal. exact E.
  - intros n H.
    destruct (pystr.is_empty (title (email s))) eqn:Ee.
    + injection H as <-. split; [reflexivity |].
      rewrite filter_In, lower_pattern. intros [_ Hl].
      apply andb_prop in Hl. destruct Hl as [Hl _].
      destruct (title (email s)); [| discriminate Ee].
      unfold sqlite.lower in Hl. cbn [pystr.lower] in Hl.
      change ("%" ++ pystr.lower (pystr.of_int (sub_id s)) ++ "%")%string
        with (String "%" (pystr.lower (pystr.of_int (sub_id s)) ++ "%")) in Hl.
      rewrite like_percent_eq, like_number_empty in Hl. discriminate Hl.
    + destruct (pystr.first_word (title (email s))) as [w |];
        [destruct (pystr.is_ascii w) |]; discriminate H.
Qed.

(** The proposal for "Rollups" suggests "rollups", and /second rollups
    finds the submission. *)
Lemma proposal_keyword_lookup_witness :
  In rollups_row (db.get_submission_by_title_keyword "rollups" (store asked_two)).
Proof.
  apply (proposal_keyword_lookup (store asked_two) rollups_row).
  - left. reflexivity.
  - reflexivity.
  - reflexivity.
Defined.

(** The first word of an accented title goes to [str.lower] as it is. *)
Example accented_title_keyword :
  state.title_keyword accented_row = Returned (lowered accented_word).
Proof. reflexivity. Qed.

(** * The mailbox poll *)

(** ** The [bot_state] table *)

Lemma find_update_same_key {R : Type} (p q : R -> bool) (f : R -> R) (l : list R) :
  (forall r, p (f r) = p r) ->
  find p (db.update_where q f l)
  = option_map (fun r => if q r then f r else r) (find p l).
Proof.
  intro H. unfold db.update_where.
  induction l as [| r l IH]; simpl; [reflexivity |].
  destruct (q r) eqn:Hq.
  - rewrite H. destruct (p r); simpl; [rewrite Hq; reflexivity | exact IH].
  - destruct (p r); simpl; [rewrite Hq; reflexivity | exact IH].
Qed.

Lemma has_key_neq (key key' : string) (row : string * string) :
  String.eqb key' key = false -> db.has_key key' row = true ->
  db.has_key key row = false.
Proof.
  unfold db.has_key. intros Hn Hk. apply String.eqb_eq in Hk.
  rewrite Hk. exact Hn.
Qed.

Lemma get_after_set_state (key value key' : string) (default : option string)
    (t : db.BotState) :
  db.get_state key' default (db.set_state key value t)
  = if String.eqb key' key then Some value else db.get_state key' default t.
Proof.
  unfold db.get_state, db.set_state.
  destruct (find (db.has_key key) t) as [row |] eqn:Hf.
  - rewrite find_update_same_key by reflexivity.
    destruct (String.eqb key' key) eqn:E.
    + apply String.eqb_eq in E. subst key'. rewrite Hf. cbn [option_map].
      apply find_some in Hf. destruct Hf as [_ Hk]. rewrite Hk. reflexivity.
    + destruct (find (db.has_key key') t) as [row' |] eqn:Hf'; [| reflexivity].
      cbn [option_map]. apply find_some in Hf'. destruct Hf' as [_ Hk'].
      rewrite (has_key_neq _ _ _ E Hk'). reflexivity.
  - rewrite find_app.
    destruct (String.eqb key' key) eqn:E.
    + apply String.eqb_eq in E. subst key'. rewrite Hf.
      cbn [find]. unfold db.has_key at 1. cbn [fst snd].
      rewrite String.eqb_refl. reflexivity.
    + destruct (find (db.has_key key') t) as [row' |]; [reflexivity |].
      cbn [find]. unfold db.has_key at 1. cbn [fst snd].
      rewrite String.eqb_sym, E. reflexivity.
Qed.

(** X7 (bot state round trip).  After [set_state key value], [get_state]
    gives [value] for [key] and what it gave before for every other key;
    the table keeps its keys, with [key] added at the end when it is new:
    [set_state] never makes a second row for a key. *)
Theorem set_state_get_state (key value key' : string) (default : option string)
    (t : db.BotState) :
  db.get_state key' default (db.set_state key value t)
  = (if String.eqb key' key then Some value else db.get_state key' default t)
  /\ map fst (db.set_state key value t)
     = map fst t ++ (if existsb (db.has_key key) t then [] else [key]).
Proof.
  split; [apply get_after_set_state |].
  unfold db.set_state.
  destruct (find (db.has_key key) t) as [row |] eqn:Hf.
  - assert (He : existsb (db.has_key key) t = true).
    { apply existsb_exists. exists row. apply find_some in Hf. exact Hf. }
    rewrite He, app_nil_r. apply map_update_where. reflexivity.
  - assert (He : existsb (db.has_key key) t = false).
    { destruct (existsb (db.has_key key) t) eqn:He; [| reflexivity].
      apply existsb_exists in He. destruct He as (row & Hin & Hk).
      pose proof (find_none _ _ Hf row Hin) as Hc. congruence. }
    rewrite He, map_app. reflexivity.
Qed.

(** ** The saved timestamp and the poll *)

Lemma poll_loop (env : Env) (polled : list (EmailData * Result llm.Picked))
    (w : World) :
  for_each polled
    (fun email_data =>
       try_except
         (state.handle_new_submission env (fst email_data) (snd email_data))
         (fun _ => ret tt)) w
  = (Returned tt, run (admissions env polled) w).
Proof.
  revert w. induction polled as [| p l IH]; intro w; [reflexivity |].
  cbn [for_each admissions map run step]. unfold bind at 1. unfold try_except at 1.
  destruct (state.handle_new_submission env (fst p) (snd p) w) as [[a | e] w'];
    cbn [snd]; unfold ret; apply IH.
Qed.

(** X8 (the saved timestamp).  When [float] reads back what [str] writes
    for the clock reading [ts], [_load_last_checked_ts] after
    [_save_last_checked_ts ts] is [ts], whatever the table held; on a table
    without the key it is the reading of 24 hours ago. *)
Theorem last_checked_round_trip (str_of_float : Z -> string)
    (float_of_str : string -> Result Z) (env : Env) (ts : Z) (t : db.BotState) :
  float_of_str (str_of_float ts) = Returned ts ->
  pystr.is_empty (str_of_float ts) = false ->
  scheduler._load_last_checked_ts float_of_str env
    (scheduler._save_last_checked_ts str_of_float ts t) = Returned ts
  /\ (db.get_state scheduler._DB_KEY None t = None ->
      scheduler._load_last_checked_ts float_of_str env t
      = Returned (now env - 86400)).
Proof.
  intros Hrt Hne. unfold scheduler._load_last_checked_ts, scheduler._save_last_checked_ts.
  split.
  - rewrite get_after_set_state, String.eqb_refl, Hne.
    exact Hrt.
  - intros ->. reflexivity.
Qed.

(** 1730000000 is written and read back by [str] and [int]. *)
Lemma last_checked_round_trip_witness :
  scheduler._load_last_checked_ts datetime.int (env_at 5)
    (scheduler._save_last_checked_ts pystr.of_int 1730000000 [])
  = Returned 1730000000.
Proof.
  apply (last_checked_round_trip pystr.of_int datetime.int (env_at 5) 1730000000 []).
  - reflexivity.
  - reflexivity.
Defined.

Lemma poll_gmail_polled (str_of_float : Z -> string)
    (float_of_str : string -> Result Z) (env : Env)
    (gmail : Z -> Result (list (EmailData * Result llm.Picked)))
    (b : scheduler.Bot) (last : Z) (polled : list (EmailData * Result llm.Picked)) :
  scheduler._load_last_checked_ts float_of_str env (scheduler.bot_state b)
  = Returned last ->
  gmail last = Returned polled ->
  scheduler._poll_gmail str_of_float float_of_str env gmail b
  = (Returned tt,
     {| scheduler.world := run (admissions env polled) (scheduler.world b);
        scheduler.bot_state :=
          db.set_state scheduler._DB_KEY (str_of_float (now env))
            (scheduler.bot_state b);
        scheduler.reported := scheduler.reported b |}).
Proof.
  intros Hl Hg. unfold scheduler._poll_gmail. rewrite Hl, Hg, poll_loop.
  reflexivity.
Qed.

(** X9 (what a poll does).  Once the saved timestamp is read, [_poll_gmail]
    returns normally whatever happens.  When the mailbox answers, the new
    clock reading is saved and the world is the one reached by admitting the
    polled e-mails one after the other, an exception while handling one of
    them being swallowed; when the mailbox fails, the world and the saved
    timestamp stay as they were and the failure is reported to the operator
    if one is configured. *)
Theorem poll_gmail_outcome (str_of_float : Z -> string)
    (float_of_str : string -> Result Z) (env : Env)
    (gmail : Z -> Result (list (EmailData * Result llm.Picked)))
    (b : scheduler.Bot) (last : Z) :
  scheduler._load_last_checked_ts float_of_str env (scheduler.bot_state b)
  = Returned last ->
  scheduler._poll_gmail str_of_float float_of_str env gmail b
  = match gmail last with
    | Returned polled =>
        (Returned tt,
         {| scheduler.world := run (admissions env polled) (scheduler.world b);
            scheduler.bot_state :=
              db.set_state scheduler._DB_KEY (str_of_float (now env))
                (scheduler.bot_state b);
            scheduler.reported := scheduler.reported b |})
    | Raised e =>
        (Returned tt,
         {| scheduler.world := scheduler.world b;
            scheduler.bot_state := scheduler.bot_state b;
            scheduler.reported :=
              scheduler.reported b
              ++ match operator_user_id (config env) with
                 | Some operator => if truthy (Some operator) then [(operator, e)] else []
                 | None => []
                 end |})
    end.
Proof.
  intro Hl. destruct (gmail last) as [polled | e] eqn:Hg.
  - apply (poll_gmail_polled _ _ _ _ _ _ _ Hl Hg).
  - unfold scheduler._poll_gmail. rewrite Hl, Hg.
    destruct (operator_user_id (config env)) as [operator |];
      [destruct (truthy (Some operator)) |];
      try reflexivity; rewrite app_nil_r; destruct b; reflexivity.
Qed.

(** The first poll of an unreachable mailbox: nothing changes but the
    report to the operator, user 7. *)
Lemma poll_gmail_outcome_witness :
  scheduler._poll_gmail pystr.of_int datetime.int (env_at 100) failing_mailbox
    (fresh_bot asked_one)
  = (Returned tt,
     {| scheduler.world := asked_one; scheduler.bot_state := [];
        scheduler.reported := [(7, ValueError)] |}).
Proof.
  apply (poll_gmail_outcome pystr.of_int datetime.int (env_at 100) failing_mailbox
           (fresh_bot asked_one) (100 - 86400)).
  reflexivity.
Defined.

Lemma count_after_new_submission (env : Env) (e : EmailData)
    (o : Result llm.Picked) (w : World) (gid : string) :
  count_gmail_id gid (store (snd (state.handle_new_submission env e o w)))
  = if String.eqb (gmail_message_id e) gid
    then Nat.max 1 (count_gmail_id gid (store w))
    else count_gmail_id gid (store w).
Proof.
  unfold count_gmail_id. rewrite new_submission_gmail_ids.
  destruct (db.get_submission_by_gmail_id (gmail_message_id e) (store w)) as [s |] eqn:Hg.
  - destruct (String.eqb (gmail_message_id e) gid) eqn:E; [| reflexivity].
    apply String.eqb_eq in E. subst gid.
    destruct (filter _ (gmail_ids (store w))) eqn:Hf; [| simpl; lia].
    apply find_gmail_id_column in Hf. congruence.
  - rewrite filter_app, length_app. cbn [filter].
    destruct (String.eqb (gmail_message_id e) gid) eqn:E; cbn [List.length]; [| lia].
    apply String.eqb_eq in E. subst gid.
    apply find_gmail_id_column in Hg. rewrite Hg. reflexivity.
Qed.

Lemma count_after_admissions (env : Env)
    (polled : list (EmailData * Result llm.Picked)) (w : World) (gid : string) :
  count_gmail_id gid (store (run (admissions env polled) w))
  = if polled_id gid polled
    then Nat.max 1 (count_gmail_id gid (store w))
    else count_gmail_id gid (store w).
Proof.
  revert w. induction polled as [| p l IH]; intro w; [reflexivity |].
  cbn [admissions map run step polled_id existsb].
  fold (admissions env l). fold (polled_id gid l).
  rewrite IH, count_after_new_submission.
  destruct (String.eqb (gmail_message_id (fst p)) gid);
    destruct (polled_id gid l); cbn [orb]; lia.
Qed.

(** X10 (a poll stores each e-mail once).  After a poll that the mailbox
    answered, every polled message id is carried by one submission if it was
    new and by as many as before otherwise, whatever the oracle answered or
    raised and however often the id came in the batch; the other ids are
    carried as before. *)
Theorem poll_stores_each_once (str_of_float : Z -> string)
    (float_of_str : string -> Result Z) (env : Env)
    (gmail : Z -> Result (list (EmailData * Result llm.Picked)))
    (b : scheduler.Bot) (last : Z) (polled : list (EmailData * Result llm.Picked))
    (gid : string) :
  scheduler._load_last_checked_ts float_of_str env (scheduler.bot_state b)
  = Returned last ->
  gmail last = Returned polled ->
  count_gmail_id gid
    (store (scheduler.world
              (snd (scheduler._poll_gmail str_of_float float_of_str env gmail b))))
  = if polled_id gid polled
    then Nat.max 1 (count_gmail_id gid (store (scheduler.world b)))
    else count_gmail_id gid (store (scheduler.world b)).
Proof.
  intros Hl Hg. rewrite (poll_gmail_polled _ _ _ _ _ _ _ Hl Hg). cbn [snd scheduler.world].
  apply count_after_admissions.
Qed.

(** A batch with "msg-1" twice and "msg-2", for which the oracle fails,
    polled into a world that has "msg-1" already: one row for each. *)
Lemma poll_stores_each_once_witness :
  count_gmail_id "msg-1"
    (store (scheduler.world
              (snd (scheduler._poll_gmail pystr.of_int datetime.int (env_at 100)
                      sample_mailbox (fresh_bot asked_one))))) = 1%nat
  /\ count_gmail_id "msg-2"
       (store (scheduler.world
                 (snd (scheduler._poll_gmail pystr.of_int datetime.int (env_at 100)
                         sample_mailbox (fresh_bot asked_one))))) = 1%nat.
Proof.
  split.
  - exact (poll_stores_each_once pystr.of_int datetime.int (env_at 100)
             sample_mailbox (fresh_bot asked_one) (100 - 86400)
             [(sample_mail, picks "alice" "bob"); (other_mail, Raised ValueError);
              (sample_mail, picks "carol" "")]
             "msg-1" eq_refl eq_refl).
  - exact (poll_stores_each_once pystr.of_int datetime.int (env_at 100)
             sample_mailbox (fresh_bot asked_one) (100 - 86400)
             [(sample_mail, picks "alice" "bob"); (other_mail, Raised ValueError);
              (sample_mail, picks "carol" "")]
             "msg-2" eq_refl eq_refl).
Defined.

(** * What the handlers do to the store, statement by statement *)

Lemma db_steps_trans (st1 st2 st3 : Store) :
  db_steps st1 st2 -> db_steps st2 st3 -> db_steps st1 st3.
Proof.
  intros H12 H23. induction H23 as [| a b c _ IH Hbc]; [exact H12 |].
  eapply issued_more; [apply IH; exact H12 | exact Hbc].
Qed.

Lemma db_steps_one (st st' : Store) : db_step st st' -> db_steps st st'.
Proof. intro H. eapply issued_more; [apply issued_none | exact H]. Qed.

Lemma issues_ret {A : Type} (a : A) : issues (ret a).
Proof. intro w. apply issued_none. Qed.

Lemma issues_raise {A : Type} (e : Exn) : issues (@raise A e).
Proof. intro w. apply issued_none. Qed.

Lemma issues_query {A : Type} (f : Store -> A) : issues (query f).
Proof. intro w. apply issued_none. Qed.

Lemma issues_emit (o : Outgoing) : issues (emit o).
Proof. intro w. apply issued_none. Qed.

Lemma issues_lift {A : Type} (r : Result A) : issues (lift r).
Proof. intro w. apply issued_none. Qed.

Lemma issues_exec (f : Store -> Store) :
  (forall st, db_step st (f st)) -> issues (exec f).
Proof. intros H w. apply db_steps_one. apply H. Qed.

Lemma issues_call {A : Type} (f : Store -> Result A * Store) :
  (forall st, db_step st (snd (f st))) -> issues (call f).
Proof.
  intros H w. unfold call. specialize (H (store w)).
  destruct (f (store w)) as [r st]. apply db_steps_one. exact H.
Qed.

Lemma issues_bind {A B : Type} (m : M A) (k : A -> M B) :
  issues m -> (forall a, issues (k a)) -> issues (bind m k).
Proof.
  intros Hm Hk w. unfold bind. specialize (Hm w).
  destruct (m w) as [[a | e] w']; cbn [snd] in *; [| exact Hm].
  eapply db_steps_trans; [exact Hm | apply Hk].
Qed.

(** What follows a pure step may use that the step returned. *)
Lemma issues_bind_lift {A B : Type} (r : Result A) (k : A -> M B) :
  (forall a, r = Returned a -> issues (k a)) -> issues (bind (lift r) k).
Proof.
  intros Hk w. unfold bind, lift.
  destruct r as [a | e]; [apply (Hk a eq_refl) | apply issued_none].
Qed.

Lemma issues_try_except {A : Type} (body : M A) (handler : Exn -> M A) :
  issues body -> (forall e, issues (handler e)) -> issues (try_except body handler).
Proof.
  intros Hb Hh w. unfold try_except. specialize (Hb w).
  destruct (body w) as [[a | e] w']; cbn [snd] in *; [exact Hb |].
  eapply db_steps_trans; [exact Hb | apply Hh].
Qed.

Lemma issues_for_each {A B : Type} (l : list A) (f : A -> M B) :
  (forall x, issues (f x)) -> issues (for_each l f).
Proof.
  intro Hf. induction l as [| x l IH]; [apply issues_ret |].
  cbn [for_each]. apply issues_bind; [apply Hf | intros _; exact IH].
Qed.

(** The publish date is never a Saturday or a Sunday. *)
Lemma publish_date_weekday (env : Env) (tz tstr : string) (r : datetime.DateTime) :
  state.compute_publish_date env tz tstr = Returned r ->
  ~ is_weekend_day (datetime.ordinal r).
Proof.
  unfold state.compute_publish_date, and_then. intro H.
  destruct (local_now env tz) as [today |]; [| discriminate H].
  destruct (datetime.plus_one_day today) as [c |]; [| discriminate H].
  destruct (state.skip_weekend c) as [c' |] eqn:Hs; [| discriminate H].
  destruct (match nth_error (pystr.split tstr ":") 0 with
            | Some h => datetime.int h
            | None => Raised IndexError
            end) as [h |]; [| discriminate H].
  destruct (match nth_error (pystr.split tstr ":") 1 with
            | Some m => datetime.int m
            | None => Raised IndexError
            end) as [m |]; [| discriminate H].
  unfold datetime.replace_time in H.
  destruct ((0 <=? h) && (h <=? 23) && (0 <=? m) && (m <=? 59)); [| discriminate H].
  injection H as <-. cbn [datetime.ordinal].
  apply skip_weekend_returned in Hs. destruct Hs as (_ & Hw & _).
  unfold is_weekend_day. unfold datetime.weekday in Hw. lia.
Qed.

(** Apply the rules along the text of a handler. *)
Ltac issues_rule :=
  lazymatch goal with
  | |- issues (ret _) => apply issues_ret
  | |- issues (raise _) => apply issues_raise
  | |- issues (query _) => apply issues_query
  | |- issues (emit _) => apply issues_emit
  | |- issues (lift _) => apply issues_lift
  | |- issues (bind (lift _) _) => apply issues_bind_lift; intros
  | |- issues (bind _ _) => apply issues_bind; [| intros]
  | |- issues (try_except _ _) => apply issues_try_except; [| intros]
  | |- issues (for_each _ _) => apply issues_for_each; intros
  | |- issues (exec _) => apply issues_exec; intro; constructor; auto
  | |- issues (call _) => apply issues_call; intro; constructor; auto
  | |- issues (match ?x with _ => _ end) => destruct x
  end.

Ltac issues_rules := repeat issues_rule.

Lemma transition_to_under_review_issues (env : Env) (sub : Z) :
  issues (state._transition_to_under_review env sub).
Proof. unfold state._transition_to_under_review. issues_rules. Qed.

Lemma new_submission_issues (env : Env) (e : EmailData) (o : Result llm.Picked) :
  issues (state.handle_new_submission env e o).
Proof. unfold state.handle_new_submission. issues_rules. Qed.

Lemma accept_issues (env : Env) (sub : Z) (u : string) (tg : Z) :
  issues (state.handle_reviewer_accept env sub u tg).
Proof.
  unfold state.handle_reviewer_accept. issues_rules;
    apply transition_to_under_review_issues.
Qed.

Lemma decline_issues (env : Env) (sub : Z) (u : string) (tg : Z)
    (o : Result llm.Picked) :
  issues (state.handle_reviewer_decline env sub u tg o).
Proof. unfold state.handle_reviewer_decline. issues_rules. Qed.

Lemma transition_to_accepted_issues (env : Env) (sub : Z) (l : list Assignment) :
  issues (state._transition_to_accepted env sub l).
Proof.
  unfold state._transition_to_accepted. issues_rules.
  eapply publish_date_weekday. eassumption.
Qed.

Lemma done_issues (env : Env) (sub : Z) (u : string) (tg : Z) :
  issues (state.handle_reviewer_done env sub u tg).
Proof.
  unfold state.handle_reviewer_done. issues_rules;
    apply transition_to_accepted_issues.
Qed.

Lemma propose_issues (env : Env) (sub : Z) (by_ why : string) :
  issues (state.handle_rejection_proposal env sub by_ why).
Proof. unfold state.handle_rejection_proposal. issues_rules. Qed.

Lemma confirm_issues (env : Env) (sub : Z) (caller : Z) :
  issues (state.handle_confirm_rejection env sub caller).
Proof. unfold state.handle_confirm_rejection. issues_rules. Qed.

Lemma override_issues (env : Env) (sub : Z) (l : list string) :
  issues (state.handle_override env sub l).
Proof. unfold state.handle_override. issues_rules. Qed.

Lemma send_followup_issues (env : Env) (f : Followup) :
  issues (state.send_followup env f).
Proof. unfold state.send_followup. cbv zeta. issues_rules. Qed.

Lemma check_followups_issues (env : Env) : issues (scheduler._check_followups env).
Proof.
  unfold scheduler._check_followups. issues_rules. apply send_followup_issues.
Qed.

Lemma latest_proposed_in (l : list Rejection) (r : Rejection) :
  db.latest_proposed l = Some r -> In r l.
Proof.
  revert r. induction l as [| x l IH]; intros r H; [discriminate H |].
  cbn [db.latest_proposed] in H.
  destruct (db.latest_proposed l) as [r' |].
  - destruct (proposed_at x <? proposed_at r'); injection H as <-.
    + right. apply IH. reflexivity.
    + left. reflexivity.
  - injection H as <-. left. reflexivity.
Qed.

Lemma active_rejection_in (sub : Z) (st : Store) (r : Rejection) :
  db.get_active_rejection sub st = Some r ->
  In r (rejections st) /\ r_submission_id r = sub.
Proof.
  unfold db.get_active_rejection. intro H.
  apply latest_proposed_in, filter_In in H. destruct H as [Hin Hs].
  split; [exact Hin | apply Z.eqb_eq; exact Hs].
Qed.

Lemma bind_issues_from {A B : Type} (m : M A) (k : A -> M B) (w : World) :
  db_steps (store w) (store (snd (m w))) ->
  (forall a, issues (k a)) ->
  db_steps (store w) (store (snd (bind m k w))).
Proof.
  intros Hm Hk. unfold bind.
  destruct (m w) as [[a | e] w']; cbn [snd] in *; [| exact Hm].
  eapply db_steps_trans; [exact Hm | apply Hk].
Qed.

Lemma second_issues (env : Env) (sub : Z) (u : string) :
  issues (state.handle_second env sub u).
Proof.
  intro w. unfold state.handle_second. unfold bind at 1. unfold query at 1.
  destruct (db.get_active_rejection sub (store w)) as [r |] eqn:Hr;
    [| apply issued_none].
  destruct (String.eqb u (proposed_by r)) eqn:He; [apply issued_none |].
  apply bind_issues_from.
  - unfold call.
    destruct (db.add_second_to_rejection (r_id r) u (store w)) as [l st'] eqn:Ha.
    cbn [snd store]. apply db_steps_one.
    replace st' with (snd (db.add_second_to_rejection (r_id r) u (store w)))
      by (rewrite Ha; reflexivity).
    apply issue_add_second.
    + apply (active_rejection_in _ _ _ Hr).
    + apply String.eqb_neq. exact He.
  - intro l. issues_rules.
Qed.

(** Every event changes the store by statements of [db.py] only. *)
Lemma step_issues (env : Env) (ev : Event) (w : World) :
  db_steps (store w) (store (step env ev w)).
Proof.
  destruct ev; cbn [step].
  - apply new_submission_issues.
  - apply accept_issues.
  - apply decline_issues.
  - apply done_issues.
  - apply propose_issues.
  - apply second_issues.
  - apply confirm_issues.
  - apply override_issues.
  - apply check_followups_issues.
Qed.

Lemma run_issues (trace : list (Env * Event)) (w : World) :
  db_steps (store w) (store (run trace w)).
Proof.
  revert w. induction trace as [| [env ev] rest IH]; intro w; [apply issued_none |].
  cbn [run]. eapply db_steps_trans; [apply step_issues | apply IH].
Qed.

(** What every statement keeps, every reachable store has. *)
Lemma db_steps_keep (P : Store -> Prop) :
  (forall st st', db_step st st' -> P st -> P st') ->
  forall st st', db_steps st st' -> P st -> P st'.
Proof.
  intros Hstep st st' H. induction H as [| a b c _ IH Hbc]; [tauto |].
  intro Ha. apply (Hstep b c Hbc). apply IH. exact Ha.
Qed.

Lemma reachable_keeps (P : Store -> Prop) :
  (forall st st', db_step st st' -> P st -> P st') ->
  P empty_store ->
  forall trace, P (store (run trace empty_world)).
Proof.
  intros Hstep H0 trace.
  apply (db_steps_keep P Hstep empty_store); [apply (run_issues trace empty_world) | exact H0].
Qed.

(** * Invariants of every reachable store *)

(** ** Rows belong to submissions *)

Lemma known_step (st st' : Store) (x : Z) :
  db_step st st' -> known st x -> known st' x.
Proof.
  intros H Hk. unfold known in *.
  destruct H;
    try (unfold db.insert_assignment, db.insert_followup, db.insert_rejection;
         destruct (db.get_submission_by_id sub st); exact Hk);
    try exact Hk.
  - unfold db.insert_submission.
    destruct (db.get_submission_by_gmail_id (gmail_message_id e) st); [exact Hk |].
    unfold db.get_submission_by_id in *. cbn [snd submissions].
    rewrite find_app. destruct (find _ (submissions st)); [discriminate | contradiction].
  - apply exists_after_update; [reflexivity | exact Hk].
  - apply exists_after_update; [reflexivity | exact Hk].
  - apply exists_after_update; [reflexivity | exact Hk].
  - apply exists_after_update; [reflexivity | exact Hk].
Qed.

(** Open a statement up to the tables it writes. *)
Ltac open_statement :=
  unfold db.insert_submission, db.insert_assignment, db.insert_followup,
    db.insert_rejection, db.add_second_to_rejection,
    db.update_submission_status, db.set_submission_accepted,
    db.set_submission_rejected, db.set_tg_status_message_id,
    db.update_assignment_status, db.mark_assignment_done,
    db.clear_pending_assignments, db.mark_followup_sent,
    db.set_rejection_proposal_message_id,
    db.with_submissions, db.with_assignments, db.with_followups,
    db.with_rejections;
  repeat match goal with
         | |- context [match db.get_submission_by_id ?s ?st with _ => _ end] =>
             destruct (db.get_submission_by_id s st) eqn:?
         | |- context [match db.get_submission_by_gmail_id ?s ?st with _ => _ end] =>
             destruct (db.get_submission_by_gmail_id s st) eqn:?
         end;
  cbn [snd fst submissions assignments followups rejections assignment_history
       sqlite_sequence].

(** Where an assignment row comes from: it was there, perhaps with another
    status, or it is new, for a submission that exists, with a history row
    beside it. *)
Lemma assignment_origin (st st' : Store) (a : Assignment) :
  db_step st st' -> In a (assignments st') ->
  (exists a0, In a0 (assignments st)
              /\ a_submission_id a = a_submission_id a0
              /\ reviewer_tg_username a = reviewer_tg_username a0
              /\ assigned_at a = assigned_at a0)
  \/ (known st (a_submission_id a)
      /\ exists h, In h (assignment_history st') /\ history_of a h).
Proof.
  intro H. destruct H; open_statement; intro Hin.
  all: try (left; exists a; repeat split; assumption).
  - apply in_app_or in Hin. destruct Hin as [Hin | [<- | []]].
    + left. exists a. repeat split; assumption.
    + right. cbn [a_submission_id]. split; [unfold known; congruence |].
      eexists. split; [apply in_or_app; right; left; reflexivity |].
      repeat split.
  - apply in_update_where in Hin. destruct Hin as (r & Hin & ->).
    left. exists r. destruct (db.is_pair sub username r); repeat split; assumption.
  - apply in_update_where in Hin. destruct Hin as (r & Hin & ->).
    left. exists r. destruct (db.is_pair sub username r); repeat split; assumption.
  - apply filter_In in Hin. left. exists a. repeat split; apply Hin.
Qed.

Lemma history_grows (st st' : Store) :
  db_step st st' ->
  exists l, assignment_history st' = assignment_history st ++ l
            /\ forall h, In h l -> known st (h_submission_id h).
Proof.
  intro H. destruct H; open_statement.
  all: try (exists []; split; [symmetry; apply app_nil_r | intros h []]).
  eexists. split; [reflexivity |].
  intros h [<- | []]. cbn [h_submission_id]. unfold known. congruence.
Qed.

Lemma followup_origin (st st' : Store) (f : Followup) :
  db_step st st' -> In f (followups st') ->
  (exists f0, In f0 (followups st) /\ f_submission_id f = f_submission_id f0)
  \/ known st (f_submission_id f).
Proof.
  intro H. destruct H; open_statement; intro Hin.
  all: try (left; exists f; split; [assumption | reflexivity]).
  - apply in_app_or in Hin. destruct Hin as [Hin | [<- | []]].
    + left. exists f. split; [assumption | reflexivity].
    + right. cbn [f_submission_id]. unfold known. congruence.
  - apply in_update_where in Hin. destruct Hin as (r & Hin & ->).
    left. exists r. destruct (f_id r =? followup_id); split; try assumption; reflexivity.
Qed.

Lemma rejection_origin (st st' : Store) (r : Rejection) :
  db_step st st' -> In r (rejections st') ->
  (exists r0, In r0 (rejections st) /\ r_submission_id r = r_submission_id r0)
  \/ known st (r_submission_id r).
Proof.
  intro H. destruct H; open_statement; intro Hin.
  all: try (left; exists r; split; [assumption | reflexivity]).
  - apply in_app_or in Hin. destruct Hin as [Hin | [<- | []]].
    + left. exists r. split; [assumption | reflexivity].
    + right. cbn [r_submission_id]. unfold known. congruence.
  - apply in_update_where in Hin. destruct Hin as (r0 & Hin & ->).
    left. exists r0. destruct (r_id r0 =? r_id rejection); split; try assumption; reflexivity.
  - apply in_update_where in Hin. destruct Hin as (r0 & Hin & ->).
    left. exists r0. destruct (r_id r0 =? rejection_id); split; try assumption; reflexivity.
Qed.

Lemma foreign_keys_step (st st' : Store) :
  db_step st st' -> foreign_keys st -> foreign_keys st'.
Proof.
  intros H (Ha & Hf & Hr & Hh).
  assert (K : forall x, known st x -> known st' x)
    by (intros x Hx; exact (known_step _ _ _ H Hx)).
  repeat split.
  - intros a Hin. apply K.
    destruct (assignment_origin _ _ _ H Hin) as [(a0 & H0 & -> & _) | [Hk _]];
      [apply Ha; exact H0 | exact Hk].
  - intros f Hin. apply K.
    destruct (followup_origin _ _ _ H Hin) as [(f0 & H0 & ->) | Hk];
      [apply Hf; exact H0 | exact Hk].
  - intros r Hin. apply K.
    destruct (rejection_origin _ _ _ H Hin) as [(r0 & H0 & ->) | Hk];
      [apply Hr; exact H0 | exact Hk].
  - intros h Hin. apply K.
    destruct (history_grows _ _ H) as (l & E & Hl). rewrite E in Hin.
    apply in_app_or in Hin. destruct Hin as [Hin | Hin];
      [apply Hh; exact Hin | apply Hl; exact Hin].
Qed.

Lemma empty_store_foreign_keys : foreign_keys empty_store.
Proof. repeat split; intros x []. Qed.

Lemma reachable_foreign_keys (trace : list (Env * Event)) :
  foreign_keys (store (run trace empty_world)).
Proof.
  apply (reachable_keeps foreign_keys foreign_keys_step empty_store_foreign_keys).
Qed.

(** ** The workload history *)

Lemma history_covers_step (st st' : Store) :
  db_step st st' -> history_covers st -> history_covers st'.
Proof.
  intros H Hc a Hin.
  destruct (assignment_origin _ _ _ H Hin) as [(a0 & H0 & E1 & E2 & E3) | [_ Hnew]];
    [| exact Hnew].
  destruct (Hc a0 H0) as (h & Hh & F1 & F2 & F3).
  destruct (history_grows _ _ H) as (l & E & _).
  exists h. split; [rewrite E; apply in_or_app; left; exact Hh |].
  unfold history_of. rewrite E1, E2, E3. repeat split; assumption.
Qed.

Lemma history_steps_grow (st st' : Store) :
  db_steps st st' -> exists l, assignment_history st' = assignment_history st ++ l.
Proof.
  intro H. induction H as [| a b c _ [l IH] Hbc].
  - exists []. symmetry. apply app_nil_r.
  - destruct (history_grows _ _ Hbc) as (l' & E & _).
    exists (l ++ l'). rewrite E, IH, app_assoc. reflexivity.
Qed.

Lemma run_app (t1 t2 : list (Env * Event)) (w : World) :
  run (t1 ++ t2) w = run t2 (run t1 w).
Proof.
  revert w. induction t1 as [| [env ev] t1 IH]; intro w; [reflexivity |].
  cbn [app run]. apply IH.
Qed.

(** ** Proposals and their seconders *)

Lemma nodup_keys_snoc {R : Type} (key : R -> Z) (l : list R) (seq : Z) (row : R) :
  key row = db.next_rowid seq key l ->
  NoDup (map key l) -> NoDup (map key (l ++ [row])).
Proof.
  intros Hk Hn. rewrite map_app. cbn [map].
  apply NoDup_app; [exact Hn | constructor; [intros [] | constructor] |].
  intros x Hx [<- | []]. apply in_map_iff in Hx. destruct Hx as (r & Hr & Hin).
  apply (next_rowid_fresh seq key) in Hin. lia.
Qed.

Lemma nodup_key_inj {R : Type} (key : R -> Z) (l : list R) (a b : R) :
  NoDup (map key l) -> In a l -> In b l -> key a = key b -> a = b.
Proof.
  induction l as [| x l IH]; intros Hn Ha Hb E; [destruct Ha |].
  cbn [map] in Hn. inversion Hn as [| k ks Hx Hl]. subst.
  destruct Ha as [-> | Ha]; destruct Hb as [-> | Hb].
  - reflexivity.
  - exfalso. apply Hx. rewrite E. apply in_map. exact Hb.
  - exfalso. apply Hx. rewrite <- E. apply in_map. exact Ha.
  - apply IH; assumption.
Qed.

Lemma find_by_key {R : Type} (key : R -> Z) (l : list R) (a : R) :
  NoDup (map key l) -> In a l -> find (fun r => key r =? key a) l = Some a.
Proof.
  intros Hn Ha.
  destruct (find (fun r => key r =? key a) l) as [b |] eqn:E.
  - apply find_some in E. destruct E as [Hb Hk]. apply Z.eqb_eq in Hk.
    f_equal. apply (nodup_key_inj key l); assumption.
  - pose proof (find_none _ _ E a Ha) as Hc. cbn beta in Hc.
    rewrite Z.eqb_refl in Hc. discriminate Hc.
Qed.

Lemma mem_in (x : string) (l : list string) : pystr.mem x l = true <-> In x l.
Proof.
  induction l as [| y l IH]; cbn [pystr.mem In]; [split; [discriminate | tauto] |].
  rewrite orb_true_iff, IH, String.eqb_eq. split; intros [H | H]; auto.
Qed.

Lemma seconds_wf_step (st st' : Store) :
  db_step st st' -> seconds_wf st -> seconds_wf st'.
Proof.
  intros H [Hn Hs]. destruct H; open_statement; try (split; assumption).
  - (* insert_rejection *)
    split.
    + apply (nodup_keys_snoc r_id _ (seq_rejections (sqlite_sequence st)));
        [reflexivity | exact Hn].
    + intros r Hin. apply in_app_or in Hin. destruct Hin as [Hin | [<- | []]];
        [apply Hs; exact Hin |].
      cbn [seconds proposed_by]. split; [constructor | intros []].
  - (* add_second *)
    rewrite (find_by_key r_id _ _ Hn H).
    split; cbn [rejections]; [rewrite map_update_where by reflexivity; exact Hn |].
    intros r Hin. apply in_update_where in Hin. destruct Hin as (r0 & Hin & ->).
    destruct (r_id r0 =? r_id rejection) eqn:E; [| apply Hs; exact Hin].
    apply Z.eqb_eq in E.
    assert (r0 = rejection) by (apply (nodup_key_inj r_id (rejections st)); assumption).
    subst r0. cbn [db.with_seconds seconds proposed_by].
    destruct (Hs rejection H) as [Hnd Hp].
    destruct (pystr.mem username (seconds rejection)) eqn:Em; [split; assumption |].
    split.
    + apply NoDup_app; [exact Hnd | constructor; [intros [] | constructor] |].
      intros x Hx [<- | []].
      apply mem_in in Hx. congruence.
    + intro Hc. apply in_app_or in Hc. destruct Hc as [Hc | [Hc | []]];
        [exact (Hp Hc) | congruence].
  - (* set_rejection_proposal_message_id *)
    split; cbn [rejections]; [rewrite map_update_where by reflexivity; exact Hn |].
    intros r Hin. apply in_update_where in Hin. destruct Hin as (r0 & Hin & ->).
    destruct (r_id r0 =? rejection_id); [| apply Hs; exact Hin].
    cbn [seconds proposed_by]. apply Hs. exact Hin.
Qed.

Lemma empty_store_seconds_wf : seconds_wf empty_store.
Proof. split; [constructor | intros r []]. Qed.

(** ** Dates and status *)

Lemma dates_fit_step (st st' : Store) :
  db_step st st' ->
  (forall s, In s (submissions st) -> dates_fit s) ->
  forall s, In s (submissions st') -> dates_fit s.
Proof.
  intros H Hd. destruct H; open_statement; try exact Hd; intros s Hin.
  - (* insert_submission *)
    apply in_app_or in Hin. destruct Hin as [Hin | [<- | []]]; [apply Hd; exact Hin |].
    split; [| split]; cbn; intros; discriminate.
  - (* update_submission_status *)
    apply in_update_where in Hin. destruct Hin as (s0 & Hin & ->).
    destruct (sub_id s0 =? sub); [| apply Hd; exact Hin].
    destruct (Hd s0 Hin) as (Hp & _ & _).
    split; [| split]; cbn [db.with_status status publish_date]; [exact Hp | |];
      intro Hv; destruct H as [-> | ->]; discriminate Hv.
  - (* set_submission_accepted *)
    apply in_update_where in Hin. destruct Hin as (s0 & Hin & ->).
    destruct (sub_id s0 =? sub); [| apply Hd; exact Hin].
    split; [| split]; cbn.
    + intros d Hday. injection Hday as <-. exact H.
    + intros _. split; discriminate.
    + discriminate.
  - (* set_submission_rejected *)
    apply in_update_where in Hin. destruct Hin as (s0 & Hin & ->).
    destruct (sub_id s0 =? sub); [| apply Hd; exact Hin].
    destruct (Hd s0 Hin) as (Hp & _ & _).
    split; [| split]; cbn; [exact Hp | discriminate | discriminate].
  - (* set_tg_status_message_id *)
    apply in_update_where in Hin. destruct Hin as (s0 & Hin & ->).
    destruct (sub_id s0 =? sub); [| apply Hd; exact Hin].
    exact (Hd s0 Hin).
Qed.

(** ** The invariants, stated *)

(** X11 (rows belong to submissions).  In every store the state machine
    reaches from the empty one, each assignment, follow-up and rejection,
    and each row of the workload history (for which the schema has no
    constraint), carries the id of a submission that has a row. *)
Theorem rows_belong_to_submissions (trace : list (Env * Event)) :
  foreign_keys (store (run trace empty_world)).
Proof. apply reachable_foreign_keys. Qed.

(** X12 (the workload history).  In every reachable store each assignment
    has a history row with its submission, reviewer and time; and whatever
    happens later, an override included, the history only grows at its end:
    no row of it is changed or deleted. *)
Theorem history_is_kept (trace later : list (Env * Event)) :
  history_covers (store (run trace empty_world))
  /\ exists l, assignment_history (store (run (trace ++ later) empty_world))
               = assignment_history (store (run trace empty_world)) ++ l.
Proof.
  split.
  - apply (reachable_keeps history_covers history_covers_step).
    intros a [].
  - rewrite run_app. apply history_steps_grow. apply run_issues.
Qed.

(** X13 (seconders).  In every reachable store the seconders of a
    proposal are listed once each and the proposer is not among them. *)
Theorem seconders_distinct (trace : list (Env * Event)) (r : Rejection) :
  In r (rejections (store (run trace empty_world))) ->
  NoDup (seconds r) /\ ~ In (proposed_by r) (seconds r).
Proof.
  intro Hin.
  apply (reachable_keeps seconds_wf seconds_wf_step empty_store_seconds_wf trace).
  exact Hin.
Qed.

(** Carol's proposal, seconded by alice and bob. *)
Lemma seconders_distinct_witness :
  NoDup ["alice"; "bob"] /\ ~ In "carol" ["alice"; "bob"].
Proof.
  apply (seconders_distinct
           [(env_at 10, Admit sample_mail (picks "alice" "bob"));
            (env_at 20, Propose 1 "carol" "off topic");
            (env_at 30, Second 1 "alice");
            (env_at 40, Second 1 "bob");
            (env_at 50, Propose 1 "dave" "too long")] carols_proposal).
  vm_compute. left. reflexivity.
Defined.

(** X14 (dates fit the status).  In every reachable store a submission's
    publish date, if it has one, is not a Saturday or Sunday; an accepted
    submission has a publish date and the time of its acceptance, a
    rejected one the time of its rejection. *)
Theorem dates_fit_status (trace : list (Env * Event)) (s : Submission) :
  In s (submissions (store (run trace empty_world))) -> dates_fit s.
Proof.
  revert s.
  apply (reachable_keeps (fun st => forall s, In s (submissions st) -> dates_fit s)
           dates_fit_step).
  intros s [].
Qed.

(** The submission accepted on Friday is published on Monday. *)
Lemma dates_fit_status_witness : dates_fit published_row.
Proof.
  apply (dates_fit_status full_review published_row).
  vm_compute. left. reflexivity.
Defined.

(** * How the handlers end *)

















